(** * The Wecraft scoring engine: trust, impact, role compatibility and
      recruiter match calculators, and the explanation generator.

    A shallow embedding of the TypeScript engine ([scores/trust.ts],
    [scores/impact.ts], [scores/compatibility.ts], [scores/recruiterMatch.ts],
    [utils/explanation-generator.ts]) together with the properties the
    specification states about it; and of the code around the engine that
    feeds it and stores what it returns: the input builders of the
    background jobs ([jobs/inngest.ts]), the GitHub sync
    ([convex/github.ts]), the normalization and the rate-limit tests of the
    GitHub analyzer ([utils/github-analyzer.ts]) and the Convex functions on
    jobs, contacts, users and scores ([convex/jobs.ts], [convex/users.ts]),
    with properties read off that code.

    Modelling conventions.
    - A JavaScript [number] is an IEEE 754 binary64 value: Rocq's primitive
      [float].  Arithmetic, comparisons, NaN and the infinities are the
      machine's own, so a concrete run computes what the engine computes.
      [Math.min], [Math.max], [Math.round] and the rendering of a number in
      a template literal are defined as the language fixes them.
    - [x.length] and [set.size] are natural numbers, converted with
      [JS.of_nat] where the source does arithmetic on them.
    - A [Date] is its time value, an integer number of milliseconds since
      the epoch (only valid dates are represented).
    - [new Date()] reads the host clock.  The clock is the state of a state
      monad: a stream of the readings still to come, one per call.
    - [Math.log10] and [Math.pow], whose precision the language leaves to
      the implementation, and the local calendar of the host are fields of
      the class [Host].
    - A [Set<string>] is the list of its elements in insertion order, a
      [Map] the list of its entries.
    - A string is the UTF-8 form of its text, one [ascii] per byte.
      [toLowerCase] is the lower-casing of the Unicode standard, with its
      two rules for a capital sigma and for a capital I with a dot above;
      the tables are those of Unicode 14.0.
    - What a fetch returned is an argument of the function that uses it;
      the parsing and the printing of dates are fields of the class
      [Locale].
    - The Convex database is a record of tables, each the list of its
      documents in the order of their creation; a mutation returns the new
      database, or throws. *)

From Stdlib Require Import Floats ZArith PArith List String Ascii Bool Lia.
From Stdlib Require Import Sorting.Sorted Sorting.Permutation.
From ExtLib Require Import Structures.Monad Data.Monads.StateMonad.
Import ListNotations MonadNotation.
Set Warnings "-inexact-float,-register-all".

(* ===================================================================== *)
(** ** The JavaScript fragment the calculators rely on                    *)
(* ===================================================================== *)

Module JS.

Definition number := float.

(** The number denoted by an integer (rounded to nearest, as a literal is). *)
Definition of_Z (z : Z) : number := SF2Prim (binary_normalize prec emax z 0 false).
Definition of_nat (n : nat) : number := of_Z (Z.of_nat n).

(** [a > b] and [a >= b]; both are false as soon as one side is NaN. *)
Definition gtb (a b : number) : bool := PrimFloat.ltb b a.
Definition geb (a b : number) : bool := PrimFloat.leb b a.

(** [Math.min(a, b)] and [Math.max(a, b)]: NaN if either argument is NaN,
    and [-0] counts as smaller than [+0]. *)
Definition Math_min (a b : number) : number :=
  if is_nan a || is_nan b then nan
  else if PrimFloat.ltb a b then a
  else if PrimFloat.ltb b a then b
  else if get_sign a then a else b.

Definition Math_max (a b : number) : number :=
  if is_nan a || is_nan b then nan
  else if PrimFloat.ltb a b then b
  else if PrimFloat.ltb b a then a
  else if get_sign a then b else a.

(** Truthiness of a number, and [x || d] on numbers. *)
Definition truthy (x : number) : bool := negb (is_zero x || is_nan x).
Definition or_default (x d : number) : number := if truthy x then x else d.

(** Truthiness of a [string | null] field, and [s || ''] on it. *)
Definition truthy_str (s : option string) : bool :=
  match s with
  | Some (String _ _) => true
  | _ => false
  end.
Definition or_empty (s : option string) : string :=
  match s with
  | Some t => t
  | None => EmptyString
  end.

(** *** Strings *)

(** A string is the UTF-8 form of the text: one [ascii] per byte.  It is
    read as code points where the language works on characters. *)
Inductive Unit :=
| Code (cp : Z)       (* a code point *)
| Stray (b : ascii).  (* a byte that is not part of a well-formed sequence *)

Definition byte (c : ascii) : Z := Z.of_N (N_of_ascii c).
Definition char (n : Z) : ascii := ascii_of_N (Z.to_N n).

Definition continuation (c : ascii) : option Z :=
  let n := byte c in
  if (128 <=? n)%Z && (n <? 192)%Z then Some (n - 128)%Z else None.

Fixpoint decodeUTF8 (s : string) : list Unit :=
  match s with
  | EmptyString => []
  | String b1 t =>
      let n1 := byte b1 in
      if (n1 <? 128)%Z then Code n1 :: decodeUTF8 t
      else
        match t with
        | String b2 t2 =>
            match continuation b2 with
            | Some n2 =>
                if (194 <=? n1)%Z && (n1 <? 224)%Z
                then Code ((n1 - 192) * 64 + n2)%Z :: decodeUTF8 t2
                else
                  match t2 with
                  | String b3 t3 =>
                      match continuation b3 with
                      | Some n3 =>
                          let cp3 := ((n1 - 224) * 4096 + n2 * 64 + n3)%Z in
                          if (224 <=? n1)%Z && (n1 <? 240)%Z && (2048 <=? cp3)%Z
                          then Code cp3 :: decodeUTF8 t3
                          else
                            match t3 with
                            | String b4 t4 =>
                                match continuation b4 with
                                | Some n4 =>
                                    let cp4 :=
                                      ((n1 - 240) * 262144 + n2 * 4096 + n3 * 64 + n4)%Z in
                                    if (240 <=? n1)%Z && (n1 <? 248)%Z
                                       && (65536 <=? cp4)%Z && (cp4 <=? 1114111)%Z
                                    then Code cp4 :: decodeUTF8 t4
                                    else Stray b1 :: decodeUTF8 t
                                | None => Stray b1 :: decodeUTF8 t
                                end
                            | EmptyString => Stray b1 :: decodeUTF8 t
                            end
                      | None => Stray b1 :: decodeUTF8 t
                      end
                  | EmptyString => Stray b1 :: decodeUTF8 t
                  end
            | None => Stray b1 :: decodeUTF8 t
            end
        | EmptyString => Stray b1 :: decodeUTF8 t
        end
  end.

Definition encodeUTF8 (u : Unit) : string :=
  match u with
  | Stray b => String b EmptyString
  | Code cp =>
      let tail (n : Z) := char (128 + n mod 64)%Z in
      if (cp <? 128)%Z then String (char cp) EmptyString
      else if (cp <? 2048)%Z then
        String (char (192 + cp / 64)%Z) (String (tail cp) EmptyString)
      else if (cp <? 65536)%Z then
        String (char (224 + cp / 4096)%Z)
          (String (tail (cp / 64)%Z) (String (tail cp) EmptyString))
      else
        String (char (240 + cp / 262144)%Z)
          (String (tail (cp / 4096)%Z)
             (String (tail (cp / 64)%Z) (String (tail cp) EmptyString)))
  end.

(** The lowercase mappings of the Unicode Character Database (14.0), as
    runs [(first, last, step, delta)]: a code point [first + k * step] up to
    [last] maps to itself plus [delta].  The first run is A-Z. *)
Definition lowerRuns : list (Z * Z * Z * Z) :=
  [ (65, 90, 1, 32); (192, 214, 1, 32); (216, 222, 1, 32); (256, 302, 2, 1); (306, 310, 2, 1);
    (313, 327, 2, 1); (330, 374, 2, 1); (376, 376, 1, -121); (377, 381, 2, 1);
    (385, 385, 1, 210); (386, 388, 2, 1); (390, 390, 1, 206); (391, 391, 1, 1);
    (393, 394, 1, 205); (395, 395, 1, 1); (398, 398, 1, 79); (399, 399, 1, 202);
    (400, 400, 1, 203); (401, 401, 1, 1); (403, 403, 1, 205); (404, 404, 1, 207);
    (406, 406, 1, 211); (407, 407, 1, 209); (408, 408, 1, 1); (412, 412, 1, 211);
    (413, 413, 1, 213); (415, 415, 1, 214); (416, 420, 2, 1); (422, 422, 1, 218);
    (423, 423, 1, 1); (425, 425, 1, 218); (428, 428, 1, 1); (430, 430, 1, 218);
    (431, 431, 1, 1); (433, 434, 1, 217); (435, 437, 2, 1); (439, 439, 1, 219);
    (440, 440, 1, 1); (444, 444, 1, 1); (452, 452, 1, 2); (453, 453, 1, 1); (455, 455, 1, 2);
    (456, 456, 1, 1); (458, 458, 1, 2); (459, 475, 2, 1); (478, 494, 2, 1); (497, 497, 1, 2);
    (498, 500, 2, 1); (502, 502, 1, -97); (503, 503, 1, -56); (504, 542, 2, 1);
    (544, 544, 1, -130); (546, 562, 2, 1); (570, 570, 1, 10795); (571, 571, 1, 1);
    (573, 573, 1, -163); (574, 574, 1, 10792); (577, 577, 1, 1); (579, 579, 1, -195);
    (580, 580, 1, 69); (581, 581, 1, 71); (582, 590, 2, 1); (880, 882, 2, 1); (886, 886, 1, 1);
    (895, 895, 1, 116); (902, 902, 1, 38); (904, 906, 1, 37); (908, 908, 1, 64);
    (910, 911, 1, 63); (913, 929, 1, 32); (931, 939, 1, 32); (975, 975, 1, 8);
    (984, 1006, 2, 1); (1012, 1012, 1, -60); (1015, 1015, 1, 1); (1017, 1017, 1, -7);
    (1018, 1018, 1, 1); (1021, 1023, 1, -130); (1024, 1039, 1, 80); (1040, 1071, 1, 32);
    (1120, 1152, 2, 1); (1162, 1214, 2, 1); (1216, 1216, 1, 15); (1217, 1229, 2, 1);
    (1232, 1326, 2, 1); (1329, 1366, 1, 48); (4256, 4293, 1, 7264); (4295, 4295, 1, 7264);
    (4301, 4301, 1, 7264); (5024, 5103, 1, 38864); (5104, 5109, 1, 8); (7312, 7354, 1, -3008);
    (7357, 7359, 1, -3008); (7680, 7828, 2, 1); (7838, 7838, 1, -7615); (7840, 7934, 2, 1);
    (7944, 7951, 1, -8); (7960, 7965, 1, -8); (7976, 7983, 1, -8); (7992, 7999, 1, -8);
    (8008, 8013, 1, -8); (8025, 8031, 2, -8); (8040, 8047, 1, -8); (8072, 8079, 1, -8);
    (8088, 8095, 1, -8); (8104, 8111, 1, -8); (8120, 8121, 1, -8); (8122, 8123, 1, -74);
    (8124, 8124, 1, -9); (8136, 8139, 1, -86); (8140, 8140, 1, -9); (8152, 8153, 1, -8);
    (8154, 8155, 1, -100); (8168, 8169, 1, -8); (8170, 8171, 1, -112); (8172, 8172, 1, -7);
    (8184, 8185, 1, -128); (8186, 8187, 1, -126); (8188, 8188, 1, -9); (8486, 8486, 1, -7517);
    (8490, 8490, 1, -8383); (8491, 8491, 1, -8262); (8498, 8498, 1, 28); (8544, 8559, 1, 16);
    (8579, 8579, 1, 1); (9398, 9423, 1, 26); (11264, 11311, 1, 48); (11360, 11360, 1, 1);
    (11362, 11362, 1, -10743); (11363, 11363, 1, -3814); (11364, 11364, 1, -10727);
    (11367, 11371, 2, 1); (11373, 11373, 1, -10780); (11374, 11374, 1, -10749);
    (11375, 11375, 1, -10783); (11376, 11376, 1, -10782); (11378, 11378, 1, 1);
    (11381, 11381, 1, 1); (11390, 11391, 1, -10815); (11392, 11490, 2, 1); (11499, 11501, 2, 1);
    (11506, 11506, 1, 1); (42560, 42604, 2, 1); (42624, 42650, 2, 1); (42786, 42798, 2, 1);
    (42802, 42862, 2, 1); (42873, 42875, 2, 1); (42877, 42877, 1, -35332); (42878, 42886, 2, 1);
    (42891, 42891, 1, 1); (42893, 42893, 1, -42280); (42896, 42898, 2, 1); (42902, 42920, 2, 1);
    (42922, 42922, 1, -42308); (42923, 42923, 1, -42319); (42924, 42924, 1, -42315);
    (42925, 42925, 1, -42305); (42926, 42926, 1, -42308); (42928, 42928, 1, -42258);
    (42929, 42929, 1, -42282); (42930, 42930, 1, -42261); (42931, 42931, 1, 928);
    (42932, 42946, 2, 1); (42948, 42948, 1, -48); (42949, 42949, 1, -42307);
    (42950, 42950, 1, -35384); (42951, 42953, 2, 1); (42960, 42960, 1, 1); (42966, 42968, 2, 1);
    (42997, 42997, 1, 1); (65313, 65338, 1, 32); (66560, 66599, 1, 40); (66736, 66771, 1, 40);
    (66928, 66938, 1, 39); (66940, 66954, 1, 39); (66956, 66962, 1, 39); (66964, 66965, 1, 39);
    (68736, 68786, 1, 64); (71840, 71871, 1, 32); (93760, 93791, 1, 32); (125184, 125217, 1, 34) ]%Z.

(** The code points with the property Case_Ignorable, and those that are
    Cased and not Case_Ignorable, as ranges [(first, last)]. *)
Definition caseIgnorableRanges : list (Z * Z) :=
  [ (39, 39); (46, 46); (58, 58); (94, 94); (96, 96); (168, 168); (173, 173); (175, 175);
    (180, 180); (183, 184); (688, 879); (884, 885); (890, 890); (900, 901); (903, 903);
    (1155, 1161); (1369, 1369); (1375, 1375); (1425, 1469); (1471, 1471); (1473, 1474);
    (1476, 1477); (1479, 1479); (1524, 1524); (1536, 1541); (1552, 1562); (1564, 1564);
    (1600, 1600); (1611, 1631); (1648, 1648); (1750, 1757); (1759, 1768); (1770, 1773);
    (1807, 1807); (1809, 1809); (1840, 1866); (1958, 1968); (2027, 2037); (2042, 2042);
    (2045, 2045); (2070, 2093); (2137, 2139); (2184, 2184); (2192, 2193); (2200, 2207);
    (2249, 2306); (2362, 2362); (2364, 2364); (2369, 2376); (2381, 2381); (2385, 2391);
    (2402, 2403); (2417, 2417); (2433, 2433); (2492, 2492); (2497, 2500); (2509, 2509);
    (2530, 2531); (2558, 2558); (2561, 2562); (2620, 2620); (2625, 2626); (2631, 2632);
    (2635, 2637); (2641, 2641); (2672, 2673); (2677, 2677); (2689, 2690); (2748, 2748);
    (2753, 2757); (2759, 2760); (2765, 2765); (2786, 2787); (2810, 2815); (2817, 2817);
    (2876, 2876); (2879, 2879); (2881, 2884); (2893, 2893); (2901, 2902); (2914, 2915);
    (2946, 2946); (3008, 3008); (3021, 3021); (3072, 3072); (3076, 3076); (3132, 3132);
    (3134, 3136); (3142, 3144); (3146, 3149); (3157, 3158); (3170, 3171); (3201, 3201);
    (3260, 3260); (3263, 3263); (3270, 3270); (3276, 3277); (3298, 3299); (3328, 3329);
    (3387, 3388); (3393, 3396); (3405, 3405); (3426, 3427); (3457, 3457); (3530, 3530);
    (3538, 3540); (3542, 3542); (3633, 3633); (3636, 3642); (3654, 3662); (3761, 3761);
    (3764, 3772); (3782, 3782); (3784, 3789); (3864, 3865); (3893, 3893); (3895, 3895);
    (3897, 3897); (3953, 3966); (3968, 3972); (3974, 3975); (3981, 3991); (3993, 4028);
    (4038, 4038); (4141, 4144); (4146, 4151); (4153, 4154); (4157, 4158); (4184, 4185);
    (4190, 4192); (4209, 4212); (4226, 4226); (4229, 4230); (4237, 4237); (4253, 4253);
    (4348, 4348); (4957, 4959); (5906, 5908); (5938, 5939); (5970, 5971); (6002, 6003);
    (6068, 6069); (6071, 6077); (6086, 6086); (6089, 6099); (6103, 6103); (6109, 6109);
    (6155, 6159); (6211, 6211); (6277, 6278); (6313, 6313); (6432, 6434); (6439, 6440);
    (6450, 6450); (6457, 6459); (6679, 6680); (6683, 6683); (6742, 6742); (6744, 6750);
    (6752, 6752); (6754, 6754); (6757, 6764); (6771, 6780); (6783, 6783); (6823, 6823);
    (6832, 6862); (6912, 6915); (6964, 6964); (6966, 6970); (6972, 6972); (6978, 6978);
    (7019, 7027); (7040, 7041); (7074, 7077); (7080, 7081); (7083, 7085); (7142, 7142);
    (7144, 7145); (7149, 7149); (7151, 7153); (7212, 7219); (7222, 7223); (7288, 7293);
    (7376, 7378); (7380, 7392); (7394, 7400); (7405, 7405); (7412, 7412); (7416, 7417);
    (7468, 7530); (7544, 7544); (7579, 7679); (8125, 8125); (8127, 8129); (8141, 8143);
    (8157, 8159); (8173, 8175); (8189, 8190); (8203, 8207); (8216, 8217); (8228, 8228);
    (8231, 8231); (8234, 8238); (8288, 8292); (8294, 8303); (8305, 8305); (8319, 8319);
    (8336, 8348); (8400, 8432); (11388, 11389); (11503, 11505); (11631, 11631); (11647, 11647);
    (11744, 11775); (11823, 11823); (12293, 12293); (12330, 12333); (12337, 12341);
    (12347, 12347); (12441, 12446); (12540, 12542); (40981, 40981); (42232, 42237);
    (42508, 42508); (42607, 42610); (42612, 42621); (42623, 42623); (42652, 42655);
    (42736, 42737); (42752, 42785); (42864, 42864); (42888, 42890); (42994, 42996);
    (43000, 43001); (43010, 43010); (43014, 43014); (43019, 43019); (43045, 43046);
    (43052, 43052); (43204, 43205); (43232, 43249); (43263, 43263); (43302, 43309);
    (43335, 43345); (43392, 43394); (43443, 43443); (43446, 43449); (43452, 43453);
    (43471, 43471); (43493, 43494); (43561, 43566); (43569, 43570); (43573, 43574);
    (43587, 43587); (43596, 43596); (43632, 43632); (43644, 43644); (43696, 43696);
    (43698, 43700); (43703, 43704); (43710, 43711); (43713, 43713); (43741, 43741);
    (43756, 43757); (43763, 43764); (43766, 43766); (43867, 43871); (43881, 43883);
    (44005, 44005); (44008, 44008); (44013, 44013); (64286, 64286); (64434, 64450);
    (65024, 65039); (65043, 65043); (65056, 65071); (65106, 65106); (65109, 65109);
    (65279, 65279); (65287, 65287); (65294, 65294); (65306, 65306); (65342, 65342);
    (65344, 65344); (65392, 65392); (65438, 65439); (65507, 65507); (65529, 65531);
    (66045, 66045); (66272, 66272); (66422, 66426); (67456, 67461); (67463, 67504);
    (67506, 67514); (68097, 68099); (68101, 68102); (68108, 68111); (68152, 68154);
    (68159, 68159); (68325, 68326); (68900, 68903); (69291, 69292); (69446, 69456);
    (69506, 69509); (69633, 69633); (69688, 69702); (69744, 69744); (69747, 69748);
    (69759, 69761); (69811, 69814); (69817, 69818); (69821, 69821); (69826, 69826);
    (69837, 69837); (69888, 69890); (69927, 69931); (69933, 69940); (70003, 70003);
    (70016, 70017); (70070, 70078); (70089, 70092); (70095, 70095); (70191, 70193);
    (70196, 70196); (70198, 70199); (70206, 70206); (70367, 70367); (70371, 70378);
    (70400, 70401); (70459, 70460); (70464, 70464); (70502, 70508); (70512, 70516);
    (70712, 70719); (70722, 70724); (70726, 70726); (70750, 70750); (70835, 70840);
    (70842, 70842); (70847, 70848); (70850, 70851); (71090, 71093); (71100, 71101);
    (71103, 71104); (71132, 71133); (71219, 71226); (71229, 71229); (71231, 71232);
    (71339, 71339); (71341, 71341); (71344, 71349); (71351, 71351); (71453, 71455);
    (71458, 71461); (71463, 71467); (71727, 71735); (71737, 71738); (71995, 71996);
    (71998, 71998); (72003, 72003); (72148, 72151); (72154, 72155); (72160, 72160);
    (72193, 72202); (72243, 72248); (72251, 72254); (72263, 72263); (72273, 72278);
    (72281, 72283); (72330, 72342); (72344, 72345); (72752, 72758); (72760, 72765);
    (72767, 72767); (72850, 72871); (72874, 72880); (72882, 72883); (72885, 72886);
    (73009, 73014); (73018, 73018); (73020, 73021); (73023, 73029); (73031, 73031);
    (73104, 73105); (73109, 73109); (73111, 73111); (73459, 73460); (78896, 78904);
    (92912, 92916); (92976, 92982); (92992, 92995); (94031, 94031); (94095, 94111);
    (94176, 94177); (94179, 94180); (110576, 110579); (110581, 110587); (110589, 110590);
    (113821, 113822); (113824, 113827); (118528, 118573); (118576, 118598); (119143, 119145);
    (119155, 119170); (119173, 119179); (119210, 119213); (119362, 119364); (121344, 121398);
    (121403, 121452); (121461, 121461); (121476, 121476); (121499, 121503); (121505, 121519);
    (122880, 122886); (122888, 122904); (122907, 122913); (122915, 122916); (122918, 122922);
    (123184, 123197); (123566, 123566); (123628, 123631); (125136, 125142); (125252, 125259);
    (127995, 127999); (917505, 917505); (917536, 917631); (917760, 917999) ]%Z.

Definition casedRanges : list (Z * Z) :=
  [ (65, 90); (97, 122); (170, 170); (181, 181); (186, 186); (192, 214); (216, 246); (248, 442);
    (444, 447); (452, 659); (661, 687); (880, 883); (886, 887); (891, 893); (895, 895);
    (902, 902); (904, 906); (908, 908); (910, 929); (931, 1013); (1015, 1153); (1162, 1327);
    (1329, 1366); (1376, 1416); (4256, 4293); (4295, 4295); (4301, 4301); (4304, 4346);
    (4349, 4351); (5024, 5109); (5112, 5117); (7296, 7304); (7312, 7354); (7357, 7359);
    (7424, 7467); (7531, 7543); (7545, 7578); (7680, 7957); (7960, 7965); (7968, 8005);
    (8008, 8013); (8016, 8023); (8025, 8025); (8027, 8027); (8029, 8029); (8031, 8061);
    (8064, 8116); (8118, 8124); (8126, 8126); (8130, 8132); (8134, 8140); (8144, 8147);
    (8150, 8155); (8160, 8172); (8178, 8180); (8182, 8188); (8450, 8450); (8455, 8455);
    (8458, 8467); (8469, 8469); (8473, 8477); (8484, 8484); (8486, 8486); (8488, 8488);
    (8490, 8493); (8495, 8500); (8505, 8505); (8508, 8511); (8517, 8521); (8526, 8526);
    (8544, 8575); (8579, 8580); (9398, 9449); (11264, 11387); (11390, 11492); (11499, 11502);
    (11506, 11507); (11520, 11557); (11559, 11559); (11565, 11565); (42560, 42605);
    (42624, 42651); (42786, 42863); (42865, 42887); (42891, 42894); (42896, 42954);
    (42960, 42961); (42963, 42963); (42965, 42969); (42997, 42998); (43002, 43002);
    (43824, 43866); (43872, 43880); (43888, 43967); (64256, 64262); (64275, 64279);
    (65313, 65338); (65345, 65370); (66560, 66639); (66736, 66771); (66776, 66811);
    (66928, 66938); (66940, 66954); (66956, 66962); (66964, 66965); (66967, 66977);
    (66979, 66993); (66995, 67001); (67003, 67004); (68736, 68786); (68800, 68850);
    (71840, 71903); (93760, 93823); (119808, 119892); (119894, 119964); (119966, 119967);
    (119970, 119970); (119973, 119974); (119977, 119980); (119982, 119993); (119995, 119995);
    (119997, 120003); (120005, 120069); (120071, 120074); (120077, 120084); (120086, 120092);
    (120094, 120121); (120123, 120126); (120128, 120132); (120134, 120134); (120138, 120144);
    (120146, 120485); (120488, 120512); (120514, 120538); (120540, 120570); (120572, 120596);
    (120598, 120628); (120630, 120654); (120656, 120686); (120688, 120712); (120714, 120744);
    (120746, 120770); (120772, 120779); (122624, 122633); (122635, 122654); (125184, 125251);
    (127280, 127305); (127312, 127337); (127344, 127369) ]%Z.

Definition inRanges (ranges : list (Z * Z)) (cp : Z) : bool :=
  existsb (fun '(first, last) => if (cp <? first)%Z then false else (cp <=? last)%Z) ranges.

Definition lowerOf (cp : Z) : Z :=
  if (cp <? 128)%Z then (if (65 <=? cp)%Z && (cp <=? 90)%Z then cp + 32 else cp)%Z
  else
    match find (fun '(first, last, step, _) =>
                  if (cp <? first)%Z then false
                  else if (last <? cp)%Z then false
                  else ((cp - first) mod step =? 0)%Z)
               lowerRuns with
    | Some (_, _, _, delta) => (cp + delta)%Z
    | None => cp
    end.

(** Whether a cased letter is next, case-ignorable characters aside. *)
Fixpoint casedNext (l : list Unit) : bool :=
  match l with
  | Code cp :: t => if inRanges caseIgnorableRanges cp then casedNext t
                    else inRanges casedRanges cp
  | _ => false
  end.

(** The lower-casing of the characters [l] that follow the characters
    [before] (the nearest first).  A capital sigma becomes the final sigma
    when a cased letter comes before it and none after it; a capital I with
    a dot above becomes an i and a combining dot. *)
Fixpoint lowerUnits (before l : list Unit) : list Unit :=
  match l with
  | [] => []
  | Stray b :: t => Stray b :: lowerUnits (Stray b :: before) t
  | Code cp :: t =>
      (if (cp =? 931)%Z
       then [Code (if casedNext before && negb (casedNext t) then 962 else 963)%Z]
       else if (cp =? 304)%Z then [Code 105%Z; Code 775%Z]
       else [Code (lowerOf cp)])
      ++ lowerUnits (Code cp :: before) t
  end.

(** [s.toLowerCase()] *)
Definition toLowerCase (s : string) : string :=
  String.concat EmptyString (map encodeUTF8 (lowerUnits [] (decodeUTF8 s))).

(** [s.includes(sub)] *)
Fixpoint includes (s sub : string) : bool :=
  prefix sub s ||
  match s with
  | EmptyString => false
  | String _ t => includes t sub
  end.

(** [xs.join(sep)] *)
Definition join (sep : string) (xs : list string) : string := String.concat sep xs.

(** [s.substring(s.lastIndexOf('.'))]: the suffix that starts at the last
    dot; the whole string when there is no dot ([lastIndexOf] is then -1,
    which [substring] clamps to 0). *)
Fixpoint fromLastDot (s : string) : option string :=
  match s with
  | EmptyString => None
  | String c t =>
      match fromLastDot t with
      | Some r => Some r
      | None => if Ascii.eqb c "."%char then Some s else None
      end
  end.
Definition substringFromLastDot (s : string) : string :=
  match fromLastDot s with
  | Some r => r
  | None => s
  end.

(** Decimal rendering of an integer, as a template literal renders a
    length or a counter. *)
Definition digit (d : Z) : string := String (ascii_of_nat (48 + Z.to_nat d)) EmptyString.
Fixpoint digits (fuel : nat) (z : Z) : string :=
  match fuel with
  | O => EmptyString
  | S f => if (z <? 10)%Z then digit z
           else (digits f (z / 10) ++ digit (z mod 10))%string
  end.
Definition decimalZ (z : Z) : string :=
  let render (a : Z) := digits (S (Z.to_nat (Z.log2 a))) a in
  if (z <? 0)%Z then ("-" ++ render (- z)%Z)%string else render z.
Definition decimal (n : nat) : string := decimalZ (Z.of_nat n).

(** *** [Math.round]: the closest integer, ties toward +infinity, computed
    on the exact value [(-1)^s * m * 2^e] of its argument. *)
Definition Math_round (x : number) : number :=
  match Prim2SF x with
  | S754_finite s m e =>
      if (0 <=? e)%Z then x
      else
        let k := (- e)%Z in
        let q := Z.shiftr ((if s then - (2 * Zpos m) else 2 * Zpos m) + 2 ^ k) (k + 1) in
        if (q =? 0)%Z then (if s then (-0)%float else 0%float) else of_Z q
  | _ => x
  end.

(** *** [Number::toString] (radix 10), as a template literal renders a
    number: the shortest digit string [s] of [k] digits with
    [s * 10^(n-k)] rounding to the number, laid out by the position [n] of
    the decimal point.  Exact rationals are pairs [numerator / denominator]. *)
Definition ratio := (Z * Z)%type.
Definition ratio_of (x : number) : ratio :=
  match Prim2SF x with
  | S754_finite s m e =>
      let n := if s then Zneg m else Zpos m in
      if (0 <=? e)%Z then (n * 2 ^ e, 1)%Z else (n, 2 ^ (- e))%Z
  | _ => (0, 1)%Z
  end.
Definition ratio_ltb (a b : ratio) : bool := (fst a * snd b <? fst b * snd a)%Z.
Definition ratio_leb (a b : ratio) : bool := (fst a * snd b <=? fst b * snd a)%Z.
Definition ratio_mid (a b : ratio) : ratio :=
  (fst a * snd b + fst b * snd a, 2 * snd a * snd b)%Z.
Definition ratio_dist (a b : ratio) : ratio :=
  (Z.abs (fst a * snd b - fst b * snd a), snd a * snd b)%Z.
Definition times10pow (s p : Z) : ratio :=
  if (0 <=? p)%Z then (s * 10 ^ p, 1)%Z else (s, 10 ^ (- p))%Z.

(** Does the real [v] round (to nearest, ties to even) to the positive
    finite number [x]? *)
Definition mantissa_even (x : number) : bool :=
  match Prim2SF x with
  | S754_finite _ m _ => Z.even (Zpos m)
  | _ => true
  end.
Definition rounds_to (v : ratio) (x : number) : bool :=
  let qx := ratio_of x in
  let lo := ratio_of (next_down x) in
  let hi :=
    if is_infinity (next_up x)
    then (2 * fst qx * snd lo - fst lo * snd qx, snd qx * snd lo)%Z
    else ratio_of (next_up x) in
  let l := ratio_mid lo qx in
  let h := ratio_mid qx hi in
  if mantissa_even x then ratio_leb l v && ratio_leb v h
  else ratio_ltb l v && ratio_ltb v h.

(** The [n] with [10^(n-1) <= x < 10^n]. *)
Fixpoint pointPosition (fuel : nat) (qx : ratio) (n : Z) : Z :=
  match fuel with
  | O => n
  | S f =>
      if ratio_ltb qx (times10pow 1 (n - 1)) then pointPosition f qx (n - 1)
      else if ratio_leb (times10pow 1 n) qx then pointPosition f qx (n + 1)
      else n
  end.

Record Digits := mkDigits { digits_s : Z; digits_k : Z; digits_n : Z }.

Fixpoint shortestDigits (fuel : nat) (x : number) (qx : ratio) (n0 k : Z) : Digits :=
  match fuel with
  | O => mkDigits 0 1 0
  | S f =>
      let p := (n0 - k)%Z in
      let scale := times10pow 1 p in
      let s_lo := ((fst qx * snd scale) / (snd qx * fst scale))%Z in
      let s_hi := (s_lo + 1)%Z in
      let v_lo := times10pow s_lo p in
      let v_hi := times10pow s_hi p in
      let ok_lo := (10 ^ (k - 1) <=? s_lo)%Z && rounds_to v_lo x in
      let ok_hi := rounds_to v_hi x in
      let lower := mkDigits s_lo k n0 in
      let upper :=
        if (s_hi =? 10 ^ k)%Z then mkDigits (10 ^ (k - 1)) k (n0 + 1)
        else mkDigits s_hi k n0 in
      if ok_lo && ok_hi then
        let d_lo := ratio_dist v_lo qx in
        let d_hi := ratio_dist v_hi qx in
        if ratio_ltb d_lo d_hi then lower
        else if ratio_ltb d_hi d_lo then upper
        else if Z.even s_lo then lower else upper
      else if ok_lo then lower
      else if ok_hi then upper
      else shortestDigits f x qx n0 (k + 1)
  end.

Fixpoint zeros (n : nat) : string :=
  match n with
  | O => EmptyString
  | S k => String "0" (zeros k)
  end.

Definition layout (d : Digits) : string :=
  let s := decimalZ (digits_s d) in
  let k := digits_k d in
  let n := digits_n d in
  (if (k <=? n)%Z && (n <=? 21)%Z then s ++ zeros (Z.to_nat (n - k))
   else if (0 <? n)%Z && (n <=? 21)%Z then
     substring 0 (Z.to_nat n) s ++ "." ++ substring (Z.to_nat n) (Z.to_nat (k - n)) s
   else if (-6 <? n)%Z && (n <=? 0)%Z then "0." ++ zeros (Z.to_nat (- n)) ++ s
   else
     let e := (n - 1)%Z in
     let es := (if (e <? 0)%Z then "-" else "+") ++ decimalZ (Z.abs e) in
     if (k =? 1)%Z then s ++ "e" ++ es
     else substring 0 1 s ++ "." ++ substring 1 (Z.to_nat (k - 1)) s ++ "e" ++ es)%string.

Definition Number_toString (x : number) : string :=
  if is_nan x then "NaN"%string
  else if is_zero x then "0"%string
  else if is_infinity x then (if get_sign x then "-Infinity" else "Infinity")%string
  else
    let a := abs x in
    let qx := ratio_of a in
    let n0 := pointPosition 800 qx 1 in
    ((if get_sign x then "-" else "") ++ layout (shortestDigits 18 a qx n0 1))%string.

(** *** [Array.prototype.includes] / [some] on string lists, and [Set<string>]
    as the list of its elements in insertion order. *)
Definition mem (s : string) (xs : list string) : bool := existsb (String.eqb s) xs.
Definition set_add (s : string) (xs : list string) : list string :=
  if mem s xs then xs else xs ++ [s].
Definition set_of (xs : list string) : list string :=
  fold_left (fun acc s => set_add s acc) xs [].

(** The same for a set whose elements are compared with [eqb]. *)
Definition set_add_by {A : Type} (eqb : A -> A -> bool) (x : A) (xs : list A) : list A :=
  if existsb (eqb x) xs then xs else xs ++ [x].
Definition set_of_by {A : Type} (eqb : A -> A -> bool) (xs : list A) : list A :=
  fold_left (fun acc x => set_add_by eqb x acc) xs [].

(** *** [Map<K, V>] as the list of its entries in insertion order. *)
Fixpoint Map_get {K V : Type} (eqb : K -> K -> bool) (k : K) (m : list (K * V)) : option V :=
  match m with
  | [] => None
  | (k', v) :: t => if eqb k k' then Some v else Map_get eqb k t
  end.
Fixpoint Map_set {K V : Type} (eqb : K -> K -> bool) (k : K) (v : V) (m : list (K * V))
  : list (K * V) :=
  match m with
  | [] => [(k, v)]
  | (k', v') :: t => if eqb k k' then (k', v) :: t else (k', v') :: Map_set eqb k v t
  end.

(** [xs.slice(-n)]: the last [n] elements. *)
Definition slice_last {A : Type} (n : nat) (xs : list A) : list A :=
  skipn (List.length xs - n) xs.

End JS.

Notation "a >? b" := (JS.gtb a b) (at level 70, no associativity) : float_scope.
Notation "a >=? b" := (JS.geb a b) (at level 70, no associativity) : float_scope.
Notation "a === b" := (PrimFloat.eqb a b) (at level 70, no associativity) : float_scope.

(** [o ?? d] / a key of an object spread: the override when present. *)
Definition pick {A : Type} (o : option A) (d : A) : A :=
  match o with
  | Some v => v
  | None => d
  end.

(** [xs.push(x)] *)
Definition push {A : Type} (x : A) (xs : list A) : list A := xs ++ [x].

(** [if (b) xs.push(s)] *)
Definition pushIf (b : bool) (s : string) (xs : list string) : list string :=
  if b then push s xs else xs.

(* ===================================================================== *)
(** ** The host: clock, transcendental functions, local calendar          *)
(* ===================================================================== *)

Definition Date := Z.
Definition getTime (d : Date) : float := JS.of_Z d.

(** What the engine takes from its JavaScript host besides arithmetic. *)
Class Host := {
  Math_log10 : float -> float;
  Math_pow : float -> float -> float;
  (** [d.getFullYear()] and [d.getMonth()], in the host's local time zone *)
  getFullYear : Date -> Z;
  getMonth : Date -> Z
}.

(** The readings the clock will return, in order. *)
Definition Clock := nat -> Date.

(** [new Date()]: take the next reading. *)
Definition newDate : state Clock Date :=
  mkState (fun c => (c O, fun n => c (S n))).

(** [xs.map(f)] for an [f] that reads the clock: left to right. *)
Fixpoint mapClock {A B : Type} (f : A -> state Clock B) (xs : list A)
  : state Clock (list B) :=
  match xs with
  | [] => ret []
  | x :: t => (y <- f x ;; ys <- mapClock f t ;; ret (y :: ys))%monad
  end.

(** Run a computation against a clock and keep its result. *)
Definition runWith {A : Type} (c : Clock) (m : state Clock A) : A :=
  fst (runState m c).

(** A component of a result: its score and the breakdown behind it. *)
Record Scored (B : Type) := mkScored { score : float; breakdown : B }.
Arguments mkScored {B}.
Arguments score {B}.
Arguments breakdown {B}.

(** *** Objects as they serialize

    The value [JSON.stringify] walks: an object is the list of its own
    properties, in order. *)
Module JSON.

Inductive value :=
| Bool (b : bool)
| Number (x : float)
| Str (s : string)
| Arr (items : list value)
| Obj (properties : list (string * value)).

(** Every property name that occurs in a value, at any depth. *)
Fixpoint keys (v : value) : list string :=
  match v with
  | Arr items => flat_map keys items
  | Obj properties => flat_map (fun '(k, x) => k :: keys x) properties
  | _ => []
  end.

Definition strings (xs : list string) : value := Arr (map Str xs).

End JSON.

(* ===================================================================== *)
(** ** GitHub data ([types/github.ts])                                    *)
(* ===================================================================== *)

Module MergedPR.
Record t := mk {
  id : string;
  repository : string;
  mergedAt : Date;
  mergedBy : string;
  author : string;
  reviewCommentsReceived : float;
  reviewRounds : float;
  filesChanged : float;
  directoriesTouched : float;
  isMaintainerMerge : bool;
  isFork : bool;
  timeToMerge : float
}.
End MergedPR.

Module CodeReview.
Record t := mk {
  id : string;
  repository : string;
  prId : string;
  reviewedAt : Date;
  reviewer : string;
  reviewee : string;
  commentCount : float
}.
End CodeReview.

Module Issue.
Record t := mk {
  id : string;
  repository : string;
  openedAt : Date;
  author : string;
  ledToMergedPR : bool;
  commentCount : float
}.
End Issue.

Module RepositoryContribution.
Record t := mk {
  repository : string;
  mergedPRCount : float;
  isFork : bool;
  contributorCount : float;
  maintainerCount : float
}.
End RepositoryContribution.

Module ActivitySpan.
Record t := mk { firstPRDate : Date; lastPRDate : Date }.
End ActivitySpan.

Module GitHubActivity.
Record t := mk {
  mergedPRs : list MergedPR.t;
  reviewsGiven : list CodeReview.t;
  reviewsReceived : list CodeReview.t;
  issues : list Issue.t;
  repositories : list RepositoryContribution.t;
  activitySpan : ActivitySpan.t
}.
End GitHubActivity.

Module GitHubAccount.
Record t := mk {
  username : string;
  createdAt : Date;
  publicRepos : float;
  followers : float;
  following : float;
  bio : option string;
  location : option string;
  company : option string;
  website : option string;
  email : option string;
  isVerified : bool
}.
End GitHubAccount.

Module ContributionPattern.
Record t := mk {
  totalPRs : float;
  mergedPRs : float;
  openPRs : float;
  closedPRs : float;
  selfMergedPRs : float;
  forkPRs : float;
  originalRepoPRs : float;
  forkOnlyRepos : list string;
  originalRepoContributions : float;
  firstContributionDate : option Date;
  lastContributionDate : option Date;
  contributionDays : float;
  contributionMonths : float;
  averagePRsPerDay : float;
  maxPRsInSingleDay : float;
  uniqueRepositories : float;
  repositoriesWithMultiplePRs : float;
  repositoriesWithMaintainerInteraction : float;
  reviewsGiven : float;
  reviewsReceived : float;
  maintainerReviews : float;
  issuesOpened : float;
  issuesClosed : float;
  issuesWithPRs : float;
  commitMessagePatterns : list (string * float);
  commitTimePatterns : list float;
  identicalCommitMessages : float;
  uniqueCollaborators : float;
  maintainerInteractions : float;
  crossRepositoryCollaborations : float
}.
End ContributionPattern.

Inductive ChangeType := added | modified | deleted.

Module FileChangeAnalysis.
Record t := mk {
  filePath : string;
  fileExtension : string;
  changeType : ChangeType;
  linesAdded : float;
  linesDeleted : float;
  directory : string
}.
End FileChangeAnalysis.

Module PRAnalysis.
Record t := mk {
  id : string;
  repository : string;
  title : string;
  body : option string;
  mergedAt : Date;
  filesChanged : list FileChangeAnalysis.t;
  languages : list string;
  directories : list string;
  isInfrastructureChange : bool;
  isAPIChange : bool;
  isUIChange : bool;
  isDatabaseChange : bool;
  isConfigChange : bool;
  isTestChange : bool;
  isDocumentationChange : bool
}.
End PRAnalysis.

Module IssueAnalysis.
Record t := mk {
  id : string;
  repository : string;
  title : string;
  body : option string;
  labels : list string;
  isBug : bool;
  isFeature : bool;
  isInfrastructure : bool;
  isSecurity : bool
}.
End IssueAnalysis.

Module RepositoryAnalysis.
Record t := mk {
  repository : string;
  isFork : bool;
  primaryLanguage : string;
  languages : list (string * float);
  topics : list string;
  description : option string;
  stars : float;
  isArchived : bool
}.
End RepositoryAnalysis.

Module ReviewedPR.
Record t := mk {
  repository : string;
  prId : string;
  reviewedFiles : list string;
  languages : list string
}.
End ReviewedPR.

Module EngineerActivity.
Record t := mk {
  prs : list PRAnalysis.t;
  issues : list IssueAnalysis.t;
  repositories : list RepositoryAnalysis.t;
  codeReviews : list ReviewedPR.t
}.
End EngineerActivity.

(* ===================================================================== *)
(** ** Trust / authenticity score ([scores/trust.ts])                     *)
(* ===================================================================== *)

Module Trust.
Module CP := ContributionPattern.
Local Open Scope float_scope.
Local Open Scope monad_scope.

Record SpamDetection := mkSpam {
  excessiveDailyPRs : bool;
  excessiveHourlyActivity : bool;
  identicalCommitMessages : bool;
  automatedPatterns : bool;
  suspiciousTimePatterns : bool;
  trivialPRs : float;
  whitespaceOnlyPRs : float;
  singleCharacterPRs : float;
  forkFarming : bool;
  selfMergeFarming : bool;
  repositoryFarming : bool
}.

(** [TrustScoreConfig]: every key optional. *)
Module WeightsOverride.
Record t := mk {
  accountAuthenticity : option float;
  contributionAuthenticity : option float;
  collaborationSignals : option float;
  antiGamingScore : option float
}.
End WeightsOverride.

Module TrustScoreConfig.
Record t := mk {
  maxPRsPerDay : option float;
  maxPRsPerHour : option float;
  minAccountAgeDays : option float;
  minUniqueRepos : option float;
  forkOnlyPenalty : option float;
  identicalMessageThreshold : option float;
  weights : option WeightsOverride.t
}.
End TrustScoreConfig.

(** [Required<TrustScoreConfig>] *)
Module Weights.
Record t := mk {
  accountAuthenticity : float;
  contributionAuthenticity : float;
  collaborationSignals : float;
  antiGamingScore : float
}.
End Weights.

Module Config.
Record t := mk {
  maxPRsPerDay : float;
  maxPRsPerHour : float;
  minAccountAgeDays : float;
  minUniqueRepos : float;
  forkOnlyPenalty : float;
  identicalMessageThreshold : float;
  weights : Weights.t
}.
End Config.

Definition DEFAULT_CONFIG : Config.t :=
  {| Config.maxPRsPerDay := 20;
     Config.maxPRsPerHour := 5;
     Config.minAccountAgeDays := 30;
     Config.minUniqueRepos := 2;
     Config.forkOnlyPenalty := 0.5;
     Config.identicalMessageThreshold := 5;
     Config.weights :=
       {| Weights.accountAuthenticity := 0.25;
          Weights.contributionAuthenticity := 0.35;
          Weights.collaborationSignals := 0.25;
          Weights.antiGamingScore := 0.15 |} |}.

(** [{...DEFAULT_CONFIG, ...config, weights: {...DEFAULT_CONFIG.weights,
    ...config?.weights}}] *)
Definition fullConfig (config : option TrustScoreConfig.t) : Config.t :=
  let d := DEFAULT_CONFIG in
  match config with
  | None => d
  | Some c =>
      let dw := Config.weights d in
      {| Config.maxPRsPerDay := pick (TrustScoreConfig.maxPRsPerDay c) (Config.maxPRsPerDay d);
         Config.maxPRsPerHour := pick (TrustScoreConfig.maxPRsPerHour c) (Config.maxPRsPerHour d);
         Config.minAccountAgeDays :=
           pick (TrustScoreConfig.minAccountAgeDays c) (Config.minAccountAgeDays d);
         Config.minUniqueRepos := pick (TrustScoreConfig.minUniqueRepos c) (Config.minUniqueRepos d);
         Config.forkOnlyPenalty := pick (TrustScoreConfig.forkOnlyPenalty c) (Config.forkOnlyPenalty d);
         Config.identicalMessageThreshold :=
           pick (TrustScoreConfig.identicalMessageThreshold c) (Config.identicalMessageThreshold d);
         Config.weights :=
           match TrustScoreConfig.weights c with
           | None => dw
           | Some w =>
               {| Weights.accountAuthenticity :=
                    pick (WeightsOverride.accountAuthenticity w) (Weights.accountAuthenticity dw);
                  Weights.contributionAuthenticity :=
                    pick (WeightsOverride.contributionAuthenticity w)
                         (Weights.contributionAuthenticity dw);
                  Weights.collaborationSignals :=
                    pick (WeightsOverride.collaborationSignals w) (Weights.collaborationSignals dw);
                  Weights.antiGamingScore :=
                    pick (WeightsOverride.antiGamingScore w) (Weights.antiGamingScore dw) |}
           end |}
  end.

(** Breakdowns of the four components. *)
Record AccountBreakdown := mkAccountBreakdown {
  accountAge : float;
  accountMaturity : float;
  profileCompleteness : float
}.

Record ContributionBreakdown := mkContributionBreakdown {
  contributionSpan : float;
  repositoryDiversity : float;
  maintainerTrust : float;
  temporalConsistency : float
}.

Record CollaborationBreakdown := mkCollaborationBreakdown {
  uniqueCollaborators : float;
  maintainerInteractions : float;
  crossRepoCollaborations : float;
  reviewReciprocity : float
}.

Record AntiGamingBreakdown := mkAntiGamingBreakdown {
  spamDetectionScore : float;      (* [breakdown.spamDetection] *)
  forkFarmingPenalty : float;
  patternAnomalies : float;
  behavioralRedFlags : float
}.

Module TrustSignals.
Record t := mk {
  accountAge : float;
  accountMaturity : float;
  contributionSpan : float;
  repositoryDiversity : float;
  maintainerTrust : float;
  collaborationDepth : float;
  forkContributionRatio : float;
  originalRepoContributionRatio : float
}.
End TrustSignals.

Module Components.
Record t := mk {
  accountAuthenticity : Scored AccountBreakdown;
  contributionAuthenticity : Scored ContributionBreakdown;
  collaborationSignals : Scored CollaborationBreakdown;
  antiGamingScore : Scored AntiGamingBreakdown
}.
End Components.

Record TrustScoreResult := mkResult {
  totalScore : float;
  isAuthentic : bool;
  confidence : float;
  components : Components.t;
  signals : TrustSignals.t;
  spamDetection : SpamDetection;
  redFlags : list string;
  greenFlags : list string
}.

Section Calculator.
Context {host : Host}.


(** Detects spam patterns in contributions. *)
Definition detectSpamPatterns (pattern : CP.t) (config : Config.t)
  : SpamDetection :=
  {| excessiveDailyPRs := CP.maxPRsInSingleDay pattern >? Config.maxPRsPerDay config;
     excessiveHourlyActivity := false;
     identicalCommitMessages :=
       CP.identicalCommitMessages pattern
         >=? Config.identicalMessageThreshold config;
     automatedPatterns := false;
     suspiciousTimePatterns := false;
     trivialPRs := 0;
     whitespaceOnlyPRs := 0;
     singleCharacterPRs := 0;
     forkFarming :=
       (0 <? List.length (CP.forkOnlyRepos pattern))%nat
       && (CP.originalRepoContributions pattern === 0);
     selfMergeFarming := CP.selfMergedPRs pattern / CP.totalPRs pattern >? 0.5;
     repositoryFarming :=
       (CP.uniqueRepositories pattern >? 50) && (CP.repositoriesWithMultiplePRs pattern <? 5) |}.

(** [first && last ? (last.getTime() - first.getTime()) / (1000*60*60*24) : 0] *)
Definition contributionSpanDays (pattern : CP.t) : float :=
  match CP.firstContributionDate pattern, CP.lastContributionDate pattern with
  | Some first, Some last => (getTime last - getTime first) / (1000 * 60 * 60 * 24)
  | _, _ => 0
  end.

(** Account authenticity component. *)
Definition calculateAccountAuthenticity
  (account : GitHubAccount.t) (pattern : CP.t) (config : Config.t)
  : state Clock (Scored AccountBreakdown) :=
  now <- newDate ;;
  let accountAgeDays :=
    (getTime now - getTime (GitHubAccount.createdAt account)) / (1000 * 60 * 60 * 24) in
  let accountAgeScore := JS.Math_min (accountAgeDays / 365) 1 * 100 in
  let contributionSpan := contributionSpanDays pattern in
  let accountMaturity := JS.Math_min (contributionSpan / 180) 1 * 100 in
  let profileCompleteness := 0 in
  let profileCompleteness :=
    if JS.truthy_str (GitHubAccount.bio account)
    then profileCompleteness + 20 else profileCompleteness in
  let profileCompleteness :=
    if JS.truthy_str (GitHubAccount.location account)
    then profileCompleteness + 20 else profileCompleteness in
  let profileCompleteness :=
    if JS.truthy_str (GitHubAccount.company account)
    then profileCompleteness + 20 else profileCompleteness in
  let profileCompleteness :=
    if JS.truthy_str (GitHubAccount.website account)
    then profileCompleteness + 20 else profileCompleteness in
  let profileCompleteness :=
    if JS.truthy_str (GitHubAccount.email account)
    then profileCompleteness + 20 else profileCompleteness in
  let accountAgeScore :=
    if accountAgeDays <? Config.minAccountAgeDays config
    then accountAgeScore * 0.3 else accountAgeScore in
  let score :=
    accountAgeScore * 0.4 + accountMaturity * 0.4 + profileCompleteness * 0.2 in
  ret {| score := JS.Math_min (JS.Math_max score 0) 100;
         breakdown := {| accountAge := accountAgeDays;
                         accountMaturity := accountMaturity;
                         profileCompleteness := profileCompleteness |} |}.

(** Contribution authenticity component. *)
Definition calculateContributionAuthenticity
  (pattern : CP.t) (config : Config.t) : Scored ContributionBreakdown :=
  if CP.totalPRs pattern === 0 then
    {| score := 0;
       breakdown := {| contributionSpan := 0; repositoryDiversity := 0;
                       maintainerTrust := 0; temporalConsistency := 0 |} |}
  else
    let contributionSpan := contributionSpanDays pattern in
    let spanScore := JS.Math_min (contributionSpan / 365) 1 * 100 in
    let repoDiversity :=
      JS.Math_min (Math_log10 (CP.uniqueRepositories pattern + 1) / Math_log10 20) 1 * 100 in
    let maintainerMerges := CP.mergedPRs pattern - CP.selfMergedPRs pattern in
    let maintainerTrust :=
      if CP.mergedPRs pattern >? 0 then (maintainerMerges / CP.mergedPRs pattern) * 100 else 0 in
    let consistency :=
      if (CP.contributionMonths pattern >? 0) && (contributionSpan >? 0)
      then JS.Math_min ((CP.contributionMonths pattern / (contributionSpan / 30)) * 100) 100
      else 0 in
    let diversityPenalty :=
      if CP.uniqueRepositories pattern <? Config.minUniqueRepos config then 0.5 else 1.0 in
    let score :=
      spanScore * 0.3 + repoDiversity * 0.3 * diversityPenalty
      + maintainerTrust * 0.25 + consistency * 0.15 in
    {| score := JS.Math_min (JS.Math_max score 0) 100;
       breakdown := {| contributionSpan := contributionSpan;
                       repositoryDiversity := repoDiversity;
                       maintainerTrust := maintainerTrust;
                       temporalConsistency := consistency |} |}.

(** Collaboration signals component. *)
Definition calculateCollaborationSignals (pattern : CP.t)
  : Scored CollaborationBreakdown :=
  if CP.totalPRs pattern === 0 then
    {| score := 0;
       breakdown := {| uniqueCollaborators := 0; maintainerInteractions := 0;
                       crossRepoCollaborations := 0; reviewReciprocity := 0 |} |}
  else
    let collaboratorScore :=
      JS.Math_min (Math_log10 (CP.uniqueCollaborators pattern + 1)
                   / Math_log10 50) 1 * 100 in
    let maintainerInteractionRate :=
      if CP.maintainerInteractions pattern >? 0
      then JS.Math_min
             ((CP.maintainerInteractions pattern / CP.mergedPRs pattern) * 100)
             100
      else 0 in
    let crossRepoScore :=
      if CP.crossRepositoryCollaborations pattern >? 0
      then JS.Math_min
             ((CP.crossRepositoryCollaborations pattern / CP.uniqueRepositories pattern) * 100) 100
      else 0 in
    let totalReviews := CP.reviewsGiven pattern + CP.reviewsReceived pattern in
    let reciprocity :=
      if totalReviews >? 0
      then (JS.Math_min (CP.reviewsGiven pattern) (CP.reviewsReceived pattern)
            / JS.Math_max (CP.reviewsGiven pattern) (JS.or_default (CP.reviewsReceived pattern) 1))
           * 100
      else 0 in
    let score :=
      collaboratorScore * 0.3 + maintainerInteractionRate * 0.3
      + crossRepoScore * 0.2 + reciprocity * 0.2 in
    {| score := JS.Math_min (JS.Math_max score 0) 100;
       breakdown :=
         {| uniqueCollaborators := CP.uniqueCollaborators pattern;
            maintainerInteractions := CP.maintainerInteractions pattern;
            crossRepoCollaborations := CP.crossRepositoryCollaborations pattern;
            reviewReciprocity := reciprocity |} |}.

(** Anti-gaming score component. *)
Definition calculateAntiGamingScore
  (pattern : CP.t) (spam : SpamDetection) (config : Config.t)
  : Scored AntiGamingBreakdown :=
  let spamScore := 100 in
  let spamScore := if excessiveDailyPRs spam then spamScore - 30 else spamScore in
  let spamScore := if identicalCommitMessages spam then spamScore - 25 else spamScore in
  let spamScore := if forkFarming spam then spamScore - 40 else spamScore in
  let spamScore := if selfMergeFarming spam then spamScore - 30 else spamScore in
  let spamScore := if repositoryFarming spam then spamScore - 20 else spamScore in
  let spamScore := JS.Math_max spamScore 0 in
  let forkRatio := if CP.totalPRs pattern >? 0 then CP.forkPRs pattern / CP.totalPRs pattern else 0 in
  let forkFarmingPenalty :=
    if (forkRatio === 1.0) && (CP.originalRepoContributions pattern === 0) then 100
    else if forkRatio >? 0.8 then 70
    else if forkRatio >? 0.5 then 40
    else 0 in
  let patternAnomalies := 100 in
  let patternAnomalies :=
    if CP.averagePRsPerDay pattern >? 10 then patternAnomalies - 20 else patternAnomalies in
  let patternAnomalies :=
    if CP.maxPRsInSingleDay pattern >? Config.maxPRsPerDay config
    then patternAnomalies - 30 else patternAnomalies in
  let patternAnomalies :=
    if CP.identicalCommitMessages pattern >? 0
    then patternAnomalies - 15 else patternAnomalies in
  let patternAnomalies := JS.Math_max patternAnomalies 0 in
  let behavioralRedFlags := 100 in
  let selfMergeRatio :=
    if CP.totalPRs pattern >? 0 then CP.selfMergedPRs pattern / CP.totalPRs pattern else 0 in
  let behavioralRedFlags :=
    if selfMergeRatio >? 0.7 then behavioralRedFlags - 40 else behavioralRedFlags in
  let behavioralRedFlags :=
    if selfMergeRatio >? 0.5 then behavioralRedFlags - 25 else behavioralRedFlags in
  let behavioralRedFlags :=
    if (CP.uniqueRepositories pattern >? 100) && (CP.repositoriesWithMultiplePRs pattern <? 10)
    then behavioralRedFlags - 30 else behavioralRedFlags in
  let behavioralRedFlags := JS.Math_max behavioralRedFlags 0 in
  let score :=
    spamScore * 0.4 + (100 - forkFarmingPenalty) * 0.3
    + patternAnomalies * 0.2 + behavioralRedFlags * 0.1 in
  {| score := JS.Math_min (JS.Math_max score 0) 100;
     breakdown := {| spamDetectionScore := spamScore;
                     forkFarmingPenalty := forkFarmingPenalty;
                     patternAnomalies := patternAnomalies;
                     behavioralRedFlags := behavioralRedFlags |} |}.

(** Main function: the trust / authenticity score. *)
Definition calculateTrustScore
  (account : GitHubAccount.t) (contributionPattern : CP.t)
  (config : option TrustScoreConfig.t) : state Clock TrustScoreResult :=
  let fullConfig := fullConfig config in
  let spam := detectSpamPatterns contributionPattern fullConfig in
  accountAuth <- calculateAccountAuthenticity account contributionPattern fullConfig ;;
  let contributionAuth := calculateContributionAuthenticity contributionPattern fullConfig in
  let collaboration := calculateCollaborationSignals contributionPattern in
  let antiGaming := calculateAntiGamingScore contributionPattern spam fullConfig in
  (* [fullConfig.weights.x ?? default]: after the merge every weight is set *)
  let w := Config.weights fullConfig in
  let totalScore :=
    score accountAuth * Weights.accountAuthenticity w
    + score contributionAuth * Weights.contributionAuthenticity w
    + score collaboration * Weights.collaborationSignals w
    + score antiGaming * Weights.antiGamingScore w in
  let contributionSpan := contributionSpanDays contributionPattern in
  now <- newDate ;;
  let accountAge :=
    (getTime now - getTime (GitHubAccount.createdAt account)) / (1000 * 60 * 60 * 24) in
  let forkRatio :=
    if CP.totalPRs contributionPattern >? 0
    then CP.forkPRs contributionPattern / CP.totalPRs contributionPattern else 0 in
  let originalRepoRatio :=
    if CP.totalPRs contributionPattern >? 0
    then CP.originalRepoContributions contributionPattern / CP.totalPRs contributionPattern
    else 0 in
  let maintainerTrust :=
    if CP.mergedPRs contributionPattern >? 0
    then ((CP.mergedPRs contributionPattern - CP.selfMergedPRs contributionPattern)
          / CP.mergedPRs contributionPattern) * 100
    else 0 in
  let signals :=
    {| TrustSignals.accountAge := accountAge;
       TrustSignals.accountMaturity := accountMaturity (breakdown accountAuth);
       TrustSignals.contributionSpan := contributionSpan;
       TrustSignals.repositoryDiversity := repositoryDiversity (breakdown contributionAuth);
       TrustSignals.maintainerTrust := maintainerTrust;
       TrustSignals.collaborationDepth := score collaboration;
       TrustSignals.forkContributionRatio := forkRatio;
       TrustSignals.originalRepoContributionRatio := originalRepoRatio |} in
  let redFlags := [] in
  let redFlags := pushIf (forkFarming spam) "Fork-only contributions detected" redFlags in
  let redFlags := pushIf (selfMergeFarming spam) "High rate of self-merged PRs" redFlags in
  let redFlags := pushIf (excessiveDailyPRs spam) "Excessive daily PR activity" redFlags in
  let redFlags :=
    pushIf (repositoryFarming spam) "Repository farming pattern detected" redFlags in
  let redFlags := pushIf (forkRatio >? 0.8) "High fork contribution ratio" redFlags in
  let redFlags :=
    pushIf (accountAge <? Config.minAccountAgeDays fullConfig) "Account too new" redFlags in
  let redFlags :=
    pushIf (CP.uniqueRepositories contributionPattern <? Config.minUniqueRepos fullConfig)
           "Insufficient repository diversity" redFlags in
  let greenFlags := [] in
  let greenFlags :=
    pushIf (TrustSignals.maintainerTrust signals >? 80) "High maintainer trust" greenFlags in
  let greenFlags :=
    pushIf (TrustSignals.repositoryDiversity signals >? 70)
           "Strong repository diversity" greenFlags in
  let greenFlags :=
    pushIf (TrustSignals.collaborationDepth signals >? 70) "Active collaboration" greenFlags in
  let greenFlags :=
    pushIf (contributionSpan >? 365) "Long-term consistent contributions" greenFlags in
  let greenFlags :=
    pushIf (originalRepoRatio >? 0.7)
           "Primarily original repository contributions" greenFlags in
  let isAuthentic :=
    (totalScore >=? 60) && (List.length redFlags <? 3)%nat && negb (forkFarming spam) in
  let confidence := 100 in
  let confidence :=
    if CP.totalPRs contributionPattern <? 5 then confidence - 30 else confidence in
  let confidence := if contributionSpan <? 30 then confidence - 20 else confidence in
  let confidence :=
    if CP.uniqueRepositories contributionPattern <? 2 then confidence - 25 else confidence in
  let confidence := JS.Math_max confidence 0 in
  ret {| totalScore := JS.Math_min (JS.Math_max totalScore 0) 100;
         isAuthentic := isAuthentic;
         confidence := confidence;
         components :=
           {| Components.accountAuthenticity := accountAuth;
              Components.contributionAuthenticity := contributionAuth;
              Components.collaborationSignals := collaboration;
              Components.antiGamingScore := antiGaming |};
         signals := signals;
         spamDetection := spam;
         redFlags := redFlags;
         greenFlags := greenFlags |}.

End Calculator.
End Trust.

(* ===================================================================== *)
(** ** Impact score ([scores/impact.ts])                                  *)
(* ===================================================================== *)

Module Impact.
Module PR := MergedPR.
Local Open Scope float_scope.
Local Open Scope monad_scope.

(** [ImpactScoreConfig]: every key optional. *)
Module WeightsOverride.
Record t := mk {
  prImpact : option float;
  collaboration : option float;
  longevity : option float;
  quality : option float
}.
End WeightsOverride.

Module ImpactScoreConfig.
Record t := mk {
  weights : option WeightsOverride.t;
  timeDecayFactor : option float;
  minPRSize : option float;
  maxPRFrequency : option float;
  activityWindowMonths : option float;
  selfMergePenalty : option float
}.
End ImpactScoreConfig.

(** [Required<ImpactScoreConfig>] *)
Module Weights.
Record t := mk {
  prImpact : float;
  collaboration : float;
  longevity : float;
  quality : float
}.
End Weights.

Module Config.
Record t := mk {
  weights : Weights.t;
  timeDecayFactor : float;
  minPRSize : float;
  maxPRFrequency : float;
  activityWindowMonths : float;
  selfMergePenalty : float
}.
End Config.

Definition DEFAULT_CONFIG : Config.t :=
  {| Config.weights :=
       {| Weights.prImpact := 0.4;
          Weights.collaboration := 0.3;
          Weights.longevity := 0.2;
          Weights.quality := 0.1 |};
     Config.timeDecayFactor := 0.95;
     Config.minPRSize := 1;
     Config.maxPRFrequency := 10;
     Config.activityWindowMonths := 24;
     Config.selfMergePenalty := 0.0 |}.

(** [{...DEFAULT_CONFIG, ...config, weights: {...DEFAULT_CONFIG.weights,
    ...config?.weights}}] *)
Definition fullConfig (config : option ImpactScoreConfig.t) : Config.t :=
  let d := DEFAULT_CONFIG in
  match config with
  | None => d
  | Some c =>
      let dw := Config.weights d in
      {| Config.weights :=
           match ImpactScoreConfig.weights c with
           | None => dw
           | Some w =>
               {| Weights.prImpact := pick (WeightsOverride.prImpact w) (Weights.prImpact dw);
                  Weights.collaboration :=
                    pick (WeightsOverride.collaboration w) (Weights.collaboration dw);
                  Weights.longevity := pick (WeightsOverride.longevity w) (Weights.longevity dw);
                  Weights.quality := pick (WeightsOverride.quality w) (Weights.quality dw) |}
           end;
         Config.timeDecayFactor :=
           pick (ImpactScoreConfig.timeDecayFactor c) (Config.timeDecayFactor d);
         Config.minPRSize := pick (ImpactScoreConfig.minPRSize c) (Config.minPRSize d);
         Config.maxPRFrequency :=
           pick (ImpactScoreConfig.maxPRFrequency c) (Config.maxPRFrequency d);
         Config.activityWindowMonths :=
           pick (ImpactScoreConfig.activityWindowMonths c) (Config.activityWindowMonths d);
         Config.selfMergePenalty :=
           pick (ImpactScoreConfig.selfMergePenalty c) (Config.selfMergePenalty d) |}
  end.

(** Breakdowns of the four components. *)
Record ComponentBreakdown := mkComponentBreakdown {
  mergedPRCount : float;
  reviewEngagement : float;
  acceptanceRate : float;
  repoDiversity : float;
  maintainerTrust : float
}.

Record CollaborationBreakdown := mkCollaborationBreakdown {
  crossRepoContributions : float;
  reviewReciprocity : float;
  issueEngagement : float;
  teamParticipation : float
}.

Record LongevityBreakdown := mkLongevityBreakdown {
  activitySpan : float;
  consistency : float;
  temporalDistribution : float
}.

Module QualityBreakdown.
Record t := mk {
  reviewDepth : float;
  maintainerTrust : float;
  contributionComplexity : float;
  antiSpamScore : float
}.
End QualityBreakdown.

Module Components.
Record t := mk {
  prImpact : Scored ComponentBreakdown;
  collaboration : Scored CollaborationBreakdown;
  longevity : Scored LongevityBreakdown;
  quality : Scored QualityBreakdown.t
}.
End Components.

Module Signals.
Record t := mk {
  totalMergedPRs : nat;
  selfMergedPRs : nat;
  spamPRs : nat;
  activeRepositories : nat;
  activitySpanMonths : float
}.
End Signals.

Record TopRepo := mkTopRepo { repo : string; prCount : nat; repoScore : float }.
Record RecentEvent := mkRecentEvent { date : Date; event : string; eventImpact : float }.
Record Penalty := mkPenalty { reason : string; count : nat; penaltyImpact : float }.

Module Explainability.
Record t := mk {
  topContributingRepos : list TopRepo;
  recentActivity : list RecentEvent;
  penalties : list Penalty
}.
End Explainability.

Record ImpactScoreResult := mkResult {
  totalScore : float;
  components : Components.t;
  signals : Signals.t;
  explainability : Explainability.t
}.

(** [pr.mergedAt.toISOString().split('T')[0]], the UTC calendar date of
    the merge, identified by the number of its day since the epoch. *)
Definition dayKey (d : Date) : Z := (d / 86400000)%Z.

(** The day buckets the first loop of [filterSpamPRs] builds. *)
Definition groupByDay (prs : list PR.t) : list (Z * list PR.t) :=
  fold_left
    (fun prsByDay pr =>
       let k := dayKey (PR.mergedAt pr) in
       let bucket := pick (JS.Map_get Z.eqb k prsByDay) [] in
       JS.Map_set Z.eqb k (bucket ++ [pr]) prsByDay)
    prs [].

(** The two tests of the second loop: too small, or merged on a day with
    more than [maxPRFrequency] PRs. *)
Definition isSpamPR (prsByDay : list (Z * list PR.t)) (config : Config.t) (pr : PR.t) : bool :=
  if PR.filesChanged pr <? Config.minPRSize config then true
  else
    let dayPRs := pick (JS.Map_get Z.eqb (dayKey (PR.mergedAt pr)) prsByDay) [] in
    JS.of_nat (List.length dayPRs) >? Config.maxPRFrequency config.

Record SpamSplit := mkSpamSplit { valid : list PR.t; spam : list PR.t }.

(** Filters out spam PRs based on size and frequency. *)
Definition filterSpamPRs (prs : list PR.t) (config : Config.t) : SpamSplit :=
  let prsByDay := groupByDay prs in
  {| valid := filter (fun pr => negb (isSpamPR prsByDay config pr)) prs;
     spam := filter (isSpamPR prsByDay config) prs |}.

Record SelfMergeSplit := mkSelfMergeSplit { validPRs : list PR.t; selfMerged : list PR.t }.

(** [pr.author === pr.mergedBy] *)
Definition isSelfMerged (pr : PR.t) : bool := String.eqb (PR.author pr) (PR.mergedBy pr).

(** Filters out self-merged PRs. *)
Definition filterSelfMergedPRs (prs : list PR.t) : SelfMergeSplit :=
  {| validPRs := filter (fun pr => negb (isSelfMerged pr)) prs;
     selfMerged := filter isSelfMerged prs |}.

Section Calculator.
Context {host : Host}.

(** Applies time decay to a PR (recent PRs weigh more). *)
Definition applyTimeDecay (pr : PR.t) (referenceDate : Date) (decayFactor : float) : float :=
  let monthsAgo :=
    (getTime referenceDate - getTime (PR.mergedAt pr)) / (1000 * 60 * 60 * 24 * 30) in
  Math_pow decayFactor monthsAgo.

(** [new Set(prs.map(pr => pr.repository)).size] *)
Definition uniqueRepoCount (prs : list PR.t) : nat :=
  List.length (JS.set_of (map PR.repository prs)).

(** PR impact component. *)
Definition calculatePRImpactScore
  (prs : list PR.t) (reviewsReceived : list CodeReview.t) (config : Config.t)
  : state Clock (Scored ComponentBreakdown) :=
  if (List.length prs =? 0)%nat then
    ret {| score := 0;
           breakdown := {| mergedPRCount := 0; reviewEngagement := 0; acceptanceRate := 0;
                           repoDiversity := 0; maintainerTrust := 0 |} |}
  else
    now <- newDate ;;
    let referenceDate := now in
    let prCountScore :=
      fold_left
        (fun sum pr => sum + applyTimeDecay pr referenceDate (Config.timeDecayFactor config))
        prs 0 in
    let normalizedPRCount := JS.Math_min (prCountScore / 10) 1 * 100 in
    let totalReviewComments :=
      fold_left (fun sum review => sum + CodeReview.commentCount review) reviewsReceived 0 in
    let avgReviewComments :=
      if (0 <? List.length prs)%nat
      then totalReviewComments / JS.of_nat (List.length prs) else 0 in
    let reviewEngagement := JS.Math_min (avgReviewComments / 5) 1 * 100 in
    let acceptanceRate := 100 in
    let uniqueRepos := JS.of_nat (uniqueRepoCount prs) in
    let repoDiversity := JS.Math_min (Math_log10 (uniqueRepos + 1) / Math_log10 50) 1 * 100 in
    let maintainerMerges := JS.of_nat (List.length (filter PR.isMaintainerMerge prs)) in
    let maintainerTrust := (maintainerMerges / JS.of_nat (List.length prs)) * 100 in
    let score :=
      normalizedPRCount * 0.3 + reviewEngagement * 0.25 + acceptanceRate * 0.15
      + repoDiversity * 0.15 + maintainerTrust * 0.15 in
    ret {| score := JS.Math_min score 100;
           breakdown := {| mergedPRCount := normalizedPRCount;
                           reviewEngagement := reviewEngagement;
                           acceptanceRate := acceptanceRate;
                           repoDiversity := repoDiversity;
                           maintainerTrust := maintainerTrust |} |}.

(** Collaboration component. *)
Definition calculateCollaborationScore
  (prs : list PR.t) (reviewsGiven reviewsReceived : list CodeReview.t)
  (issues : list Issue.t) (repositories : list RepositoryContribution.t)
  : Scored CollaborationBreakdown :=
  if (List.length prs =? 0)%nat then
    {| score := 0;
       breakdown := {| crossRepoContributions := 0; reviewReciprocity := 0;
                       issueEngagement := 0; teamParticipation := 0 |} |}
  else
    let uniqueRepos := JS.of_nat (uniqueRepoCount prs) in
    let crossRepoContributions :=
      JS.Math_min (Math_log10 (uniqueRepos + 1) / Math_log10 20) 1 * 100 in
    let reviewsGivenCount := JS.of_nat (List.length reviewsGiven) in
    let reviewsReceivedCount := JS.of_nat (List.length reviewsReceived) in
    let totalReviews := reviewsGivenCount + reviewsReceivedCount in
    let reciprocity :=
      if totalReviews >? 0
      then (JS.Math_min reviewsGivenCount reviewsReceivedCount
            / JS.Math_max reviewsGivenCount reviewsReceivedCount) * 100
      else 0 in
    let issuesLeadingToPRs := JS.of_nat (List.length (filter Issue.ledToMergedPR issues)) in
    let issueEngagement :=
      if (0 <? List.length issues)%nat
      then (issuesLeadingToPRs / JS.of_nat (List.length issues)) * 100 else 0 in
    let teamRepos :=
      JS.of_nat (List.length
        (filter (fun repo => RepositoryContribution.contributorCount repo >? 1) repositories)) in
    let teamParticipation :=
      if (0 <? List.length repositories)%nat
      then (teamRepos / JS.of_nat (List.length repositories)) * 100 else 0 in
    let score :=
      crossRepoContributions * 0.3 + reciprocity * 0.3
      + issueEngagement * 0.2 + teamParticipation * 0.2 in
    {| score := JS.Math_min score 100;
       breakdown := {| crossRepoContributions := crossRepoContributions;
                       reviewReciprocity := reciprocity;
                       issueEngagement := issueEngagement;
                       teamParticipation := teamParticipation |} |}.

(** The key [`${year}-${month}`] of a merge date, as the pair it renders. *)
Definition monthKey (d : Date) : Z * Z := (getFullYear d, getMonth d).
Definition monthKey_eqb (a b : Z * Z) : bool :=
  (fst a =? fst b)%Z && (snd a =? snd b)%Z.

(** Longevity component. *)
Definition calculateLongevityScore (prs : list PR.t) (activitySpan : ActivitySpan.t)
  : Scored LongevityBreakdown :=
  if (List.length prs =? 0)%nat then
    {| score := 0;
       breakdown := {| Impact.activitySpan := 0; consistency := 0;
                       temporalDistribution := 0 |} |}
  else
    let spanMonths :=
      (getTime (ActivitySpan.lastPRDate activitySpan)
       - getTime (ActivitySpan.firstPRDate activitySpan)) / (1000 * 60 * 60 * 24 * 30) in
    let activitySpanScore := JS.Math_min (spanMonths / 24) 1 * 100 in
    let monthsWithPRs :=
      JS.set_of_by monthKey_eqb (map (fun pr => monthKey (PR.mergedAt pr)) prs) in
    let consistency :=
      if spanMonths >? 0
      then (JS.of_nat (List.length monthsWithPRs) / JS.Math_max spanMonths 1) * 100
      else 0 in
    let years :=
      JS.of_nat (List.length
        (JS.set_of_by Z.eqb (map (fun pr => getFullYear (PR.mergedAt pr)) prs))) in
    let temporalDistribution := JS.Math_min (years / 3) 1 * 100 in
    let score :=
      activitySpanScore * 0.4 + consistency * 0.35 + temporalDistribution * 0.25 in
    {| score := JS.Math_min score 100;
       breakdown := {| Impact.activitySpan := spanMonths;
                       consistency := consistency;
                       temporalDistribution := temporalDistribution |} |}.

(** Quality signal component. *)
Definition calculateQualityScore (prs : list PR.t) (_reviewsReceived : list CodeReview.t)
  : Scored QualityBreakdown.t :=
  if (List.length prs =? 0)%nat then
    {| score := 0;
       breakdown := {| QualityBreakdown.reviewDepth := 0;
                       QualityBreakdown.maintainerTrust := 0;
                       QualityBreakdown.contributionComplexity := 0;
                       QualityBreakdown.antiSpamScore := 0 |} |}
  else
    let n := JS.of_nat (List.length prs) in
    let avgReviewRounds := fold_left (fun sum pr => sum + PR.reviewRounds pr) prs 0 / n in
    let reviewDepth := JS.Math_min (avgReviewRounds / 3) 1 * 100 in
    let maintainerMerges := JS.of_nat (List.length (filter PR.isMaintainerMerge prs)) in
    let maintainerTrust := (maintainerMerges / n) * 100 in
    let avgFilesChanged := fold_left (fun sum pr => sum + PR.filesChanged pr) prs 0 / n in
    let avgDirectoriesTouched :=
      fold_left (fun sum pr => sum + PR.directoriesTouched pr) prs 0 / n in
    let complexity := JS.Math_min ((avgFilesChanged + avgDirectoriesTouched) / 10) 1 * 100 in
    let forkPRs := JS.of_nat (List.length (filter PR.isFork prs)) in
    let forkPenalty := (forkPRs / n) * 50 in
    let antiSpamScore := JS.Math_max (100 - forkPenalty) 0 in
    let score :=
      reviewDepth * 0.3 + maintainerTrust * 0.3 + complexity * 0.25 + antiSpamScore * 0.15 in
    {| score := JS.Math_min score 100;
       breakdown := {| QualityBreakdown.reviewDepth := reviewDepth;
                       QualityBreakdown.maintainerTrust := maintainerTrust;
                       QualityBreakdown.contributionComplexity := complexity;
                       QualityBreakdown.antiSpamScore := antiSpamScore |} |}.

(** [repoContributions]: PRs per repository, in order of first appearance. *)
Definition countByRepo (prs : list PR.t) : list (string * nat) :=
  fold_left
    (fun repoContributions pr =>
       let k := PR.repository pr in
       JS.Map_set String.eqb k (pick (JS.Map_get String.eqb k repoContributions) O + 1)%nat
                  repoContributions)
    prs [].

(** [.sort((a, b) => b.prCount - a.prCount)]: descending, and stable. *)
Fixpoint insertByCount (x : TopRepo) (sorted : list TopRepo) : list TopRepo :=
  match sorted with
  | [] => [x]
  | y :: t => if (prCount x <? prCount y)%nat then y :: insertByCount x t else x :: sorted
  end.
Definition sortByCount (xs : list TopRepo) : list TopRepo :=
  fold_right insertByCount [] xs.

(** Main function: the impact score. *)
Definition calculateImpactScore
  (githubActivity : GitHubActivity.t) (config : option ImpactScoreConfig.t)
  : state Clock ImpactScoreResult :=
  let fullConfig := fullConfig config in
  let selfSplit := filterSelfMergedPRs (GitHubActivity.mergedPRs githubActivity) in
  let validPRs := validPRs selfSplit in
  let selfMerged := selfMerged selfSplit in
  let spamSplit := filterSpamPRs validPRs fullConfig in
  let cleanPRs := valid spamSplit in
  let spam := spam spamSplit in
  prImpact <- calculatePRImpactScore
                cleanPRs (GitHubActivity.reviewsReceived githubActivity) fullConfig ;;
  let collaboration :=
    calculateCollaborationScore
      cleanPRs
      (GitHubActivity.reviewsGiven githubActivity)
      (GitHubActivity.reviewsReceived githubActivity)
      (GitHubActivity.issues githubActivity)
      (GitHubActivity.repositories githubActivity) in
  let longevity := calculateLongevityScore cleanPRs (GitHubActivity.activitySpan githubActivity) in
  let quality := calculateQualityScore cleanPRs (GitHubActivity.reviewsReceived githubActivity) in
  (* [fullConfig.weights.x ?? default]: after the merge every weight is set *)
  let w := Config.weights fullConfig in
  let totalScore :=
    score prImpact * Weights.prImpact w
    + score collaboration * Weights.collaboration w
    + score longevity * Weights.longevity w
    + score quality * Weights.quality w in
  let activitySpanMonths :=
    (getTime (ActivitySpan.lastPRDate (GitHubActivity.activitySpan githubActivity))
     - getTime (ActivitySpan.firstPRDate (GitHubActivity.activitySpan githubActivity)))
    / (1000 * 60 * 60 * 24 * 30) in
  let repoContributions := countByRepo cleanPRs in
  let topContributingRepos :=
    firstn 10
      (sortByCount
         (map (fun '(repo, count) =>
                 {| repo := repo; prCount := count; repoScore := JS.of_nat count * 10 |})
              repoContributions)) in
  recent <- mapClock
              (fun pr =>
                 now <- newDate ;;
                 ret {| date := PR.mergedAt pr;
                        event := ("Merged PR in " ++ PR.repository pr)%string;
                        eventImpact :=
                          applyTimeDecay pr now (Config.timeDecayFactor fullConfig) * 10 |})
              (JS.slice_last 10 cleanPRs) ;;
  let recentActivity := rev recent in
  let penalties :=
    [ {| reason := "Self-merged PRs excluded";
         count := List.length selfMerged; penaltyImpact := 0 |};
      {| reason := "Spam PRs filtered";
         count := List.length spam; penaltyImpact := 0 |} ] in
  ret {| totalScore := JS.Math_min (JS.Math_max totalScore 0) 100;
         components :=
           {| Components.prImpact := prImpact;
              Components.collaboration := collaboration;
              Components.longevity := longevity;
              Components.quality := quality |};
         signals :=
           {| Signals.totalMergedPRs := List.length (GitHubActivity.mergedPRs githubActivity);
              Signals.selfMergedPRs := List.length selfMerged;
              Signals.spamPRs := List.length spam;
              Signals.activeRepositories := uniqueRepoCount cleanPRs;
              Signals.activitySpanMonths := JS.Math_max activitySpanMonths 0 |};
         explainability :=
           {| Explainability.topContributingRepos := topContributingRepos;
              Explainability.recentActivity := recentActivity;
              Explainability.penalties := penalties |} |}.

End Calculator.
End Impact.

(* ===================================================================== *)
(** ** Roles ([types/roles.ts])                                           *)
(* ===================================================================== *)

Inductive RoleType :=
| backend | frontend | fullstack | devops | mobile
| data_engineer | security | ml_engineer | sre | platform_engineer.

(** The string each role identifier is. *)
Definition roleName (r : RoleType) : string :=
  match r with
  | backend => "backend"
  | frontend => "frontend"
  | fullstack => "fullstack"
  | devops => "devops"
  | mobile => "mobile"
  | data_engineer => "data-engineer"
  | security => "security"
  | ml_engineer => "ml-engineer"
  | sre => "sre"
  | platform_engineer => "platform-engineer"
  end.

Definition RoleType_eqb (a b : RoleType) : bool := String.eqb (roleName a) (roleName b).

Record RoleQuery := mkRoleQuery {
  role : RoleType;
  requiredTechnologies : option (list string);
  preferredExperience : option (list string)
}.

(* ===================================================================== *)
(** ** Role compatibility score ([scores/compatibility.ts])               *)
(* ===================================================================== *)

Module Compatibility.
Module File := FileChangeAnalysis.
Module PR := PRAnalysis.
Module Repo := RepositoryAnalysis.
Module Activity := EngineerActivity.
Local Open Scope string_scope.
Local Open Scope float_scope.

Record Indicators := mkIndicators {
  languages : list string;
  fileExtensions : list string;
  keywords : list string;
  architecturePatterns : list string;
  negativeIndicators : list string
}.

(** Role-specific technology indicators. *)
Definition ROLE_TECHNOLOGY_INDICATORS (r : RoleType) : Indicators :=
  match r with
  | backend =>
      {| languages := ["python"; "java"; "go"; "rust"; "ruby"; "php"; "scala"; "kotlin";
                       "c#"; "c++"];
         fileExtensions := [".py"; ".java"; ".go"; ".rs"; ".rb"; ".php"; ".scala"; ".kt";
                            ".cs"; ".cpp"];
         keywords := ["api"; "server"; "backend"; "service"; "microservice"; "rest";
                      "graphql"; "grpc"; "database"; "orm"];
         architecturePatterns := ["microservices"; "monolith"; "api-gateway"; "service-mesh";
                                  "event-driven"];
         negativeIndicators := ["react"; "vue"; "angular"; "css"; "html"; "frontend";
                                "ui-component"] |}
  | frontend =>
      {| languages := ["javascript"; "typescript"; "html"; "css"; "scss"; "sass"; "less"];
         fileExtensions := [".js"; ".jsx"; ".ts"; ".tsx"; ".html"; ".css"; ".scss"; ".sass";
                            ".less"; ".vue"];
         keywords := ["react"; "vue"; "angular"; "component"; "ui"; "frontend"; "client";
                      "browser"; "dom"];
         architecturePatterns := ["spa"; "ssr"; "component-library"; "design-system"; "pwa"];
         negativeIndicators := ["database"; "server"; "api-server"; "microservice";
                                "backend-service"] |}
  | fullstack =>
      {| languages := ["javascript"; "typescript"; "python"; "java"; "ruby"; "php"];
         fileExtensions := [".js"; ".jsx"; ".ts"; ".tsx"; ".py"; ".java"; ".rb"; ".php"];
         keywords := ["fullstack"; "full-stack"; "api"; "component"; "server"; "client"];
         architecturePatterns := ["monorepo"; "fullstack-app"; "isomorphic"];
         negativeIndicators := [] |}
  | devops =>
      {| languages := ["yaml"; "python"; "bash"; "shell"; "groovy"];
         fileExtensions := [".yaml"; ".yml"; ".tf"; ".tfvars"; ".sh"; ".py"; ".groovy";
                            ".jenkinsfile"];
         keywords := ["docker"; "kubernetes"; "ci/cd"; "terraform"; "ansible"; "pipeline";
                      "deployment"; "infrastructure"];
         architecturePatterns := ["infrastructure-as-code"; "ci-cd"; "containerization";
                                  "orchestration"];
         negativeIndicators := ["ui-component"; "frontend"; "react-component"] |}
  | mobile =>
      {| languages := ["swift"; "kotlin"; "java"; "dart"; "objective-c"];
         fileExtensions := [".swift"; ".kt"; ".java"; ".dart"; ".m"; ".mm"; ".xcodeproj"];
         keywords := ["ios"; "android"; "mobile"; "app"; "react-native"; "flutter"; "xcode"];
         architecturePatterns := ["mobile-app"; "native-app"; "cross-platform"];
         negativeIndicators := ["web-server"; "backend-api"; "microservice"] |}
  | data_engineer =>
      {| languages := ["python"; "sql"; "scala"; "java"];
         fileExtensions := [".py"; ".sql"; ".scala"; ".java"; ".ipynb"];
         keywords := ["data"; "etl"; "pipeline"; "spark"; "hadoop"; "warehouse"; "analytics";
                      "big-data"];
         architecturePatterns := ["data-pipeline"; "etl"; "data-warehouse"; "batch-processing"];
         negativeIndicators := ["ui"; "frontend"; "component"] |}
  | security =>
      {| languages := ["python"; "go"; "rust"; "c"; "c++"];
         fileExtensions := [".py"; ".go"; ".rs"; ".c"; ".cpp"];
         keywords := ["security"; "vulnerability"; "penetration"; "encryption"; "auth";
                      "oauth"; "jwt"; "ssl"; "tls"];
         architecturePatterns := ["security-audit"; "penetration-test"; "vulnerability-scan"];
         negativeIndicators := [] |}
  | ml_engineer =>
      {| languages := ["python"; "r"; "julia"];
         fileExtensions := [".py"; ".r"; ".jl"; ".ipynb"; ".pkl"];
         keywords := ["machine-learning"; "ml"; "tensorflow"; "pytorch"; "model"; "training";
                      "neural"; "deep-learning"];
         architecturePatterns := ["ml-pipeline"; "model-training"; "feature-engineering"];
         negativeIndicators := ["ui"; "frontend"; "component"] |}
  | sre =>
      {| languages := ["python"; "go"; "yaml"; "bash"];
         fileExtensions := [".py"; ".go"; ".yaml"; ".yml"; ".sh"; ".tf"];
         keywords := ["reliability"; "monitoring"; "alerting"; "slo"; "sla"; "incident";
                      "oncall"; "observability"];
         architecturePatterns := ["monitoring"; "alerting"; "incident-response";
                                  "reliability-engineering"];
         negativeIndicators := ["ui-component"; "frontend"] |}
  | platform_engineer =>
      {| languages := ["go"; "python"; "yaml"; "rust"];
         fileExtensions := [".go"; ".py"; ".yaml"; ".yml"; ".rs"];
         keywords := ["platform"; "infrastructure"; "tooling"; "developer-experience";
                      "internal-tools"];
         architecturePatterns := ["platform-as-a-service"; "internal-platform";
                                  "developer-tooling"];
         negativeIndicators := ["customer-facing"; "ui-component"] |}
  end.

(** Result types ([types/scores.ts]). *)
Module CompatibilitySignals.
Record t := mk {
  technologyStackMatch : float;
  domainContributionDepth : float;
  architecturePatternMatch : float;
  fileTypeAlignment : float;
  activityTypeMatch : float;
  repositoryTypeMatch : float;
  reviewDomainExpertise : float
}.
End CompatibilitySignals.

Module NegativeSignals.
Record t := mk {
  technologyMismatch : float;
  domainContradiction : float;
  insufficientDepth : float;
  architectureMismatch : float;
  technologyOverweight : float
}.
End NegativeSignals.

Inductive CompatibilityLevel := high | medium | low | poor.

(** [compatibilityLevel === 'high'] and [compatibilityLevel === 'poor'] *)
Definition isHigh (l : CompatibilityLevel) : bool :=
  match l with
  | high => true
  | _ => false
  end.
Definition isPoor (l : CompatibilityLevel) : bool :=
  match l with
  | poor => true
  | _ => false
  end.

Record Evidence := mkEvidence { type : string; description : string; evidenceScore : float }.

Module Explanation.
Record t := mk {
  role : string;
  strengths : list string;
  weaknesses : list string;
  evidence : list Evidence
}.
End Explanation.

Module TechnologyStack.
Record t := mk {
  matchedTechnologies : list string;
  mismatchedTechnologies : list string;
  score : float
}.
End TechnologyStack.

Module ContributionDepth.
Record t := mk { relevantPRs : nat; totalPRs : nat; score : float }.
End ContributionDepth.

Module ArchitecturePatterns.
Record t := mk { detectedPatterns : list string; score : float }.
End ArchitecturePatterns.

Module Breakdown.
Record t := mk {
  technologyStack : TechnologyStack.t;
  contributionDepth : ContributionDepth.t;
  architecturePatterns : ArchitecturePatterns.t
}.
End Breakdown.

Record CompatibilityScoreResult := mkResult {
  totalScore : float;
  compatibilityLevel : CompatibilityLevel;
  signals : CompatibilitySignals.t;
  negativeSignals : NegativeSignals.t;
  explanation : Explanation.t;
  breakdown : Breakdown.t
}.

Record FileAnalysis := mkFileAnalysis {
  relevantFiles : nat;
  totalFiles : nat;
  matchedTechnologies : list string;
  mismatchedTechnologies : list string
}.

(** Analyzes file changes to detect role-relevant patterns. *)
Definition analyzeFileChanges (files : list File.t) (r : RoleType) : FileAnalysis :=
  let indicators := ROLE_TECHNOLOGY_INDICATORS r in
  let step (acc : list File.t * list string * list string) (file : File.t) :=
    let '(relevant, matched, mismatched) := acc in
    let ext := JS.toLowerCase (File.fileExtension file) in
    let path := JS.toLowerCase (File.filePath file) in
    let isRelevant := false in
    let extHit := existsb (fun e => String.eqb ext e) (fileExtensions indicators) in
    let isRelevant := if extHit then true else isRelevant in
    let matched := if extHit then JS.set_add ext matched else matched in
    let isRelevant :=
      if existsb (fun kw => JS.includes path kw || JS.includes (File.directory file) kw)
                 (keywords indicators)
      then true else isRelevant in
    let mismatched :=
      if existsb (fun ni => JS.includes path ni || JS.includes (File.directory file) ni)
                 (negativeIndicators indicators)
      then JS.set_add ext mismatched else mismatched in
    let relevant := if isRelevant then push file relevant else relevant in
    (relevant, matched, mismatched) in
  let '(relevant, matched, mismatched) := fold_left step files ([], [], []) in
  {| relevantFiles := List.length relevant;
     totalFiles := List.length files;
     matchedTechnologies := matched;
     mismatchedTechnologies := mismatched |}.

(** [`${repo.description || ''} ${repo.topics.join(' ')}`.toLowerCase()] *)
Definition repoText (repo : Repo.t) : string :=
  JS.toLowerCase (JS.or_empty (Repo.description repo) ++ " " ++ JS.join " " (Repo.topics repo)).

(** [`${pr.title} ${pr.body || ''}`.toLowerCase()] *)
Definition prText (pr : PR.t) : string :=
  JS.toLowerCase (PR.title pr ++ " " ++ JS.or_empty (PR.body pr)).

Record TechStack := mkTechStack {
  techScore : float;
  matched : list string;
  mismatched : list string
}.

(** Signal 1: technology stack alignment. *)
Definition calculateTechnologyStackMatch (activity : Activity.t) (r : RoleType) : TechStack :=
  let indicators := ROLE_TECHNOLOGY_INDICATORS r in
  let fileStep (acc : list string * list string) (file : File.t) :=
    let '(matched, mismatched) := acc in
    let ext := JS.toLowerCase (File.fileExtension file) in
    let path := JS.toLowerCase (File.filePath file) in
    let matched :=
      if JS.mem ext (fileExtensions indicators) then JS.set_add ext matched else matched in
    let mismatched :=
      if existsb (fun ni => JS.includes path ni) (negativeIndicators indicators)
      then JS.set_add ext mismatched else mismatched in
    (matched, mismatched) in
  let langStep (matched : list string) (lang : string) :=
    if JS.mem (JS.toLowerCase lang) (languages indicators)
    then JS.set_add lang matched else matched in
  let prStep (acc : list string * list string) (pr : PR.t) :=
    let '(matched, mismatched) := fold_left fileStep (PR.filesChanged pr) acc in
    (fold_left langStep (PR.languages pr) matched, mismatched) in
  let '(matched, mismatched) := fold_left prStep (Activity.prs activity) ([], []) in
  let repoLangStep (matched : list string) (entry : string * float) :=
    let '(lang, percentage) := entry in
    if (percentage >? 10) && JS.mem (JS.toLowerCase lang) (languages indicators)
    then JS.set_add lang matched else matched in
  let repoStep (matched : list string) (repo : Repo.t) :=
    let matched := fold_left repoLangStep (Repo.languages repo) matched in
    if existsb (fun kw => JS.includes (repoText repo) kw) (keywords indicators)
    then JS.set_add "repository-keyword" matched else matched in
  let matched := fold_left repoStep (Activity.repositories activity) matched in
  let matchCount := JS.of_nat (List.length matched) in
  let mismatchCount := JS.of_nat (List.length mismatched) in
  let baseScore := JS.Math_min (matchCount * 15) 100 in
  let penalty := JS.Math_min (mismatchCount * 10) 50 in
  {| techScore := JS.Math_max (baseScore - penalty) 0;
     matched := matched;
     mismatched := mismatched |}.

(** Signal 2: contribution depth in the role's domain. *)
Definition calculateDomainContributionDepth (activity : Activity.t) (r : RoleType)
  : ContributionDepth.t :=
  let indicators := ROLE_TECHNOLOGY_INDICATORS r in
  let step (relevantPRs : nat) (pr : PR.t) :=
    let analysis := analyzeFileChanges (PR.filesChanged pr) r in
    let relevanceRatio :=
      if (0 <? totalFiles analysis)%nat
      then JS.of_nat (relevantFiles analysis) / JS.of_nat (totalFiles analysis) else 0 in
    let relevantPRs := if relevanceRatio >? 0.5 then S relevantPRs else relevantPRs in
    let relevantPRs :=
      if existsb (fun kw => JS.includes (prText pr) kw) (keywords indicators)
      then S relevantPRs else relevantPRs in
    relevantPRs in
  let relevantPRs := fold_left step (Activity.prs activity) O in
  let totalPRs := List.length (Activity.prs activity) in
  let depthScore :=
    if (0 <? totalPRs)%nat then (JS.of_nat relevantPRs / JS.of_nat totalPRs) * 100 else 0 in
  {| ContributionDepth.score := depthScore;
     ContributionDepth.relevantPRs := relevantPRs;
     ContributionDepth.totalPRs := totalPRs |}.

Record ArchitectureMatch := mkArchitectureMatch { archScore : float; patterns : list string }.

(** Signal 3: architecture pattern recognition. *)
Definition calculateArchitecturePatternMatch (activity : Activity.t) (r : RoleType)
  : ArchitectureMatch :=
  let indicators := ROLE_TECHNOLOGY_INDICATORS r in
  let prStep (detectedPatterns : list string) (pr : PR.t) :=
    let prText := prText pr in
    let filePaths :=
      JS.join " " (map (fun f => JS.toLowerCase (File.filePath f)) (PR.filesChanged pr)) in
    let detectedPatterns :=
      fold_left
        (fun detected pattern =>
           if JS.includes prText pattern || JS.includes filePaths pattern
           then JS.set_add pattern detected else detected)
        (architecturePatterns indicators) detectedPatterns in
    let detectedPatterns :=
      if PR.isAPIChange pr then JS.set_add "api-design" detectedPatterns
      else detectedPatterns in
    let detectedPatterns :=
      if PR.isInfrastructureChange pr then JS.set_add "infrastructure" detectedPatterns
      else detectedPatterns in
    let detectedPatterns :=
      if PR.isDatabaseChange pr then JS.set_add "data-layer" detectedPatterns
      else detectedPatterns in
    detectedPatterns in
  let detectedPatterns := fold_left prStep (Activity.prs activity) [] in
  let repoStep (detectedPatterns : list string) (repo : Repo.t) :=
    fold_left
      (fun detected pattern =>
         if JS.includes (repoText repo) pattern then JS.set_add pattern detected else detected)
      (architecturePatterns indicators) detectedPatterns in
  let detectedPatterns := fold_left repoStep (Activity.repositories activity) detectedPatterns in
  {| archScore := JS.Math_min (JS.of_nat (List.length detectedPatterns) * 20) 100;
     patterns := detectedPatterns |}.

(** Signal 4: file type distribution. *)
Definition calculateFileTypeAlignment (activity : Activity.t) (r : RoleType) : float :=
  let indicators := ROLE_TECHNOLOGY_INDICATORS r in
  let fileStep (acc : nat * nat) (file : File.t) :=
    let '(relevantFiles, totalFiles) := acc in
    let totalFiles := S totalFiles in
    let relevantFiles :=
      if JS.mem (JS.toLowerCase (File.fileExtension file)) (fileExtensions indicators)
      then S relevantFiles else relevantFiles in
    (relevantFiles, totalFiles) in
  let '(relevantFiles, totalFiles) :=
    fold_left (fun acc pr => fold_left fileStep (PR.filesChanged pr) acc)
              (Activity.prs activity) (O, O) in
  if (0 <? totalFiles)%nat
  then (JS.of_nat relevantFiles / JS.of_nat totalFiles) * 100 else 0.

(** Signal 5: issue / PR type patterns. *)
Definition calculateActivityTypeMatch (activity : Activity.t) (r : RoleType) : float :=
  let indicators := ROLE_TECHNOLOGY_INDICATORS r in
  let totalActivities :=
    (List.length (Activity.prs activity) + List.length (Activity.issues activity))%nat in
  let prStep (relevantActivities : nat) (pr : PR.t) :=
    let isRelevant := false in
    let isRelevant :=
      if RoleType_eqb r backend && (PR.isAPIChange pr || PR.isDatabaseChange pr) then true
      else if RoleType_eqb r frontend && PR.isUIChange pr then true
      else if RoleType_eqb r devops && PR.isInfrastructureChange pr then true
      else if RoleType_eqb r devops && PR.isConfigChange pr then true
      else isRelevant in
    let isRelevant :=
      if existsb (fun kw => JS.includes (prText pr) kw) (keywords indicators)
      then true else isRelevant in
    if isRelevant then S relevantActivities else relevantActivities in
  let relevantActivities := fold_left prStep (Activity.prs activity) O in
  let issueStep (relevantActivities : nat) (issue : IssueAnalysis.t) :=
    let issueText :=
      JS.toLowerCase
        (IssueAnalysis.title issue ++ " " ++ JS.or_empty (IssueAnalysis.body issue)) in
    let relevantActivities :=
      if existsb (fun kw => JS.includes issueText kw) (keywords indicators)
      then S relevantActivities else relevantActivities in
    if RoleType_eqb r devops && IssueAnalysis.isInfrastructure issue then S relevantActivities
    else if RoleType_eqb r security && IssueAnalysis.isSecurity issue then S relevantActivities
    else relevantActivities in
  let relevantActivities := fold_left issueStep (Activity.issues activity) relevantActivities in
  if (0 <? totalActivities)%nat
  then (JS.of_nat relevantActivities / JS.of_nat totalActivities) * 100 else 0.

(** Signal 6: repository type distribution. *)
Definition calculateRepositoryTypeMatch (activity : Activity.t) (r : RoleType) : float :=
  let indicators := ROLE_TECHNOLOGY_INDICATORS r in
  let step (relevantRepos : nat) (repo : Repo.t) :=
    if Repo.isFork repo then relevantRepos
    else if JS.mem (JS.toLowerCase (Repo.primaryLanguage repo)) (languages indicators)
    then S relevantRepos
    else if existsb (fun kw => JS.includes (repoText repo) kw) (keywords indicators)
    then S relevantRepos
    else relevantRepos in
  let relevantRepos := fold_left step (Activity.repositories activity) O in
  let totalRepos :=
    List.length (filter (fun r => negb (Repo.isFork r)) (Activity.repositories activity)) in
  if (0 <? totalRepos)%nat
  then (JS.of_nat relevantRepos / JS.of_nat totalRepos) * 100 else 0.

(** Signal 7: code review domain expertise. *)
Definition calculateReviewDomainExpertise (activity : Activity.t) (r : RoleType) : float :=
  let indicators := ROLE_TECHNOLOGY_INDICATORS r in
  let step (relevantReviews : nat) (review : ReviewedPR.t) :=
    let relevantReviews :=
      if existsb
           (fun file =>
              JS.mem (JS.toLowerCase (JS.substringFromLastDot file)) (fileExtensions indicators))
           (ReviewedPR.reviewedFiles review)
      then S relevantReviews else relevantReviews in
    if existsb (fun lang => JS.mem (JS.toLowerCase lang) (languages indicators))
               (ReviewedPR.languages review)
    then S relevantReviews else relevantReviews in
  let relevantReviews := fold_left step (Activity.codeReviews activity) O in
  let totalReviews := List.length (Activity.codeReviews activity) in
  if (0 <? totalReviews)%nat
  then (JS.of_nat relevantReviews / JS.of_nat totalReviews) * 100 else 0.

(** Negative compatibility signals. *)
Definition calculateNegativeSignals (activity : Activity.t) (r : RoleType) : NegativeSignals.t :=
  let indicators := ROLE_TECHNOLOGY_INDICATORS r in
  let fileStep (mismatchCount : nat) (file : File.t) :=
    let path := JS.toLowerCase (File.filePath file) in
    if existsb (fun ni => JS.includes path ni) (negativeIndicators indicators)
    then S mismatchCount else mismatchCount in
  let mismatchCount :=
    fold_left (fun n pr => fold_left fileStep (PR.filesChanged pr) n)
              (Activity.prs activity) O in
  let technologyMismatch :=
    JS.Math_min
      ((JS.of_nat mismatchCount / JS.of_nat (List.length (Activity.prs activity))) * 100)
      100 in
  let contradictionScore := technologyMismatch in
  let depthAnalysis := calculateDomainContributionDepth activity r in
  let insufficientDepth :=
    if (ContributionDepth.totalPRs depthAnalysis <? 5)%nat then 100 else 0 in
  let archAnalysis := calculateArchitecturePatternMatch activity r in
  let architectureMismatch :=
    if (List.length (patterns archAnalysis) =? 0)%nat then 50 else 0 in
  let techAnalysis := calculateTechnologyStackMatch activity r in
  let technologyOverweight :=
    if (List.length (matched techAnalysis) <? List.length (mismatched techAnalysis))%nat
    then 70 else 0 in
  {| NegativeSignals.technologyMismatch := technologyMismatch;
     NegativeSignals.domainContradiction := contradictionScore;
     NegativeSignals.insufficientDepth := insufficientDepth;
     NegativeSignals.architectureMismatch := architectureMismatch;
     NegativeSignals.technologyOverweight := technologyOverweight |}.

(** Role-specific weighting of the seven signals. *)
Definition getRoleWeights (r : RoleType) : CompatibilitySignals.t :=
  let baseWeights :=
    {| CompatibilitySignals.technologyStackMatch := 0.2;
       CompatibilitySignals.domainContributionDepth := 0.25;
       CompatibilitySignals.architecturePatternMatch := 0.15;
       CompatibilitySignals.fileTypeAlignment := 0.15;
       CompatibilitySignals.activityTypeMatch := 0.1;
       CompatibilitySignals.repositoryTypeMatch := 0.1;
       CompatibilitySignals.reviewDomainExpertise := 0.05 |} in
  match r with
  | backend =>
      {| CompatibilitySignals.technologyStackMatch := 0.25;
         CompatibilitySignals.domainContributionDepth := 0.3;
         CompatibilitySignals.architecturePatternMatch := 0.2;
         CompatibilitySignals.fileTypeAlignment := 0.15;
         CompatibilitySignals.activityTypeMatch := 0.1;
         CompatibilitySignals.repositoryTypeMatch :=
           CompatibilitySignals.repositoryTypeMatch baseWeights;
         CompatibilitySignals.reviewDomainExpertise :=
           CompatibilitySignals.reviewDomainExpertise baseWeights |}
  | frontend =>
      {| CompatibilitySignals.technologyStackMatch := 0.25;
         CompatibilitySignals.domainContributionDepth := 0.25;
         CompatibilitySignals.architecturePatternMatch :=
           CompatibilitySignals.architecturePatternMatch baseWeights;
         CompatibilitySignals.fileTypeAlignment := 0.25;
         CompatibilitySignals.activityTypeMatch := 0.15;
         CompatibilitySignals.repositoryTypeMatch :=
           CompatibilitySignals.repositoryTypeMatch baseWeights;
         CompatibilitySignals.reviewDomainExpertise :=
           CompatibilitySignals.reviewDomainExpertise baseWeights |}
  | devops =>
      {| CompatibilitySignals.technologyStackMatch := 0.2;
         CompatibilitySignals.domainContributionDepth := 0.2;
         CompatibilitySignals.architecturePatternMatch := 0.25;
         CompatibilitySignals.fileTypeAlignment :=
           CompatibilitySignals.fileTypeAlignment baseWeights;
         CompatibilitySignals.activityTypeMatch := 0.25;
         CompatibilitySignals.repositoryTypeMatch :=
           CompatibilitySignals.repositoryTypeMatch baseWeights;
         CompatibilitySignals.reviewDomainExpertise :=
           CompatibilitySignals.reviewDomainExpertise baseWeights |}
  | _ => baseWeights
  end.

(** The weighted sum of the seven signals. *)
Definition weightedSignals (signals weights : CompatibilitySignals.t) : float :=
  CompatibilitySignals.technologyStackMatch signals
    * CompatibilitySignals.technologyStackMatch weights
  + CompatibilitySignals.domainContributionDepth signals
    * CompatibilitySignals.domainContributionDepth weights
  + CompatibilitySignals.architecturePatternMatch signals
    * CompatibilitySignals.architecturePatternMatch weights
  + CompatibilitySignals.fileTypeAlignment signals
    * CompatibilitySignals.fileTypeAlignment weights
  + CompatibilitySignals.activityTypeMatch signals
    * CompatibilitySignals.activityTypeMatch weights
  + CompatibilitySignals.repositoryTypeMatch signals
    * CompatibilitySignals.repositoryTypeMatch weights
  + CompatibilitySignals.reviewDomainExpertise signals
    * CompatibilitySignals.reviewDomainExpertise weights.

(** The penalty the negative signals subtract from it. *)
Definition negativePenalty (negativeSignals : NegativeSignals.t) : float :=
  NegativeSignals.technologyMismatch negativeSignals * 0.15
  + NegativeSignals.domainContradiction negativeSignals * 0.1
  + NegativeSignals.insufficientDepth negativeSignals * 0.2
  + NegativeSignals.architectureMismatch negativeSignals * 0.1
  + NegativeSignals.technologyOverweight negativeSignals * 0.15.

(** Main function: the compatibility score. *)
Definition calculateCompatibilityScore (activity : Activity.t) (query : RoleQuery)
  : CompatibilityScoreResult :=
  let r := role query in
  let weights := getRoleWeights r in
  let techStack := calculateTechnologyStackMatch activity r in
  let contributionDepth := calculateDomainContributionDepth activity r in
  let architecture := calculateArchitecturePatternMatch activity r in
  let fileType := calculateFileTypeAlignment activity r in
  let activityType := calculateActivityTypeMatch activity r in
  let repositoryType := calculateRepositoryTypeMatch activity r in
  let reviewExpertise := calculateReviewDomainExpertise activity r in
  let signals :=
    {| CompatibilitySignals.technologyStackMatch := techScore techStack;
       CompatibilitySignals.domainContributionDepth := ContributionDepth.score contributionDepth;
       CompatibilitySignals.architecturePatternMatch := archScore architecture;
       CompatibilitySignals.fileTypeAlignment := fileType;
       CompatibilitySignals.activityTypeMatch := activityType;
       CompatibilitySignals.repositoryTypeMatch := repositoryType;
       CompatibilitySignals.reviewDomainExpertise := reviewExpertise |} in
  let negativeSignals := calculateNegativeSignals activity r in
  let totalScore := weightedSignals signals weights in
  let totalScore := totalScore - negativePenalty negativeSignals in
  let totalScore := JS.Math_max 0 (JS.Math_min 100 totalScore) in
  let compatibilityLevel :=
    if totalScore >=? 75 then high
    else if totalScore >=? 50 then medium
    else if totalScore >=? 25 then low
    else poor in
  let strengths : list string := [] in
  let weaknesses : list string := [] in
  let evidence : list Evidence := [] in
  let strengths :=
    pushIf (techScore techStack >? 70)
      ("Strong technology stack match with "
       ++ JS.decimal (List.length (matched techStack)) ++ " relevant technologies")
      strengths in
  let evidence :=
    if techScore techStack >? 70
    then push {| type := "Technology Stack";
                 description :=
                   "Matched technologies: " ++ JS.join ", " (firstn 5 (matched techStack));
                 evidenceScore := techScore techStack |} evidence
    else evidence in
  let weaknesses :=
    pushIf (negb (techScore techStack >? 70) && (techScore techStack <? 30))
      "Limited technology stack alignment" weaknesses in
  let strengths :=
    pushIf (ContributionDepth.score contributionDepth >? 70)
      ("Deep domain contributions: "
       ++ JS.decimal (ContributionDepth.relevantPRs contributionDepth) ++ "/"
       ++ JS.decimal (ContributionDepth.totalPRs contributionDepth) ++ " relevant PRs")
      strengths in
  let evidence :=
    if ContributionDepth.score contributionDepth >? 70
    then push {| type := "Contribution Depth";
                 description :=
                   JS.decimal (ContributionDepth.relevantPRs contributionDepth) ++ " out of "
                   ++ JS.decimal (ContributionDepth.totalPRs contributionDepth)
                   ++ " PRs are role-relevant";
                 evidenceScore := ContributionDepth.score contributionDepth |} evidence
    else evidence in
  let hasPatterns := (0 <? List.length (patterns architecture))%nat in
  let strengths :=
    pushIf hasPatterns
      ("Recognized architecture patterns: " ++ JS.join ", " (firstn 3 (patterns architecture)))
      strengths in
  let evidence :=
    if hasPatterns
    then push {| type := "Architecture Patterns";
                 description := "Detected patterns: " ++ JS.join ", " (patterns architecture);
                 evidenceScore := archScore architecture |} evidence
    else evidence in
  let weaknesses :=
    pushIf (NegativeSignals.technologyMismatch negativeSignals >? 50)
      "Significant contributions in mismatched technologies" weaknesses in
  let weaknesses :=
    pushIf (NegativeSignals.insufficientDepth negativeSignals >? 0)
      "Insufficient contribution depth in role domain" weaknesses in
  {| totalScore := totalScore;
     compatibilityLevel := compatibilityLevel;
     signals := signals;
     negativeSignals := negativeSignals;
     explanation :=
       {| Explanation.role := roleName r;
          Explanation.strengths := strengths;
          Explanation.weaknesses := weaknesses;
          Explanation.evidence := evidence |};
     breakdown :=
       {| Breakdown.technologyStack :=
            {| TechnologyStack.matchedTechnologies := matched techStack;
               TechnologyStack.mismatchedTechnologies := mismatched techStack;
               TechnologyStack.score := techScore techStack |};
          Breakdown.contributionDepth :=
            {| ContributionDepth.relevantPRs := ContributionDepth.relevantPRs contributionDepth;
               ContributionDepth.totalPRs := ContributionDepth.totalPRs contributionDepth;
               ContributionDepth.score := ContributionDepth.score contributionDepth |};
          Breakdown.architecturePatterns :=
            {| ArchitecturePatterns.detectedPatterns := patterns architecture;
               ArchitecturePatterns.score := archScore architecture |} |} |}.

End Compatibility.

(* ===================================================================== *)
(** ** Recruiter match score ([scores/recruiterMatch.ts])                 *)
(* ===================================================================== *)

Module RecruiterMatch.
Local Open Scope string_scope.
Local Open Scope float_scope.

Record Axes := mkAxes { trust : float; compatibility : float; impact : float }.

Record AxesOverride := mkAxesOverride {
  trustOverride : option float;
  compatibilityOverride : option float;
  impactOverride : option float
}.

Record BoostFactors := mkBoostFactors {
  highTrustBoost : float;
  highCompatibilityBoost : float;
  highImpactBoost : float
}.

Record BoostFactorsOverride := mkBoostFactorsOverride {
  highTrustBoostOverride : option float;
  highCompatibilityBoostOverride : option float;
  highImpactBoostOverride : option float
}.

(** [RecruiterMatchScoreConfig]: every key optional. *)
Module RecruiterMatchScoreConfig.
Record t := mk {
  weights : option AxesOverride;
  minimumThresholds : option AxesOverride;
  boostFactors : option BoostFactorsOverride
}.
End RecruiterMatchScoreConfig.

(** [Required<RecruiterMatchScoreConfig>] *)
Module Config.
Record t := mk {
  weights : Axes;
  minimumThresholds : Axes;
  boostFactors : BoostFactors
}.
End Config.

Definition DEFAULT_CONFIG : Config.t :=
  {| Config.weights := {| trust := 0.4; compatibility := 0.4; impact := 0.2 |};
     Config.minimumThresholds := {| trust := 50; compatibility := 30; impact := 20 |};
     Config.boostFactors :=
       {| highTrustBoost := 1.1; highCompatibilityBoost := 1.15; highImpactBoost := 1.05 |} |}.

(** [{...defaults, ...override}] on a triple of axes. *)
Definition mergeAxes (d : Axes) (o : option AxesOverride) : Axes :=
  match o with
  | None => d
  | Some a =>
      {| trust := pick (trustOverride a) (trust d);
         compatibility := pick (compatibilityOverride a) (compatibility d);
         impact := pick (impactOverride a) (impact d) |}
  end.

Definition mergeBoosts (d : BoostFactors) (o : option BoostFactorsOverride) : BoostFactors :=
  match o with
  | None => d
  | Some b =>
      {| highTrustBoost := pick (highTrustBoostOverride b) (highTrustBoost d);
         highCompatibilityBoost :=
           pick (highCompatibilityBoostOverride b) (highCompatibilityBoost d);
         highImpactBoost := pick (highImpactBoostOverride b) (highImpactBoost d) |}
  end.

(** The merge at the head of [calculateRecruiterMatchScore]. *)
Definition fullConfig (config : option RecruiterMatchScoreConfig.t) : Config.t :=
  let d := DEFAULT_CONFIG in
  match config with
  | None => d
  | Some c =>
      {| Config.weights := mergeAxes (Config.weights d) (RecruiterMatchScoreConfig.weights c);
         Config.minimumThresholds :=
           mergeAxes (Config.minimumThresholds d) (RecruiterMatchScoreConfig.minimumThresholds c);
         Config.boostFactors :=
           mergeBoosts (Config.boostFactors d) (RecruiterMatchScoreConfig.boostFactors c) |}
  end.

Record WeightedScore := mkWeightedScore {
  total : float;
  trustComponent : float;
  compatibilityComponent : float;
  impactComponent : float;
  boosts : Axes
}.

(** Weighted match score, with thresholds and boosts. *)
Definition calculateWeightedScore
  (trustScore compatibilityScore impactScore : float) (config : Config.t) : WeightedScore :=
  let gated :=
    {| total := 0; trustComponent := 0; compatibilityComponent := 0; impactComponent := 0;
       boosts := {| trust := 1; compatibility := 1; impact := 1 |} |} in
  if trustScore <? trust (Config.minimumThresholds config) then gated
  else if compatibilityScore <? compatibility (Config.minimumThresholds config) then gated
  else if impactScore <? impact (Config.minimumThresholds config) then gated
  else
    let trustBoost := 1 in
    let compatibilityBoost := 1 in
    let impactBoost := 1 in
    let trustBoost :=
      if trustScore >? 80 then highTrustBoost (Config.boostFactors config) else trustBoost in
    let compatibilityBoost :=
      if compatibilityScore >? 85
      then highCompatibilityBoost (Config.boostFactors config) else compatibilityBoost in
    let impactBoost :=
      if impactScore >? 90 then highImpactBoost (Config.boostFactors config) else impactBoost in
    let trustComponent := trustScore * trust (Config.weights config) * trustBoost in
    let compatibilityComponent :=
      compatibilityScore * compatibility (Config.weights config) * compatibilityBoost in
    let impactComponent := impactScore * impact (Config.weights config) * impactBoost in
    let total := JS.Math_min (trustComponent + compatibilityComponent + impactComponent) 100 in
    {| total := total;
       trustComponent := trustScore * trust (Config.weights config);
       compatibilityComponent := compatibilityScore * compatibility (Config.weights config);
       impactComponent := impactScore * impact (Config.weights config);
       boosts := {| trust := trustBoost; compatibility := compatibilityBoost;
                    impact := impactBoost |} |}.

Inductive MatchLevel := excellent | strong | good | fair | poor.
Inductive Recommendation := strongly_recommend | recommend | consider | not_recommended.

Module RecruiterView.
Record t := mk {
  matchScore : float;
  matchLevel : MatchLevel;
  recommendation : Recommendation;
  trustScore : float;
  fitScore : float;
  impactScore : float;
  strengths : list string;
  concerns : list string;
  isAuthentic : bool;
  isGoodFit : bool;
  hasImpact : bool;
  redFlags : list string;
  summary : string
}.
End RecruiterView.

(** Human-readable summary for recruiters. *)
Definition generateSummary
  (trustResult : Trust.TrustScoreResult)
  (compatibilityResult : Compatibility.CompatibilityScoreResult)
  (impactResult : Impact.ImpactScoreResult) (matchScore : float) : string :=
  let parts : list string := [] in
  let parts :=
    if matchScore >=? 85 then push "Excellent match" parts
    else if matchScore >=? 70 then push "Strong match" parts
    else if matchScore >=? 50 then push "Good match" parts
    else push "Fair match" parts in
  let parts :=
    push ("with "
          ++ Compatibility.Explanation.role (Compatibility.explanation compatibilityResult)
          ++ " role") parts in
  let parts := pushIf (Trust.isAuthentic trustResult) "and authentic profile" parts in
  let parts :=
    pushIf (Compatibility.isHigh (Compatibility.compatibilityLevel compatibilityResult))
           "showing strong role alignment" parts in
  let parts :=
    pushIf (Impact.totalScore impactResult >? 80) "with high-impact contributions" parts in
  JS.join ", " parts ++ ".".

(** Recruiter-friendly view. *)
Definition generateRecruiterView
  (trustResult : Trust.TrustScoreResult)
  (compatibilityResult : Compatibility.CompatibilityScoreResult)
  (impactResult : Impact.ImpactScoreResult)
  (matchScore : float) (components : Axes) : RecruiterView.t :=
  let '(matchLevel, recommendation) :=
    if matchScore >=? 85 then (excellent, strongly_recommend)
    else if matchScore >=? 70 then (strong, recommend)
    else if matchScore >=? 50 then (good, consider)
    else if matchScore >=? 30 then (fair, consider)
    else (poor, not_recommended) in
  let strengths : list string := [] in
  let strengths :=
    pushIf (Trust.totalScore trustResult >? 75)
           "Highly authentic profile with verified contributions" strengths in
  let strengths :=
    pushIf (Compatibility.totalScore compatibilityResult >? 75)
           ("Strong "
            ++ Compatibility.Explanation.role (Compatibility.explanation compatibilityResult)
            ++ " role fit") strengths in
  let strengths :=
    pushIf (Impact.totalScore impactResult >? 80)
           "High-impact contributions with proven track record" strengths in
  let strengths :=
    pushIf (Trust.isAuthentic trustResult
            && Compatibility.isHigh (Compatibility.compatibilityLevel compatibilityResult))
           "Authentic engineer with excellent role alignment" strengths in
  let concerns : list string := [] in
  let concerns :=
    pushIf (Trust.totalScore trustResult <? 60) "Trust score below ideal threshold" concerns in
  let concerns :=
    pushIf (Compatibility.totalScore compatibilityResult <? 50)
           "Limited role-specific experience" concerns in
  let concerns :=
    pushIf (Impact.totalScore impactResult <? 50) "Lower contribution impact" concerns in
  let concerns :=
    pushIf (0 <? List.length (Trust.redFlags trustResult))%nat
           (JS.decimal (List.length (Trust.redFlags trustResult)) ++ " trust-related concerns")
           concerns in
  let redFlags : list string := [] in
  let redFlags :=
    pushIf (negb (Trust.isAuthentic trustResult)) "Profile authenticity concerns" redFlags in
  let redFlags :=
    pushIf (Trust.forkFarming (Trust.spamDetection trustResult))
           "Fork-only contributions detected" redFlags in
  let redFlags :=
    pushIf (Compatibility.isPoor (Compatibility.compatibilityLevel compatibilityResult))
           "Poor role compatibility" redFlags in
  let summary := generateSummary trustResult compatibilityResult impactResult matchScore in
  {| RecruiterView.matchScore := matchScore;
     RecruiterView.matchLevel := matchLevel;
     RecruiterView.recommendation := recommendation;
     RecruiterView.trustScore := Trust.totalScore trustResult;
     RecruiterView.fitScore := Compatibility.totalScore compatibilityResult;
     RecruiterView.impactScore := Impact.totalScore impactResult;
     RecruiterView.strengths := strengths;
     RecruiterView.concerns := concerns;
     RecruiterView.isAuthentic := Trust.isAuthentic trustResult;
     RecruiterView.isGoodFit :=
       negb (Compatibility.isPoor (Compatibility.compatibilityLevel compatibilityResult));
     RecruiterView.hasImpact := Impact.totalScore impactResult >? 50;
     RecruiterView.redFlags := redFlags;
     RecruiterView.summary := summary |}.

(** The engineer's own view ([EngineerView]). *)
Module EngineerTrust.
Record Components := mkComponents {
  accountAuthenticity : float;
  contributionAuthenticity : float;
  collaborationSignals : float;
  antiGamingScore : float
}.
Record t := mk {
  total : float;
  isAuthentic : bool;
  confidence : float;
  components : Components;
  greenFlags : list string;
  redFlags : list string
}.
End EngineerTrust.

Module EngineerCompatibility.
Record t := mk {
  total : float;
  compatibilityLevel : Compatibility.CompatibilityLevel;
  signals : Compatibility.CompatibilitySignals.t;
  strengths : list string;
  weaknesses : list string
}.
End EngineerCompatibility.

Module EngineerImpact.
Record Components := mkComponents {
  prImpact : float;
  collaboration : float;
  longevity : float;
  quality : float
}.
Record Signals := mkSignals {
  totalMergedPRs : nat;
  activeRepositories : nat;
  activitySpanMonths : float
}.
Record t := mk {
  total : float;
  components : Components;
  signals : Signals
}.
End EngineerImpact.

Module EngineerView.
Record t := mk {
  trustScore : EngineerTrust.t;
  compatibilityScore : EngineerCompatibility.t;
  impactScore : EngineerImpact.t;
  improvementSuggestions : list string
}.
End EngineerView.

(** Engineer-friendly view (full transparency, no match score). *)
Definition generateEngineerView
  (trustResult : Trust.TrustScoreResult)
  (compatibilityResult : Compatibility.CompatibilityScoreResult)
  (impactResult : Impact.ImpactScoreResult) : EngineerView.t :=
  let suggestions : list string := [] in
  let suggestions :=
    if Trust.totalScore trustResult <? 70 then
      let suggestions :=
        pushIf (JS.mem "Insufficient repository diversity" (Trust.redFlags trustResult))
               "Contribute to more diverse repositories to increase trust score" suggestions in
      pushIf (Trust.forkFarming (Trust.spamDetection trustResult))
             "Contribute to original repositories, not just forks" suggestions
    else suggestions in
  let suggestions :=
    if Compatibility.totalScore compatibilityResult <? 60 then
      let suggestions :=
        push ("Increase "
              ++ Compatibility.Explanation.role (Compatibility.explanation compatibilityResult)
              ++ "-specific contributions") suggestions in
      pushIf (Compatibility.NegativeSignals.technologyMismatch
                (Compatibility.negativeSignals compatibilityResult) >? 50)
             "Focus on role-relevant technologies and reduce unrelated contributions"
             suggestions
    else suggestions in
  let suggestions :=
    if Impact.totalScore impactResult <? 60 then
      let suggestions :=
        push "Increase merged PR count and collaboration with maintainers" suggestions in
      pushIf (Impact.Signals.activeRepositories (Impact.signals impactResult) <? 3)%nat
             "Contribute to more repositories to demonstrate breadth" suggestions
    else suggestions in
  let tc := Trust.components trustResult in
  let cs := Compatibility.signals compatibilityResult in
  let ic := Impact.components impactResult in
  {| EngineerView.trustScore :=
       {| EngineerTrust.total := Trust.totalScore trustResult;
          EngineerTrust.isAuthentic := Trust.isAuthentic trustResult;
          EngineerTrust.confidence := Trust.confidence trustResult;
          EngineerTrust.components :=
            {| EngineerTrust.accountAuthenticity :=
                 score (Trust.Components.accountAuthenticity tc);
               EngineerTrust.contributionAuthenticity :=
                 score (Trust.Components.contributionAuthenticity tc);
               EngineerTrust.collaborationSignals :=
                 score (Trust.Components.collaborationSignals tc);
               EngineerTrust.antiGamingScore :=
                 score (Trust.Components.antiGamingScore tc) |};
          EngineerTrust.greenFlags := Trust.greenFlags trustResult;
          EngineerTrust.redFlags := Trust.redFlags trustResult |};
     EngineerView.compatibilityScore :=
       {| EngineerCompatibility.total := Compatibility.totalScore compatibilityResult;
          EngineerCompatibility.compatibilityLevel :=
            Compatibility.compatibilityLevel compatibilityResult;
          EngineerCompatibility.signals :=
            {| Compatibility.CompatibilitySignals.technologyStackMatch :=
                 Compatibility.CompatibilitySignals.technologyStackMatch cs;
               Compatibility.CompatibilitySignals.domainContributionDepth :=
                 Compatibility.CompatibilitySignals.domainContributionDepth cs;
               Compatibility.CompatibilitySignals.architecturePatternMatch :=
                 Compatibility.CompatibilitySignals.architecturePatternMatch cs;
               Compatibility.CompatibilitySignals.fileTypeAlignment :=
                 Compatibility.CompatibilitySignals.fileTypeAlignment cs;
               Compatibility.CompatibilitySignals.activityTypeMatch :=
                 Compatibility.CompatibilitySignals.activityTypeMatch cs;
               Compatibility.CompatibilitySignals.repositoryTypeMatch :=
                 Compatibility.CompatibilitySignals.repositoryTypeMatch cs;
               Compatibility.CompatibilitySignals.reviewDomainExpertise :=
                 Compatibility.CompatibilitySignals.reviewDomainExpertise cs |};
          EngineerCompatibility.strengths :=
            Compatibility.Explanation.strengths (Compatibility.explanation compatibilityResult);
          EngineerCompatibility.weaknesses :=
            Compatibility.Explanation.weaknesses
              (Compatibility.explanation compatibilityResult) |};
     EngineerView.impactScore :=
       {| EngineerImpact.total := Impact.totalScore impactResult;
          EngineerImpact.components :=
            {| EngineerImpact.prImpact := score (Impact.Components.prImpact ic);
               EngineerImpact.collaboration := score (Impact.Components.collaboration ic);
               EngineerImpact.longevity := score (Impact.Components.longevity ic);
               EngineerImpact.quality := score (Impact.Components.quality ic) |};
          EngineerImpact.signals :=
            {| EngineerImpact.totalMergedPRs :=
                 Impact.Signals.totalMergedPRs (Impact.signals impactResult);
               EngineerImpact.activeRepositories :=
                 Impact.Signals.activeRepositories (Impact.signals impactResult);
               EngineerImpact.activitySpanMonths :=
                 Impact.Signals.activitySpanMonths (Impact.signals impactResult) |} |};
     EngineerView.improvementSuggestions := suggestions |}.

(** The name of a compatibility level: the string the field holds. *)
Definition levelName (l : Compatibility.CompatibilityLevel) : string :=
  match l with
  | Compatibility.high => "high"
  | Compatibility.medium => "medium"
  | Compatibility.low => "low"
  | Compatibility.poor => "poor"
  end.

(** The engineer view as it serializes: the object literal that
    [generateEngineerView] returns, property by property. *)
Definition engineerViewJSON (v : EngineerView.t) : JSON.value :=
  let t := EngineerView.trustScore v in
  let c := EngineerView.compatibilityScore v in
  let i := EngineerView.impactScore v in
  let tc := EngineerTrust.components t in
  let cs := EngineerCompatibility.signals c in
  let ic := EngineerImpact.components i in
  let isig := EngineerImpact.signals i in
  JSON.Obj
    [ ("trustScore",
       JSON.Obj
         [ ("total", JSON.Number (EngineerTrust.total t));
           ("isAuthentic", JSON.Bool (EngineerTrust.isAuthentic t));
           ("confidence", JSON.Number (EngineerTrust.confidence t));
           ("components",
            JSON.Obj
              [ ("accountAuthenticity", JSON.Number (EngineerTrust.accountAuthenticity tc));
                ("contributionAuthenticity",
                 JSON.Number (EngineerTrust.contributionAuthenticity tc));
                ("collaborationSignals", JSON.Number (EngineerTrust.collaborationSignals tc));
                ("antiGamingScore", JSON.Number (EngineerTrust.antiGamingScore tc)) ]);
           ("greenFlags", JSON.strings (EngineerTrust.greenFlags t));
           ("redFlags", JSON.strings (EngineerTrust.redFlags t)) ]);
      ("compatibilityScore",
       JSON.Obj
         [ ("total", JSON.Number (EngineerCompatibility.total c));
           ("compatibilityLevel",
            JSON.Str (levelName (EngineerCompatibility.compatibilityLevel c)));
           ("signals",
            JSON.Obj
              [ ("technologyStackMatch",
                 JSON.Number (Compatibility.CompatibilitySignals.technologyStackMatch cs));
                ("domainContributionDepth",
                 JSON.Number (Compatibility.CompatibilitySignals.domainContributionDepth cs));
                ("architecturePatternMatch",
                 JSON.Number (Compatibility.CompatibilitySignals.architecturePatternMatch cs));
                ("fileTypeAlignment",
                 JSON.Number (Compatibility.CompatibilitySignals.fileTypeAlignment cs));
                ("activityTypeMatch",
                 JSON.Number (Compatibility.CompatibilitySignals.activityTypeMatch cs));
                ("repositoryTypeMatch",
                 JSON.Number (Compatibility.CompatibilitySignals.repositoryTypeMatch cs));
                ("reviewDomainExpertise",
                 JSON.Number (Compatibility.CompatibilitySignals.reviewDomainExpertise cs)) ]);
           ("strengths", JSON.strings (EngineerCompatibility.strengths c));
           ("weaknesses", JSON.strings (EngineerCompatibility.weaknesses c)) ]);
      ("impactScore",
       JSON.Obj
         [ ("total", JSON.Number (EngineerImpact.total i));
           ("components",
            JSON.Obj
              [ ("prImpact", JSON.Number (EngineerImpact.prImpact ic));
                ("collaboration", JSON.Number (EngineerImpact.collaboration ic));
                ("longevity", JSON.Number (EngineerImpact.longevity ic));
                ("quality", JSON.Number (EngineerImpact.quality ic)) ]);
           ("signals",
            JSON.Obj
              [ ("totalMergedPRs", JSON.Number (JS.of_nat (EngineerImpact.totalMergedPRs isig)));
                ("activeRepositories",
                 JSON.Number (JS.of_nat (EngineerImpact.activeRepositories isig)));
                ("activitySpanMonths", JSON.Number (EngineerImpact.activitySpanMonths isig)) ]) ]);
      ("improvementSuggestions", JSON.strings (EngineerView.improvementSuggestions v)) ].

Record CalculationDetails := mkCalculationDetails {
  detailWeights : Axes;         (* [calculationDetails.weights] *)
  detailThresholds : Axes;      (* [calculationDetails.thresholds] *)
  detailBoosts : Axes           (* [calculationDetails.boosts] *)
}.

Record RecruiterMatchScoreResult := mkResult {
  totalMatchScore : float;
  resultTrustComponent : float;          (* [trustComponent] *)
  resultCompatibilityComponent : float;  (* [compatibilityComponent] *)
  resultImpactComponent : float;         (* [impactComponent] *)
  recruiterView : RecruiterView.t;
  engineerView : EngineerView.t;
  calculationDetails : CalculationDetails
}.

(** Main function: the recruiter match score. *)
Definition calculateRecruiterMatchScore
  (trustResult : Trust.TrustScoreResult)
  (compatibilityResult : Compatibility.CompatibilityScoreResult)
  (impactResult : Impact.ImpactScoreResult)
  (config : option RecruiterMatchScoreConfig.t) : RecruiterMatchScoreResult :=
  let fullConfig := fullConfig config in
  let scoreCalculation :=
    calculateWeightedScore
      (Trust.totalScore trustResult)
      (Compatibility.totalScore compatibilityResult)
      (Impact.totalScore impactResult)
      fullConfig in
  let recruiterView :=
    generateRecruiterView
      trustResult compatibilityResult impactResult
      (total scoreCalculation)
      {| trust := trustComponent scoreCalculation;
         compatibility := compatibilityComponent scoreCalculation;
         impact := impactComponent scoreCalculation |} in
  let engineerView := generateEngineerView trustResult compatibilityResult impactResult in
  {| totalMatchScore := total scoreCalculation;
     resultTrustComponent := trustComponent scoreCalculation;
     resultCompatibilityComponent := compatibilityComponent scoreCalculation;
     resultImpactComponent := impactComponent scoreCalculation;
     recruiterView := recruiterView;
     engineerView := engineerView;
     calculationDetails :=
       {| detailWeights := Config.weights fullConfig;
          detailThresholds := Config.minimumThresholds fullConfig;
          detailBoosts := boosts scoreCalculation |} |}.

End RecruiterMatch.

(* ===================================================================== *)
(** ** Explanation generator ([utils/explanation-generator.ts])           *)
(* ===================================================================== *)

Module Explanation.
Local Open Scope string_scope.
Local Open Scope float_scope.

Inductive Severity := low | medium | high.

Module Strength.
Record t := mk {
  title : string;
  description : string;
  evidence : list string
}.
End Strength.

Module Concern.
Record t := mk {
  title : string;
  description : string;
  severity : Severity;
  evidence : list string
}.
End Concern.

Record TrustIndicators := mkTrustIndicators {
  isAuthentic : bool;
  confidence : float;
  keyTrustSignals : list string
}.

Record CompatibilityIndicators := mkCompatibilityIndicators {
  role : string;
  fitLevel : Compatibility.CompatibilityLevel;
  keySignals : list string
}.

Record ImpactIndicators := mkImpactIndicators {
  contributionDepth : string;
  collaborationLevel : string;
  keyContributions : list string
}.

Record MatchExplanation := mkMatchExplanation {
  whyThisMatch : string;
  strengths : list Strength.t;
  concerns : list Concern.t;
  trustIndicators : TrustIndicators;
  compatibilityIndicators : CompatibilityIndicators;
  impactIndicators : ImpactIndicators
}.

(** [`${x}`] for a number, and [`${Math.round(x)}`]. *)
Definition str (x : float) : string := JS.Number_toString x.
Definition rounded (x : float) : string := JS.Number_toString (JS.Math_round x).

Inductive ImpactLevel := highImpact | mediumImpact | lowImpact.

Definition getImpactLevel (score : float) : ImpactLevel :=
  if score >=? 70 then highImpact
  else if score >=? 40 then mediumImpact
  else lowImpact.

(** The "why this match?" summary. *)
Definition generateWhyThisMatch
  (trustResult : Trust.TrustScoreResult) (impactResult : Impact.ImpactScoreResult)
  (compatibilityResult : Compatibility.CompatibilityScoreResult) : string :=
  let roleOf := Compatibility.Explanation.role (Compatibility.explanation compatibilityResult) in
  let parts : list string := [] in
  let parts :=
    if Trust.isAuthentic trustResult
    then push "This engineer has an authentic profile" parts
    else push "There are authenticity concerns with this profile" parts in
  let parts :=
    match Compatibility.compatibilityLevel compatibilityResult with
    | Compatibility.high =>
        push ("shows strong alignment with " ++ roleOf ++ " engineering") parts
    | Compatibility.medium =>
        push ("demonstrates moderate " ++ roleOf ++ " experience") parts
    | _ => push ("has limited " ++ roleOf ++ " alignment") parts
    end in
  let parts :=
    match getImpactLevel (Impact.totalScore impactResult) with
    | highImpact => push "with a proven track record of meaningful contributions" parts
    | mediumImpact => push "with a solid history of contributions" parts
    | lowImpact => push "with emerging contribution patterns" parts
    end in
  JS.join ", " parts ++ ".".

(** [evidence.push(...xs)] *)
Definition pushAll (xs acc : list string) : list string := (acc ++ xs)%list.

Definition buildTrustEvidence (trustResult : Trust.TrustScoreResult) : list string :=
  let s := Trust.signals trustResult in
  let evidence : list string := [] in
  let evidence :=
    pushIf (Trust.TrustSignals.accountAge s >? 365)
           ("Account age: " ++ rounded (Trust.TrustSignals.accountAge s / 365) ++ " years")
           evidence in
  let evidence :=
    pushIf (Trust.TrustSignals.repositoryDiversity s >? 70) "High repository diversity"
           evidence in
  let evidence :=
    pushIf (Trust.TrustSignals.maintainerTrust s >? 80) "High maintainer trust" evidence in
  if (0 <? List.length (Trust.greenFlags trustResult))%nat
  then pushAll (firstn 2 (Trust.greenFlags trustResult)) evidence
  else evidence.

(** [if (b) xs.push(x)] on records. *)
Definition pushWhen {A : Type} (b : bool) (x : A) (xs : list A) : list A :=
  if b then push x xs else xs.

Definition generateStrengths
  (trustResult : Trust.TrustScoreResult) (impactResult : Impact.ImpactScoreResult)
  (compatibilityResult : Compatibility.CompatibilityScoreResult) : list Strength.t :=
  let ts := Trust.signals trustResult in
  let isig := Impact.signals impactResult in
  let ic := Impact.components impactResult in
  let cs := Compatibility.signals compatibilityResult in
  let cb := Compatibility.breakdown compatibilityResult in
  let roleOf := Compatibility.Explanation.role (Compatibility.explanation compatibilityResult) in
  let activeRepositories := JS.decimal (Impact.Signals.activeRepositories isig) in
  let totalMergedPRs := JS.decimal (Impact.Signals.totalMergedPRs isig) in
  let matchedTechnologies :=
    Compatibility.TechnologyStack.matchedTechnologies (Compatibility.Breakdown.technologyStack cb) in
  let depth := Compatibility.Breakdown.contributionDepth cb in
  let detectedPatterns :=
    Compatibility.ArchitecturePatterns.detectedPatterns
      (Compatibility.Breakdown.architecturePatterns cb) in
  let strengths : list Strength.t := [] in
  let strengths :=
    pushWhen (Trust.isAuthentic trustResult)
      {| Strength.title := "Authentic Profile";
         Strength.description :=
           "Profile shows genuine engineering activity with verified contributions.";
         Strength.evidence := buildTrustEvidence trustResult |} strengths in
  let strengths :=
    pushWhen (Trust.TrustSignals.maintainerTrust ts >? 80)
      {| Strength.title := "High Maintainer Trust";
         Strength.description :=
           "Most contributions (" ++ rounded (Trust.TrustSignals.maintainerTrust ts)
           ++ "%) were merged by repository maintainers, indicating quality work.";
         Strength.evidence :=
           [ rounded (Trust.TrustSignals.maintainerTrust ts) ++ "% of PRs merged by maintainers";
             JS.decimalZ (Z.of_nat (Impact.Signals.totalMergedPRs isig)
                          - Z.of_nat (Impact.Signals.selfMergedPRs isig))
             ++ " maintainer-merged PRs" ] |} strengths in
  let strengths :=
    pushWhen (Trust.TrustSignals.repositoryDiversity ts >? 70)
      {| Strength.title := "Strong Repository Diversity";
         Strength.description :=
           "Contributions span " ++ activeRepositories
           ++ " repositories, showing breadth of experience.";
         Strength.evidence :=
           [ activeRepositories ++ " active repositories";
             "Contributions across diverse projects" ] |} strengths in
  let strengths :=
    pushWhen (Trust.TrustSignals.collaborationDepth ts >? 70)
      {| Strength.title := "Active Collaboration";
         Strength.description :=
           "Strong collaboration patterns with other engineers and maintainers.";
         Strength.evidence :=
           (* the impact collaboration breakdown has no [uniqueCollaborators]:
              [undefined || 'Multiple'] *)
           [ "Multiple" ++ " collaborators"; "Active in team environments" ] |} strengths in
  let strengths :=
    pushWhen (score (Impact.Components.prImpact ic) >? 70)
      {| Strength.title := "High PR Impact";
         Strength.description :=
           "Significant contributions with " ++ totalMergedPRs
           ++ " merged PRs and strong review engagement.";
         Strength.evidence :=
           [ totalMergedPRs ++ " merged PRs";
             "Average "
             ++ rounded (Impact.reviewEngagement (breakdown (Impact.Components.prImpact ic)) / 10)
             ++ " review comments per PR";
             rounded (Impact.repoDiversity (breakdown (Impact.Components.prImpact ic)))
             ++ " repository diversity score" ] |} strengths in
  let strengths :=
    pushWhen (score (Impact.Components.longevity ic) >? 70)
      (let spanMonths := Impact.Signals.activitySpanMonths isig in
       {| Strength.title := "Long-term Consistency";
          Strength.description :=
            "Sustained contributions over " ++ rounded spanMonths
            ++ " months, demonstrating commitment and reliability.";
          Strength.evidence :=
            [ rounded spanMonths ++ " months of activity";
              "Consistent contribution patterns";
              str (Impact.consistency (breakdown (Impact.Components.longevity ic)))
              ++ "% consistency score" ] |}) strengths in
  let strengths :=
    pushWhen (score (Impact.Components.collaboration ic) >? 70)
      {| Strength.title := "Strong Collaboration";
         Strength.description :=
           "Active participation in collaborative development with cross-repository contributions.";
         Strength.evidence :=
           [ "Contributions to " ++ activeRepositories ++ " repositories";
             "Active code review participation";
             "Team-oriented development approach" ] |} strengths in
  let strengths :=
    pushWhen (Compatibility.CompatibilitySignals.technologyStackMatch cs >? 70)
      {| Strength.title := "Technology Stack Alignment";
         Strength.description :=
           "Strong match with " ++ roleOf ++ " technologies and tools.";
         Strength.evidence :=
           [ JS.decimal (List.length matchedTechnologies) ++ " matched technologies";
             "Technologies: " ++ JS.join ", " (firstn 5 matchedTechnologies) ] |} strengths in
  let strengths :=
    pushWhen (Compatibility.CompatibilitySignals.domainContributionDepth cs >? 70)
      {| Strength.title := "Deep Domain Experience";
         Strength.description :=
           "Strong focus on " ++ roleOf ++ "-specific work with "
           ++ JS.decimal (Compatibility.ContributionDepth.relevantPRs depth)
           ++ " relevant PRs.";
         Strength.evidence :=
           [ JS.decimal (Compatibility.ContributionDepth.relevantPRs depth) ++ " out of "
             ++ JS.decimal (Compatibility.ContributionDepth.totalPRs depth)
             ++ " PRs are role-relevant";
             rounded (Compatibility.CompatibilitySignals.domainContributionDepth cs)
             ++ "% domain contribution depth" ] |} strengths in
  let strengths :=
    pushWhen (0 <? List.length detectedPatterns)%nat
      {| Strength.title := "Architecture Pattern Recognition";
         Strength.description :=
           "Recognized architecture patterns relevant to " ++ roleOf ++ " engineering.";
         Strength.evidence :=
           [ "Patterns: " ++ JS.join ", " (firstn 3 detectedPatterns);
             JS.decimal (List.length detectedPatterns) ++ " architecture patterns detected" ] |}
      strengths in
  strengths.

Definition generateConcerns
  (trustResult : Trust.TrustScoreResult) (impactResult : Impact.ImpactScoreResult)
  (compatibilityResult : Compatibility.CompatibilityScoreResult) : list Concern.t :=
  let ts := Trust.signals trustResult in
  let isig := Impact.signals impactResult in
  let ic := Impact.components impactResult in
  let cs := Compatibility.signals compatibilityResult in
  let cb := Compatibility.breakdown compatibilityResult in
  let ns := Compatibility.negativeSignals compatibilityResult in
  let roleOf := Compatibility.Explanation.role (Compatibility.explanation compatibilityResult) in
  let activeRepositories := JS.decimal (Impact.Signals.activeRepositories isig) in
  let totalMergedPRs := JS.decimal (Impact.Signals.totalMergedPRs isig) in
  let stack := Compatibility.Breakdown.technologyStack cb in
  let depth := Compatibility.Breakdown.contributionDepth cb in
  let concerns : list Concern.t := [] in
  let concerns :=
    pushWhen (negb (Trust.isAuthentic trustResult))
      {| Concern.title := "Profile Authenticity Concerns";
         Concern.description :=
           "Profile does not meet authenticity thresholds. May indicate spam, farming, or incomplete profile.";
         Concern.severity := high;
         Concern.evidence := Trust.redFlags trustResult |} concerns in
  let concerns :=
    pushWhen (Trust.forkFarming (Trust.spamDetection trustResult))
      {| Concern.title := "Fork-Only Contributions";
         Concern.description :=
           "All contributions are to forked repositories. No contributions to original repositories detected.";
         Concern.severity := high;
         Concern.evidence :=
           [ "100% fork contribution ratio"; "No original repository contributions" ] |}
      concerns in
  let concerns :=
    pushWhen (Trust.TrustSignals.forkContributionRatio ts >? 0.8)
      {| Concern.title := "High Fork Contribution Ratio";
         Concern.description :=
           "Most contributions ("
           ++ rounded (Trust.TrustSignals.forkContributionRatio ts * 100)
           ++ "%) are to forked repositories.";
         Concern.severity := medium;
         Concern.evidence :=
           [ rounded (Trust.TrustSignals.forkContributionRatio ts * 100)
             ++ "% fork contributions";
             "Limited original repository engagement" ] |} concerns in
  let concerns :=
    pushWhen (Trust.TrustSignals.accountAge ts <? 180)
      {| Concern.title := "New Account";
         Concern.description :=
           "Account is relatively new (" ++ rounded (Trust.TrustSignals.accountAge ts)
           ++ " days old). Limited history available.";
         Concern.severity := low;
         Concern.evidence :=
           [ rounded (Trust.TrustSignals.accountAge ts) ++ " days old account";
             "Limited contribution history" ] |} concerns in
  let concerns :=
    pushWhen (Trust.TrustSignals.repositoryDiversity ts <? 30)
      {| Concern.title := "Limited Repository Diversity";
         Concern.description :=
           "Contributions concentrated in few repositories (" ++ activeRepositories
           ++ " repositories).";
         Concern.severity := medium;
         Concern.evidence :=
           [ activeRepositories ++ " active repositories";
             "Limited breadth of experience" ] |} concerns in
  let concerns :=
    pushWhen (Impact.Signals.totalMergedPRs isig <? 5)%nat
      {| Concern.title := "Limited Contribution History";
         Concern.description :=
           "Only " ++ totalMergedPRs ++ " merged PRs. Limited evidence of impact.";
         Concern.severity := medium;
         Concern.evidence :=
           [ totalMergedPRs ++ " total merged PRs";
             "Insufficient data for comprehensive assessment" ] |} concerns in
  let concerns :=
    pushWhen (score (Impact.Components.longevity ic) <? 40)
      {| Concern.title := "Short Activity Span";
         Concern.description :=
           "Limited contribution history ("
           ++ rounded (Impact.Signals.activitySpanMonths isig)
           ++ " months). May indicate new or inconsistent contributor.";
         Concern.severity := low;
         Concern.evidence :=
           [ rounded (Impact.Signals.activitySpanMonths isig) ++ " months of activity";
             "Limited long-term consistency" ] |} concerns in
  let concerns :=
    pushWhen (score (Impact.Components.collaboration ic) <? 40)
      {| Concern.title := "Limited Collaboration";
         Concern.description :=
           "Few collaborative contributions. May indicate solo work or limited team interaction.";
         Concern.severity := low;
         Concern.evidence :=
           [ "Limited cross-repository contributions"; "Few collaborative PRs" ] |}
      concerns in
  let concerns :=
    pushWhen (Compatibility.isPoor (Compatibility.compatibilityLevel compatibilityResult))
      {| Concern.title := "Poor Role Compatibility";
         Concern.description :=
           "Limited alignment with " ++ roleOf ++ " role requirements.";
         Concern.severity := high;
         Concern.evidence :=
           Compatibility.Explanation.weaknesses
             (Compatibility.explanation compatibilityResult) |} concerns in
  let concerns :=
    pushWhen (Compatibility.CompatibilitySignals.technologyStackMatch cs <? 30)
      {| Concern.title := "Technology Stack Mismatch";
         Concern.description :=
           "Limited experience with " ++ roleOf ++ " technologies.";
         Concern.severity := medium;
         Concern.evidence :=
           [ JS.decimal (List.length (Compatibility.TechnologyStack.matchedTechnologies stack))
             ++ " matched technologies";
             "Mismatched: "
             ++ JS.join ", "
                  (firstn 3 (Compatibility.TechnologyStack.mismatchedTechnologies stack)) ] |}
      concerns in
  let concerns :=
    pushWhen (Compatibility.CompatibilitySignals.domainContributionDepth cs <? 30)
      {| Concern.title := "Limited Domain Experience";
         Concern.description :=
           "Only " ++ JS.decimal (Compatibility.ContributionDepth.relevantPRs depth)
           ++ " out of " ++ JS.decimal (Compatibility.ContributionDepth.totalPRs depth)
           ++ " PRs are role-relevant.";
         Concern.severity := medium;
         Concern.evidence :=
           [ rounded (Compatibility.CompatibilitySignals.domainContributionDepth cs)
             ++ "% domain contribution depth";
             "Limited role-specific contributions" ] |} concerns in
  let concerns :=
    pushWhen (Compatibility.NegativeSignals.technologyMismatch ns >? 50)
      {| Concern.title := "Significant Technology Mismatch";
         Concern.description :=
           "High percentage of contributions in technologies not aligned with role.";
         Concern.severity := medium;
         Concern.evidence :=
           [ rounded (Compatibility.NegativeSignals.technologyMismatch ns)
             ++ "% technology mismatch";
             "Contributions in unrelated technologies" ] |} concerns in
  concerns.

Definition extractTrustIndicators (trustResult : Trust.TrustScoreResult) : TrustIndicators :=
  let ts := Trust.signals trustResult in
  let signals : list string := [] in
  let signals := pushIf (Trust.isAuthentic trustResult) "Authentic profile verified" signals in
  let signals :=
    pushIf (Trust.TrustSignals.maintainerTrust ts >? 80) "High maintainer trust" signals in
  let signals :=
    pushIf (Trust.TrustSignals.repositoryDiversity ts >? 70)
           "Strong repository diversity" signals in
  let signals :=
    pushIf (Trust.TrustSignals.collaborationDepth ts >? 70) "Active collaboration" signals in
  let signals :=
    if (0 <? List.length (Trust.greenFlags trustResult))%nat
    then pushAll (firstn 3 (Trust.greenFlags trustResult)) signals
    else signals in
  {| isAuthentic := Trust.isAuthentic trustResult;
     confidence := Trust.confidence trustResult;
     keyTrustSignals := signals |}.

Definition extractCompatibilityIndicators
  (compatibilityResult : Compatibility.CompatibilityScoreResult) : CompatibilityIndicators :=
  let cs := Compatibility.signals compatibilityResult in
  let detectedPatterns :=
    Compatibility.ArchitecturePatterns.detectedPatterns
      (Compatibility.Breakdown.architecturePatterns
         (Compatibility.breakdown compatibilityResult)) in
  let explained := Compatibility.explanation compatibilityResult in
  let signals : list string := [] in
  let signals :=
    pushIf (Compatibility.CompatibilitySignals.technologyStackMatch cs >? 70)
           "Strong technology alignment" signals in
  let signals :=
    pushIf (Compatibility.CompatibilitySignals.domainContributionDepth cs >? 70)
           "Deep domain experience" signals in
  let signals :=
    pushIf (Compatibility.CompatibilitySignals.architecturePatternMatch cs >? 70)
           "Recognized architecture patterns" signals in
  let signals :=
    pushIf (0 <? List.length detectedPatterns)%nat
           (JS.decimal (List.length detectedPatterns) ++ " architecture patterns") signals in
  let signals :=
    if (0 <? List.length (Compatibility.Explanation.strengths explained))%nat
    then pushAll (firstn 2 (Compatibility.Explanation.strengths explained)) signals
    else signals in
  {| role := Compatibility.Explanation.role explained;
     fitLevel := Compatibility.compatibilityLevel compatibilityResult;
     keySignals := signals |}.

Definition extractImpactIndicators (impactResult : Impact.ImpactScoreResult)
  : ImpactIndicators :=
  let isig := Impact.signals impactResult in
  let contributions : list string := [] in
  let contributions :=
    push (JS.decimal (Impact.Signals.totalMergedPRs isig) ++ " merged PRs") contributions in
  let contributions :=
    push (JS.decimal (Impact.Signals.activeRepositories isig) ++ " active repositories")
         contributions in
  let contributions :=
    match Impact.Explainability.topContributingRepos (Impact.explainability impactResult) with
    | topRepo :: _ =>
        push ("Top contribution: " ++ Impact.repo topRepo ++ " ("
              ++ JS.decimal (Impact.prCount topRepo) ++ " PRs)") contributions
    | [] => contributions
    end in
  let contributionDepth :=
    if Impact.totalScore impactResult >? 70 then "Deep"
    else if Impact.totalScore impactResult >? 40 then "Moderate"
    else "Emerging" in
  let collaborationScore :=
    score (Impact.Components.collaboration (Impact.components impactResult)) in
  let collaborationLevel :=
    if collaborationScore >? 70 then "Strong"
    else if collaborationScore >? 40 then "Moderate"
    else "Limited" in
  {| contributionDepth := contributionDepth;
     collaborationLevel := collaborationLevel;
     keyContributions := contributions |}.

(** Match explanation from the three score breakdowns. *)
Definition generateMatchExplanation
  (trustResult : Trust.TrustScoreResult) (impactResult : Impact.ImpactScoreResult)
  (compatibilityResult : Compatibility.CompatibilityScoreResult) : MatchExplanation :=
  {| whyThisMatch := generateWhyThisMatch trustResult impactResult compatibilityResult;
     strengths := generateStrengths trustResult impactResult compatibilityResult;
     concerns := generateConcerns trustResult impactResult compatibilityResult;
     trustIndicators := extractTrustIndicators trustResult;
     compatibilityIndicators := extractCompatibilityIndicators compatibilityResult;
     impactIndicators := extractImpactIndicators impactResult |}.

End Explanation.

(* ===================================================================== *)
(** ** The code around the calculators                                  *)
(* ===================================================================== *)

(** More of the JavaScript fragment: [split], and [||] on strings. *)
Module JSString.

(** [s.split(sep)] for a separator of one character. *)
Fixpoint split (sep : ascii) (s : string) : list string :=
  match s with
  | EmptyString => [EmptyString]
  | String c t =>
      if Ascii.eqb c sep then EmptyString :: split sep t
      else
        match split sep t with
        | h :: r => String c h :: r
        | [] => [String c EmptyString]
        end
  end.

(** [x || null] on a [string | null]: the empty string is falsy. *)
Definition or_null (s : option string) : option string :=
  if JS.truthy_str s then s else None.

(** [a || b] on strings, [a] possibly [undefined]. *)
Definition or_else (a : option string) (b : string) : string :=
  if JS.truthy_str a then JS.or_empty a else b.

End JSString.

(** Reading and printing dates: what the fetchers take from the host. *)
Class Locale := {
  (** [new Date(s).getTime()] for a date-time string *)
  parseDate : string -> Date;
  (** [d.toDateString()], in the host's local time zone *)
  toDateString : Date -> string;
  (** [d.toLocaleDateString()] *)
  toLocaleDateString : Date -> string
}.

(* ===================================================================== *)
(** ** Background jobs ([jobs/inngest.ts]): the inputs of the calculators *)
(* ===================================================================== *)

Module Jobs.
Local Open Scope float_scope.

(** The user object of the GitHub API, as far as it is read. *)
Record APIUser := mkAPIUser {
  login : string;
  created_at : string;
  public_repos : float;
  followers : float;
  following : float;
  bio : option string;
  location : option string;
  company : option string;
  blog : option string;
  email : option string
}.

Section Helpers.
Context {locale : Locale}.

(** Normalize account data. *)
Definition normalizeAccount (data : APIUser) : GitHubAccount.t :=
  {| GitHubAccount.username := login data;
     GitHubAccount.createdAt := parseDate (created_at data);
     GitHubAccount.publicRepos := public_repos data;
     GitHubAccount.followers := followers data;
     GitHubAccount.following := following data;
     GitHubAccount.bio := bio data;
     GitHubAccount.location := location data;
     GitHubAccount.company := company data;
     GitHubAccount.website := blog data;
     GitHubAccount.email := email data;
     GitHubAccount.isVerified := false |}.

End Helpers.

(** Build the contribution pattern from the activity. *)
Definition buildContributionPattern (activity : GitHubActivity.t) (account : GitHubAccount.t)
  : ContributionPattern.t :=
  let mergedPRs := GitHubActivity.mergedPRs activity in
  {| ContributionPattern.totalPRs := JS.of_nat (List.length mergedPRs);
     ContributionPattern.mergedPRs := JS.of_nat (List.length mergedPRs);
     ContributionPattern.openPRs := 0;
     ContributionPattern.closedPRs := 0;
     ContributionPattern.selfMergedPRs :=
       JS.of_nat (List.length
         (filter (fun pr => String.eqb (MergedPR.author pr) (MergedPR.mergedBy pr)) mergedPRs));
     ContributionPattern.forkPRs :=
       JS.of_nat (List.length (filter (fun pr => MergedPR.isFork pr) mergedPRs));
     ContributionPattern.originalRepoPRs :=
       JS.of_nat (List.length (filter (fun pr => negb (MergedPR.isFork pr)) mergedPRs));
     ContributionPattern.forkOnlyRepos := [];
     ContributionPattern.originalRepoContributions :=
       JS.of_nat (List.length (filter (fun pr => negb (MergedPR.isFork pr)) mergedPRs));
     ContributionPattern.firstContributionDate :=
       Some (ActivitySpan.firstPRDate (GitHubActivity.activitySpan activity));
     ContributionPattern.lastContributionDate :=
       Some (ActivitySpan.lastPRDate (GitHubActivity.activitySpan activity));
     ContributionPattern.contributionDays := 0;
     ContributionPattern.contributionMonths := 0;
     ContributionPattern.averagePRsPerDay := 0;
     ContributionPattern.maxPRsInSingleDay := 0;
     ContributionPattern.uniqueRepositories :=
       JS.of_nat (List.length (GitHubActivity.repositories activity));
     ContributionPattern.repositoriesWithMultiplePRs := 0;
     ContributionPattern.repositoriesWithMaintainerInteraction := 0;
     ContributionPattern.reviewsGiven :=
       JS.of_nat (List.length (GitHubActivity.reviewsGiven activity));
     ContributionPattern.reviewsReceived :=
       JS.of_nat (List.length (GitHubActivity.reviewsReceived activity));
     ContributionPattern.maintainerReviews := 0;
     ContributionPattern.issuesOpened :=
       JS.of_nat (List.length (GitHubActivity.issues activity));
     ContributionPattern.issuesClosed := 0;
     ContributionPattern.issuesWithPRs := 0;
     ContributionPattern.commitMessagePatterns := [];
     ContributionPattern.commitTimePatterns := [];
     ContributionPattern.identicalCommitMessages := 0;
     ContributionPattern.uniqueCollaborators := 0;
     ContributionPattern.maintainerInteractions := 0;
     ContributionPattern.crossRepositoryCollaborations := 0 |}.

End Jobs.

(* ===================================================================== *)
(** ** The GitHub sync ([convex/github.ts], [inngest/functions.ts])       *)
(* ===================================================================== *)

(** The id of a document of the Convex database. *)
Definition Id := nat.

(** The handler of [syncUser] from its three fetches on: [ghUser], [repos]
    and the items of the search are what GitHub returned.  The check of the
    token and the re-throw of a failed fetch come before any of this and
    are not part of the model; what the handler passes to [updateScore] is
    its result. *)
Module Sync.
Local Open Scope string_scope.
Local Open Scope float_scope.
Local Open Scope monad_scope.

(** An item of the search for merged pull requests, and a repository of
    the listing, as far as they are read. *)
Record SearchItem := mkSearchItem {
  id : float;
  repository_url : string;
  closed_at : option string;
  comments : float
}.

Record APIRepo := mkAPIRepo { full_name : string; fork : bool }.

(** The arguments of the [updateScore] mutation. *)
Record Details := mkDetails {
  accountAuthenticity : float;
  contributionAuthenticity : float;
  prImpact : float;
  collaboration : float
}.

Record EvidenceData := mkEvidenceData {
  repository : string;
  description : string;
  impact : float
}.

Record Evidence := mkEvidence { type : string; data : EvidenceData }.

Record UpdateScore := mkUpdateScore {
  userId : Id;
  trustScore : float;
  impactScore : float;
  details : Details;
  evidence : list Evidence
}.

Section Handler.
Context {host : Host} {locale : Locale}.

(** [new Date(s)] for a [string | null]: [null] is the epoch. *)
Definition dateOf (s : option string) : Date :=
  match s with
  | Some t => parseDate t
  | None => 0%Z
  end.

(** 1. The account. *)
Definition accountOf (ghUser : Jobs.APIUser) : GitHubAccount.t :=
  {| GitHubAccount.username := Jobs.login ghUser;
     GitHubAccount.createdAt := parseDate (Jobs.created_at ghUser);
     GitHubAccount.publicRepos := Jobs.public_repos ghUser;
     GitHubAccount.followers := Jobs.followers ghUser;
     GitHubAccount.following := Jobs.following ghUser;
     GitHubAccount.bio := JSString.or_null (Jobs.bio ghUser);
     GitHubAccount.location := JSString.or_null (Jobs.location ghUser);
     GitHubAccount.company := JSString.or_null (Jobs.company ghUser);
     GitHubAccount.website := JSString.or_null (Jobs.blog ghUser);
     GitHubAccount.email := JSString.or_null (Jobs.email ghUser);
     GitHubAccount.isVerified := JS.truthy_str (Jobs.email ghUser) |}.

(** [item.repository_url.split("/").slice(-2).join("/")] *)
Definition repositoryOf (repository_url : string) : string :=
  JS.join "/" (JS.slice_last 2 (JSString.split "/" repository_url)).

(** 3. The merged PRs, from the search items. *)
Definition mergedPROf (username : string) (item : SearchItem) : MergedPR.t :=
  {| MergedPR.id := JS.Number_toString (id item);
     MergedPR.repository := repositoryOf (repository_url item);
     MergedPR.mergedAt := dateOf (closed_at item);
     MergedPR.mergedBy := "maintainer";
     MergedPR.author := username;
     MergedPR.reviewCommentsReceived := JS.or_default (comments item) 0;
     MergedPR.reviewRounds := 1;
     MergedPR.filesChanged := 10;
     MergedPR.directoriesTouched := 2;
     MergedPR.isMaintainerMerge := true;
     MergedPR.isFork := false;
     MergedPR.timeToMerge := 24 |}.

(** [`${d.getMonth()}-${d.getFullYear()}`] *)
Definition monthOf (d : Date) : string :=
  JS.decimalZ (getMonth d) ++ "-" ++ JS.decimalZ (getFullYear d).

(** 4. The contribution pattern. *)
Definition patternOf (mergedPRs : list MergedPR.t) (firstPRDate lastPRDate : Date)
  : ContributionPattern.t :=
  let n := JS.of_nat (List.length mergedPRs) in
  let repositories := JS.set_of (map MergedPR.repository mergedPRs) in
  {| ContributionPattern.totalPRs := n;
     ContributionPattern.mergedPRs := n;
     ContributionPattern.openPRs := 0;
     ContributionPattern.closedPRs := n;
     ContributionPattern.selfMergedPRs := 0;
     ContributionPattern.forkPRs := 0;
     ContributionPattern.originalRepoPRs := n;
     ContributionPattern.forkOnlyRepos := [];
     ContributionPattern.originalRepoContributions := n;
     ContributionPattern.firstContributionDate := Some firstPRDate;
     ContributionPattern.lastContributionDate := Some lastPRDate;
     ContributionPattern.contributionDays :=
       JS.of_nat (List.length
         (JS.set_of (map (fun p => toDateString (MergedPR.mergedAt p)) mergedPRs)));
     ContributionPattern.contributionMonths :=
       JS.of_nat (List.length
         (JS.set_of (map (fun p => monthOf (MergedPR.mergedAt p)) mergedPRs)));
     ContributionPattern.averagePRsPerDay := n / 30;
     ContributionPattern.maxPRsInSingleDay := 5;
     ContributionPattern.uniqueRepositories := JS.of_nat (List.length repositories);
     ContributionPattern.repositoriesWithMultiplePRs := 0;
     ContributionPattern.repositoriesWithMaintainerInteraction := n;
     ContributionPattern.reviewsGiven := 0;
     ContributionPattern.reviewsReceived := 0;
     ContributionPattern.maintainerReviews := 0;
     ContributionPattern.issuesOpened := 0;
     ContributionPattern.issuesClosed := 0;
     ContributionPattern.issuesWithPRs := 0;
     ContributionPattern.commitMessagePatterns := [];
     ContributionPattern.commitTimePatterns := [];
     ContributionPattern.identicalCommitMessages := 0;
     ContributionPattern.uniqueCollaborators := 5;
     ContributionPattern.maintainerInteractions := n;
     ContributionPattern.crossRepositoryCollaborations :=
       JS.of_nat (List.length repositories) |}.

Definition activityOf (mergedPRs : list MergedPR.t) (repos : list APIRepo)
  (firstPRDate lastPRDate : Date) : GitHubActivity.t :=
  {| GitHubActivity.mergedPRs := mergedPRs;
     GitHubActivity.reviewsGiven := [];
     GitHubActivity.reviewsReceived := [];
     GitHubActivity.issues := [];
     GitHubActivity.repositories :=
       map (fun r =>
              {| RepositoryContribution.repository := full_name r;
                 RepositoryContribution.mergedPRCount := 0;
                 RepositoryContribution.isFork := fork r;
                 RepositoryContribution.contributorCount := 5;
                 RepositoryContribution.maintainerCount := 2 |}) repos;
     GitHubActivity.activitySpan :=
       {| ActivitySpan.firstPRDate := firstPRDate; ActivitySpan.lastPRDate := lastPRDate |} |}.

(** What the calculators are given. *)
Record Inputs := mkInputs {
  account : GitHubAccount.t;
  pattern : ContributionPattern.t;
  activity : GitHubActivity.t
}.

Definition inputsOf (username : string) (ghUser : Jobs.APIUser) (repos : list APIRepo)
  (items : list SearchItem) : state Clock Inputs :=
  let account := accountOf ghUser in
  let mergedPRs := map (mergedPROf username) items in
  let firstPRDate :=
    List.last (map MergedPR.mergedAt mergedPRs) (GitHubAccount.createdAt account) in
  lastPRDate <- match mergedPRs with
                | pr :: _ => ret (MergedPR.mergedAt pr)
                | [] => newDate
                end ;;
  ret {| account := account;
         pattern := patternOf mergedPRs firstPRDate lastPRDate;
         activity := activityOf mergedPRs repos firstPRDate lastPRDate |}.

(** 5. and 6. The scores, and what is saved. *)
Definition syncUser (userId : Id) (username : string) (ghUser : Jobs.APIUser)
  (repos : list APIRepo) (items : list SearchItem) : state Clock UpdateScore :=
  inputs <- inputsOf username ghUser repos items ;;
  trustResult <- Trust.calculateTrustScore (account inputs) (pattern inputs) None ;;
  impactResult <- Impact.calculateImpactScore (activity inputs) None ;;
  let tc := Trust.components trustResult in
  let ic := Impact.components impactResult in
  ret {| userId := userId;
         trustScore := Trust.totalScore trustResult;
         impactScore := Impact.totalScore impactResult;
         details :=
           {| accountAuthenticity := score (Trust.Components.accountAuthenticity tc);
              contributionAuthenticity :=
                score (Trust.Components.contributionAuthenticity tc);
              prImpact := score (Impact.Components.prImpact ic);
              collaboration := score (Impact.Components.collaboration ic) |};
         evidence :=
           map (fun pr =>
                  {| type := "repository";
                     data :=
                       {| repository := MergedPR.repository pr;
                          description :=
                            "Significant contribution merged on "
                            ++ toLocaleDateString (MergedPR.mergedAt pr);
                          impact := 85 |} |})
               (firstn 5 (GitHubActivity.mergedPRs (activity inputs))) |}.

End Handler.
End Sync.

(** The outcome of a function that may throw. *)
Inductive Result (A : Type) :=
| Ok (value : A)
| Throw (message : string).
Arguments Ok {A}.
Arguments Throw {A}.

(* ===================================================================== *)
(** ** GitHub analyzer ([utils/github-analyzer.ts]): normalization        *)
(* ===================================================================== *)

Module Analyzer.
Local Open Scope string_scope.
Local Open Scope float_scope.

(** The API objects ([types/github-api.ts]), as far as they are read. *)
Module APIUser.
Record t := mk { login : string }.
End APIUser.

Module APIRepoRef.
Record t := mk { fork : bool }.
End APIRepoRef.

Module APIHead.
Record t := mk { repo : option APIRepoRef.t }.
End APIHead.

Module APIPullRequest.
Record t := mk {
  id : float;
  number : float;
  merged_at : option string;
  user : APIUser.t;
  merged_by : option APIUser.t;
  head : APIHead.t;
  created_at : string
}.
End APIPullRequest.

Module APIRepository.
Record t := mk { full_name : string; fork : bool }.
End APIRepository.

Module APIFile.
Record t := mk { filename : string }.
End APIFile.

Module APIReview.
Record t := mk {
  id : float;
  user : APIUser.t;
  body : option string;
  submitted_at : string
}.
End APIReview.

Module APIIssue.
Record t := mk {
  id : float;
  user : APIUser.t;
  created_at : string
}.
End APIIssue.

Section Normalization.
Context {locale : Locale}.

(** [filename.split('/').slice(0, -1).join('/')]: the directory of a file. *)
Definition directoryOf (filename : string) : string :=
  JS.join "/" (removelast (JSString.split "/" filename)).

(** The set of directories that [normalizePullRequest] builds. *)
Definition directoriesOf (files : list APIFile.t) : list string :=
  JS.set_of (map (fun file => directoryOf (APIFile.filename file)) files).

(** Normalize a pull request from the GitHub API to the internal format. *)
Definition normalizePullRequest {C : Type}
  (pr : APIPullRequest.t) (repo : APIRepository.t) (files : list APIFile.t)
  (reviews : list APIReview.t) (reviewComments : list C) : Result MergedPR.t :=
  if negb (JS.truthy_str (APIPullRequest.merged_at pr)) then Throw "PR is not merged"
  else
    let directories := directoriesOf files in
    let isMaintainerMerge :=
      match APIPullRequest.merged_by pr with
      | Some by_ => negb (String.eqb (APIUser.login by_) (APIUser.login (APIPullRequest.user pr)))
      | None => true
      end in
    let isFork :=
      match APIHead.repo (APIPullRequest.head pr) with
      | Some r => Bool.eqb (APIRepoRef.fork r) true
      | None => false
      end || APIRepository.fork repo in
    let reviewRounds :=
      List.length (JS.set_of (map APIReview.submitted_at reviews)) in
    let createdAt := parseDate (APIPullRequest.created_at pr) in
    let mergedAt := parseDate (JS.or_empty (APIPullRequest.merged_at pr)) in
    let timeToMerge := (getTime mergedAt - getTime createdAt) / (1000 * 60 * 60) in
    Ok {| MergedPR.id := JS.Number_toString (APIPullRequest.id pr);
          MergedPR.repository := APIRepository.full_name repo;
          MergedPR.mergedAt := mergedAt;
          MergedPR.mergedBy :=
            JSString.or_else (option_map APIUser.login (APIPullRequest.merged_by pr))
                        (APIUser.login (APIPullRequest.user pr));
          MergedPR.author := APIUser.login (APIPullRequest.user pr);
          MergedPR.reviewCommentsReceived := JS.of_nat (List.length reviewComments);
          MergedPR.reviewRounds := JS.of_nat reviewRounds;
          MergedPR.filesChanged := JS.of_nat (List.length files);
          MergedPR.directoriesTouched := JS.of_nat (List.length directories);
          MergedPR.isMaintainerMerge := isMaintainerMerge;
          MergedPR.isFork := isFork;
          MergedPR.timeToMerge := timeToMerge |}.

(** Normalize a review.  [normalizeReviewGiven] and [normalizeReviewReceived]
    have the same body. *)
Definition normalizeReviewGiven
  (review : APIReview.t) (pr : APIPullRequest.t) (repo : APIRepository.t) : CodeReview.t :=
  {| CodeReview.id := JS.Number_toString (APIReview.id review);
     CodeReview.repository := APIRepository.full_name repo;
     CodeReview.prId := JS.Number_toString (APIPullRequest.id pr);
     CodeReview.reviewedAt := parseDate (APIReview.submitted_at review);
     CodeReview.reviewer := APIUser.login (APIReview.user review);
     CodeReview.reviewee := APIUser.login (APIPullRequest.user pr);
     CodeReview.commentCount := if JS.truthy_str (APIReview.body review) then 1 else 0 |}.

Definition normalizeReviewReceived
  (review : APIReview.t) (pr : APIPullRequest.t) (repo : APIRepository.t) : CodeReview.t :=
  {| CodeReview.id := JS.Number_toString (APIReview.id review);
     CodeReview.repository := APIRepository.full_name repo;
     CodeReview.prId := JS.Number_toString (APIPullRequest.id pr);
     CodeReview.reviewedAt := parseDate (APIReview.submitted_at review);
     CodeReview.reviewer := APIUser.login (APIReview.user review);
     CodeReview.reviewee := APIUser.login (APIPullRequest.user pr);
     CodeReview.commentCount := if JS.truthy_str (APIReview.body review) then 1 else 0 |}.

(** Normalize an issue. *)
Definition normalizeIssue (issue : APIIssue.t) (repo : APIRepository.t) : Issue.t :=
  let ledToMergedPR := false in
  {| Issue.id := JS.Number_toString (APIIssue.id issue);
     Issue.repository := APIRepository.full_name repo;
     Issue.openedAt := parseDate (APIIssue.created_at issue);
     Issue.author := APIUser.login (APIIssue.user issue);
     Issue.ledToMergedPR := ledToMergedPR;
     Issue.commentCount := 0 |}.

(** Normalize a repository contribution. *)
Definition normalizeRepositoryContribution
  (repo : APIRepository.t) (mergedPRCount : float) (languages : list (string * float))
  : RepositoryContribution.t :=
  let contributorCount := 1 in
  let maintainerCount := 1 in
  {| RepositoryContribution.repository := APIRepository.full_name repo;
     RepositoryContribution.mergedPRCount := mergedPRCount;
     RepositoryContribution.isFork := APIRepository.fork repo;
     RepositoryContribution.contributorCount := contributorCount;
     RepositoryContribution.maintainerCount := maintainerCount |}.

End Normalization.

(** *** Rate limits *)

(** [status.core] of the rate-limit status, as far as it is read. *)
Record RateLimit := mkRateLimit { remaining : float; reset : float }.

(** [waitIfNeeded], on the status it fetched: the time it sleeps, in
    milliseconds, if it does; [now] is [Date.now()]. *)
Definition waitTime (core : RateLimit) (rateLimitBuffer now : float) : option float :=
  if remaining core <? rateLimitBuffer then
    let resetTime := reset core * 1000 in
    let waitTime := JS.Math_max 0 (resetTime - now) + 1000 in
    if waitTime >? 0 then Some waitTime else None
  else None.

(** [canMakeRequest], on the status it fetched. *)
Definition canMakeRequest (core : RateLimit) (rateLimitBuffer : float) : bool :=
  remaining core >? rateLimitBuffer.

End Analyzer.

(* ===================================================================== *)
(** ** The Convex functions ([convex/jobs.ts], [convex/users.ts])         *)
(* ===================================================================== *)

(** The database is the state: each table is the list of its documents in
    the order of their creation, which is the order in which an index
    returns the documents that match a key; [insert] appends a document
    under a fresh id.  A mutation that throws leaves the database as it
    was. *)
Module Convex.
Local Open Scope string_scope.

Inductive Role := engineer | recruiter.
Definition Role_eqb (a b : Role) : bool :=
  match a, b with
  | engineer, engineer | recruiter, recruiter => true
  | _, _ => false
  end.

Inductive Status := active | archived.
Inductive Platform := email | linkedin | phone.

Module User.
Record t := mk {
  _id : Id;
  tokenIdentifier : string;
  role : Role;
  name : string;
  email : string;
  username : option string;
  avatarUrl : option string
}.
End User.

Module Score.
Record t := mk {
  _id : Id;
  userId : Id;
  trustScore : float;
  impactScore : float;
  lastUpdated : Date;
  details : Sync.Details;
  evidence : list Sync.Evidence
}.
End Score.

Module Job.
Record t := mk {
  _id : Id;
  recruiterId : Id;
  title : string;
  description : option string;
  candidateIds : list Id;
  status : Status
}.
End Job.

Module Contact.
Record t := mk {
  _id : Id;
  recruiterId : Id;
  candidateId : Id;
  platform : Platform;
  timestamp : Date;
  note : option string
}.
End Contact.

Record DB := mkDB {
  users : list User.t;
  scores : list Score.t;
  jobs : list Job.t;
  contactHistory : list Contact.t;
  nextId : Id
}.

(** What a function is called with besides its arguments: the identity of
    the caller ([identity.subject], if authenticated) and [Date.now()]. *)
Record Ctx := mkCtx { identity : option string; now : Date }.

(** [ctx.db.query("users").withIndex("by_token", ...).first()] *)
Definition userByToken (db : DB) (subject : string) : option User.t :=
  find (fun u => String.eqb (User.tokenIdentifier u) subject) (users db).

(** [ctx.db.query("scores").withIndex("by_user", ...).first()] *)
Definition scoreByUser (db : DB) (userId : Id) : option Score.t :=
  find (fun s => Nat.eqb (Score.userId s) userId) (scores db).

(** [ctx.db.get(jobId)] *)
Definition getJob (db : DB) (jobId : Id) : option Job.t :=
  find (fun j => Nat.eqb (Job._id j) jobId) (jobs db).


(** [ctx.db.patch(jobId, { candidateIds })] *)
Definition patchCandidateIds (db : DB) (jobId : Id) (candidateIds : list Id) : DB :=
  {| users := users db;
     scores := scores db;
     jobs :=
       map (fun j =>
              if Nat.eqb (Job._id j) jobId
              then {| Job._id := Job._id j;
                      Job.recruiterId := Job.recruiterId j;
                      Job.title := Job.title j;
                      Job.description := Job.description j;
                      Job.candidateIds := candidateIds;
                      Job.status := Job.status j |}
              else j) (jobs db);
     contactHistory := contactHistory db;
     nextId := nextId db |}.

(** CRM: add a candidate to a job folder. *)
Definition addCandidateToJob (jobId candidateId : Id) (db : DB) : Result (Id * DB) :=
  match getJob db jobId with
  | None => Throw "Job not found"
  | Some job =>
      if existsb (Nat.eqb candidateId) (Job.candidateIds job) then Ok (Job._id job, db)
      else
        let newCandidateIds := (Job.candidateIds job ++ [candidateId])%list in
        Ok (Job._id job, patchCandidateIds db jobId newCandidateIds)
  end.


(** CRM: log contact activity. *)
Definition logContact (ctx : Ctx) (candidateId : Id) (platform : Platform)
  (note : option string) (db : DB) : Result (Id * DB) :=
  match identity ctx with
  | None => Throw "Unauthenticated"
  | Some subject =>
      match userByToken db subject with
      | Some user =>
          if negb (Role_eqb (User.role user) recruiter)
          then Throw "Only recruiters can log contact history"
          else
            let entry :=
              {| Contact._id := nextId db;
                 Contact.recruiterId := User._id user;
                 Contact.candidateId := candidateId;
                 Contact.platform := platform;
                 Contact.timestamp := now ctx;
                 Contact.note := note |} in
            Ok (nextId db,
                {| users := users db;
                   scores := scores db;
                   jobs := jobs db;
                   contactHistory := (contactHistory db ++ [entry])%list;
                   nextId := S (nextId db) |})
      | None => Throw "Only recruiters can log contact history"
      end
  end.

(** CRM: the contact history of a candidate, newest first. *)
Definition getContactHistory (candidateId : Id) (db : DB) : list Contact.t :=
  rev (filter (fun c => Nat.eqb (Contact.candidateId c) candidateId) (contactHistory db)).

(** Internal mutation: update the scores of a user (called by the sync). *)
Definition updateScore (ctx : Ctx) (args : Sync.UpdateScore) (db : DB) : DB :=
  match scoreByUser db (Sync.userId args) with
  | Some existing =>
      {| users := users db;
         scores :=
           map (fun s =>
                  if Nat.eqb (Score._id s) (Score._id existing)
                  then {| Score._id := Score._id s;
                          Score.userId := Score.userId s;
                          Score.trustScore := Sync.trustScore args;
                          Score.impactScore := Sync.impactScore args;
                          Score.lastUpdated := now ctx;
                          Score.details := Sync.details args;
                          Score.evidence := Sync.evidence args |}
                  else s) (scores db);
         jobs := jobs db;
         contactHistory := contactHistory db;
         nextId := nextId db |}
  | None =>
      {| users := users db;
         scores :=
           (scores db
           ++ [ {| Score._id := nextId db;
                   Score.userId := Sync.userId args;
                   Score.trustScore := Sync.trustScore args;
                   Score.impactScore := Sync.impactScore args;
                   Score.lastUpdated := now ctx;
                   Score.details := Sync.details args;
                   Score.evidence := Sync.evidence args |} ])%list;
         jobs := jobs db;
         contactHistory := contactHistory db;
         nextId := S (nextId db) |}
  end.

(** The arguments of [storeUser]. *)
Record StoreUser := mkStoreUser {
  argRole : option Role;
  argName : string;
  argEmail : string;
  argUsername : option string;
  argAvatarUrl : option string
}.

(** Store the user after login (upsert). *)
Definition storeUser (ctx : Ctx) (args : StoreUser) (db : DB) : Result (Id * DB) :=
  match identity ctx with
  | None => Throw "Unauthenticated"
  | Some subject =>
      match userByToken db subject with
      | Some user =>
          let patched (u : User.t) :=
            {| User._id := User._id u;
               User.tokenIdentifier := User.tokenIdentifier u;
               User.role :=
                 match argRole args with
                 | Some r => if negb (Role_eqb (User.role user) r) then r else User.role u
                 | None => User.role u
                 end;
               User.name := argName args;
               User.email := argEmail args;
               User.username :=
                 if JS.truthy_str (argUsername args) then argUsername args else User.username u;
               User.avatarUrl :=
                 if JS.truthy_str (argAvatarUrl args) then argAvatarUrl args
                 else User.avatarUrl u |} in
          Ok (User._id user,
              {| users :=
                   map (fun u => if Nat.eqb (User._id u) (User._id user) then patched u else u)
                       (users db);
                 scores := scores db;
                 jobs := jobs db;
                 contactHistory := contactHistory db;
                 nextId := nextId db |})
      | None =>
          let user :=
            {| User._id := nextId db;
               User.tokenIdentifier := subject;
               User.role := pick (argRole args) engineer;
               User.name := argName args;
               User.email := argEmail args;
               User.username := argUsername args;
               User.avatarUrl := Some (JSString.or_else (argAvatarUrl args) "") |} in
          Ok (nextId db,
              {| users := (users db ++ [user])%list;
                 scores := scores db;
                 jobs := jobs db;
                 contactHistory := contactHistory db;
                 nextId := S (nextId db) |})
      end
  end.

(** The profile of the current user; an engineer's comes with the score. *)
Record Profile := mkProfile { profileUser : User.t; profileScore : option (option Score.t) }.

Definition getCurrentUser (ctx : Ctx) (db : DB) : option Profile :=
  match identity ctx with
  | None => None
  | Some subject =>
      match userByToken db subject with
      | None => None
      | Some user =>
          if Role_eqb (User.role user) engineer
          then Some {| profileUser := user; profileScore := Some (scoreByUser db (User._id user)) |}
          else Some {| profileUser := user; profileScore := None |}
      end
  end.

End Convex.

(* ===================================================================== *)
(** ** Worked inputs                                                      *)
(* ===================================================================== *)

(** The fixtures of the repository's test suites, with the clock pinned. *)
Module Fixtures.
Local Open Scope string_scope.
Local Open Scope float_scope.

(** Year and zero-based month of a UTC day number (proleptic Gregorian). *)
Definition utcYearMonth (days : Z) : Z * Z :=
  (let z := days + 719468 in
   let era := z / 146097 in
   let doe := z - era * 146097 in
   let yoe := (doe - doe / 1460 + doe / 36524 - doe / 146096) / 365 in
   let doy := doe - (365 * yoe + yoe / 4 - yoe / 100) in
   let mp := (5 * doy + 2) / 153 in
   let m := if mp <? 10 then mp + 3 else mp - 9 in
   (yoe + era * 400 + (if m <=? 2 then 1 else 0), m - 1))%Z.

(** The integer part of a finite number, and the tests built on it. *)
Definition truncZ (x : float) : Z :=
  match Prim2SF x with
  | S754_finite s m e => let a := Z.shiftl (Zpos m) e in if s then (- a)%Z else a
  | _ => 0%Z
  end.
Definition isInteger (x : float) : bool := JS.of_Z (truncZ x) === x.
Definition isOddInteger (x : float) : bool := isInteger x && Z.odd (truncZ x).

(** Natural logarithm of a positive finite number: [x = m * 2^e] with
    [m] in [[1/2, 1)], and [ln m = 2 atanh ((m - 1) / (m + 1))] by its series. *)
Fixpoint atanhSeries (n : nat) (z2 term k : float) : float :=
  match n with
  | O => 0
  | S n' => term / k + atanhSeries n' z2 (term * z2) (k + 2)
  end.
Definition ln (x : float) : float :=
  let (m, e) := Z.frexp x in
  let z := (m - 1) / (m + 1) in
  JS.of_Z e * 0.6931471805599453 + 2 * atanhSeries 24 (z * z) z 1.

(** Exponential: [y = n ln 2 + r], the series of [exp r], scaled by [2^n]. *)
Fixpoint expSeries (n : nat) (r term k : float) : float :=
  match n with
  | O => 0
  | S n' => term + expSeries n' r (term * r / k) (k + 1)
  end.
Definition exp (y : float) : float :=
  let n := truncZ (y / 0.6931471805599453 + (if y <? 0 then -0.5 else 0.5)) in
  let r := y - JS.of_Z n * 0.6931471805599453 in
  Z.ldexp (expSeries 24 r 1 1) n.

(** [Math.log10]: the special operands as the standard fixes them, an
    approximation elsewhere. *)
Definition log10 (x : float) : float :=
  if is_nan x then nan
  else if x <? 0 then nan
  else if is_zero x then neg_infinity
  else if x === 1 then 0
  else if is_infinity x then infinity
  else ln x / 2.302585092994046.

(** [Math.pow]: the special operands of [Number::exponentiate], an
    approximation elsewhere. *)
Definition pow (base exponent : float) : float :=
  if is_nan exponent then nan
  else if is_zero exponent then 1
  else if is_nan base then nan
  else if is_infinity base then
    if get_sign base then
      if 0 <? exponent then (if isOddInteger exponent then neg_infinity else infinity)
      else (if isOddInteger exponent then -0 else 0)
    else (if 0 <? exponent then infinity else 0)
  else if is_zero base then
    if get_sign base then
      if 0 <? exponent then (if isOddInteger exponent then -0 else 0)
      else (if isOddInteger exponent then neg_infinity else infinity)
    else (if 0 <? exponent then 0 else infinity)
  else if is_infinity exponent then
    if abs base === 1 then nan
    else if 1 <? abs base then (if get_sign exponent then 0 else infinity)
    else (if get_sign exponent then infinity else 0)
  else if base <? 0 then
    if isInteger exponent
    then (if isOddInteger exponent then - exp (exponent * ln (abs base))
          else exp (exponent * ln (abs base)))
    else nan
  else exp (exponent * ln base).

(** A host in the UTC time zone, whose [Math.log10] and [Math.pow] are the
    approximations above (the standard leaves their precision to the
    implementation). *)
Definition sampleHost : Host :=
  {| Math_log10 := log10;
     Math_pow := pow;
     getFullYear := fun d => fst (utcYearMonth (d / 86400000)%Z);
     getMonth := fun d => snd (utcYearMonth (d / 86400000)%Z) |}.


Definition day : Z := 86400000%Z.


(** The instant the examples call "now", and a clock stopped at an instant. *)
Definition now : Date := 1700000000000%Z.
Definition stoppedAt (t : Date) : Clock := fun _ => t.

(** [createMockAccount], for an account created at [createdAt]. *)
Definition mockAccount (createdAt : Date) : GitHubAccount.t :=
  {| GitHubAccount.username := "engineer1";
     GitHubAccount.createdAt := createdAt;
     GitHubAccount.publicRepos := 10;
     GitHubAccount.followers := 50;
     GitHubAccount.following := 30;
     GitHubAccount.bio := Some "Software engineer";
     GitHubAccount.location := Some "San Francisco";
     GitHubAccount.company := Some "Tech Corp";
     GitHubAccount.website := Some "https://example.com";
     GitHubAccount.email := Some "engineer@example.com";
     GitHubAccount.isVerified := false |}.

(** [createMockPattern] with the overrides the fork tests apply:
    [totalPRs], [forkPRs], [originalRepoContributions], [forkOnlyRepos]. *)
Definition mockPattern
  (totalPRs forkPRs originalRepoContributions : float) (forkOnlyRepos : list string)
  : ContributionPattern.t :=
  {| ContributionPattern.totalPRs := totalPRs;
     ContributionPattern.mergedPRs := 15;
     ContributionPattern.openPRs := 3;
     ContributionPattern.closedPRs := 2;
     ContributionPattern.selfMergedPRs := 2;
     ContributionPattern.forkPRs := forkPRs;
     ContributionPattern.originalRepoPRs := originalRepoContributions;
     ContributionPattern.forkOnlyRepos := forkOnlyRepos;
     ContributionPattern.originalRepoContributions := originalRepoContributions;
     ContributionPattern.firstContributionDate := Some (now - 180 * day)%Z;
     ContributionPattern.lastContributionDate := Some now;
     ContributionPattern.contributionDays := 60;
     ContributionPattern.contributionMonths := 6;
     ContributionPattern.averagePRsPerDay := 0.1;
     ContributionPattern.maxPRsInSingleDay := 2;
     ContributionPattern.uniqueRepositories := 5;
     ContributionPattern.repositoriesWithMultiplePRs := 3;
     ContributionPattern.repositoriesWithMaintainerInteraction := 4;
     ContributionPattern.reviewsGiven := 10;
     ContributionPattern.reviewsReceived := 15;
     ContributionPattern.maintainerReviews := 12;
     ContributionPattern.issuesOpened := 8;
     ContributionPattern.issuesClosed := 6;
     ContributionPattern.issuesWithPRs := 5;
     ContributionPattern.commitMessagePatterns := [];
     ContributionPattern.commitTimePatterns := [];
     ContributionPattern.identicalCommitMessages := 0;
     ContributionPattern.uniqueCollaborators := 10;
     ContributionPattern.maintainerInteractions := 12;
     ContributionPattern.crossRepositoryCollaborations := 8 |}.

(** The self-merged PR of the impact test suite. *)
Definition selfMergedPR : MergedPR.t :=
  {| MergedPR.id := "1";
     MergedPR.repository := "repo1";
     MergedPR.mergedAt := now;
     MergedPR.mergedBy := "engineer1";
     MergedPR.author := "engineer1";
     MergedPR.reviewCommentsReceived := 5;
     MergedPR.reviewRounds := 2;
     MergedPR.filesChanged := 10;
     MergedPR.directoriesTouched := 3;
     MergedPR.isMaintainerMerge := false;
     MergedPR.isFork := false;
     MergedPR.timeToMerge := 24 |}.


(** [createMockActivity({ mergedPRs })] of the impact test suite. *)
Definition mockActivity (mergedPRs : list MergedPR.t) : GitHubActivity.t :=
  {| GitHubActivity.mergedPRs := mergedPRs;
     GitHubActivity.reviewsGiven := [];
     GitHubActivity.reviewsReceived := [];
     GitHubActivity.issues := [];
     GitHubActivity.repositories := [];
     GitHubActivity.activitySpan :=
       {| ActivitySpan.firstPRDate := (now - 365 * day)%Z;
          ActivitySpan.lastPRDate := now |} |}.

(** A backend PR: one Python file under [src/api], and a title that names
    the API. *)
Definition apiPR : PRAnalysis.t :=
  {| PRAnalysis.id := "1";
     PRAnalysis.repository := "api-server";
     PRAnalysis.title := "Add REST API endpoint for users";
     PRAnalysis.body := Some "Implemented new user endpoint with authentication";
     PRAnalysis.mergedAt := now;
     PRAnalysis.filesChanged :=
       [ {| FileChangeAnalysis.filePath := "src/api/users.py";
            FileChangeAnalysis.fileExtension := ".py";
            FileChangeAnalysis.changeType := added;
            FileChangeAnalysis.linesAdded := 50;
            FileChangeAnalysis.linesDeleted := 0;
            FileChangeAnalysis.directory := "src/api" |} ];
     PRAnalysis.languages := ["python"];
     PRAnalysis.directories := ["src/api"];
     PRAnalysis.isInfrastructureChange := false;
     PRAnalysis.isAPIChange := true;
     PRAnalysis.isUIChange := false;
     PRAnalysis.isDatabaseChange := true;
     PRAnalysis.isConfigChange := false;
     PRAnalysis.isTestChange := false;
     PRAnalysis.isDocumentationChange := false |}.

(** A PR that touches no role: a typo fixed in the README. *)
Definition typoPR : PRAnalysis.t :=
  {| PRAnalysis.id := "2";
     PRAnalysis.repository := "notes";
     PRAnalysis.title := "Fix typo";
     PRAnalysis.body := None;
     PRAnalysis.mergedAt := now;
     PRAnalysis.filesChanged :=
       [ {| FileChangeAnalysis.filePath := "README.md";
            FileChangeAnalysis.fileExtension := ".md";
            FileChangeAnalysis.changeType := modified;
            FileChangeAnalysis.linesAdded := 1;
            FileChangeAnalysis.linesDeleted := 1;
            FileChangeAnalysis.directory := "" |} ];
     PRAnalysis.languages := [];
     PRAnalysis.directories := [];
     PRAnalysis.isInfrastructureChange := false;
     PRAnalysis.isAPIChange := false;
     PRAnalysis.isUIChange := false;
     PRAnalysis.isDatabaseChange := false;
     PRAnalysis.isConfigChange := false;
     PRAnalysis.isTestChange := false;
     PRAnalysis.isDocumentationChange := true |}.

(** [createMockActivity({ prs })] of the compatibility test suite. *)
Definition mockEngineerActivity (prs : list PRAnalysis.t) : EngineerActivity.t :=
  {| EngineerActivity.prs := prs;
     EngineerActivity.issues := [];
     EngineerActivity.repositories := [];
     EngineerActivity.codeReviews := [] |}.

Definition backendQuery : RoleQuery :=
  {| role := backend; requiredTechnologies := None; preferredExperience := None |}.

(** [createMockTrustResult({ totalScore })] of the recruiter-match suite. *)
Definition mockTrustResult (totalScore : float) : Trust.TrustScoreResult :=
  {| Trust.totalScore := totalScore;
     Trust.isAuthentic := true;
     Trust.confidence := 90;
     Trust.components :=
       {| Trust.Components.accountAuthenticity :=
            mkScored 85 (Trust.mkAccountBreakdown 0 0 0);
          Trust.Components.contributionAuthenticity :=
            mkScored 80 (Trust.mkContributionBreakdown 0 0 0 0);
          Trust.Components.collaborationSignals :=
            mkScored 75 (Trust.mkCollaborationBreakdown 0 0 0 0);
          Trust.Components.antiGamingScore :=
            mkScored 90 (Trust.mkAntiGamingBreakdown 0 0 0 0) |};
     Trust.signals := Trust.TrustSignals.mk 0 0 0 0 0 0 0 0;
     Trust.spamDetection :=
       Trust.mkSpam false false false false false 0 0 0 false false false;
     Trust.redFlags := [];
     Trust.greenFlags := ["High maintainer trust"] |}.

(** [createMockCompatibilityResult({ totalScore })] *)
Definition mockCompatibilityResult (totalScore : float)
  : Compatibility.CompatibilityScoreResult :=
  {| Compatibility.totalScore := totalScore;
     Compatibility.compatibilityLevel := Compatibility.high;
     Compatibility.signals := Compatibility.CompatibilitySignals.mk 80 75 70 80 75 70 65;
     Compatibility.negativeSignals := Compatibility.NegativeSignals.mk 10 5 0 0 0;
     Compatibility.explanation :=
       {| Compatibility.Explanation.role := "backend";
          Compatibility.Explanation.strengths :=
            ["Strong technology stack match"; "Deep domain contributions"];
          Compatibility.Explanation.weaknesses := [];
          Compatibility.Explanation.evidence := [] |};
     Compatibility.breakdown :=
       {| Compatibility.Breakdown.technologyStack :=
            Compatibility.TechnologyStack.mk ["python"; "go"] [] 80;
          Compatibility.Breakdown.contributionDepth :=
            Compatibility.ContributionDepth.mk 15 20 75;
          Compatibility.Breakdown.architecturePatterns :=
            Compatibility.ArchitecturePatterns.mk ["microservices"; "api-gateway"] 70 |} |}.

(** [createMockImpactResult({ totalScore })] *)
Definition mockImpactResult (totalScore : float) : Impact.ImpactScoreResult :=
  {| Impact.totalScore := totalScore;
     Impact.components :=
       {| Impact.Components.prImpact := mkScored 75 (Impact.mkComponentBreakdown 0 0 0 0 0);
          Impact.Components.collaboration :=
            mkScored 70 (Impact.mkCollaborationBreakdown 0 0 0 0);
          Impact.Components.longevity := mkScored 65 (Impact.mkLongevityBreakdown 0 0 0);
          Impact.Components.quality := mkScored 70 (Impact.QualityBreakdown.mk 0 0 0 0) |};
     Impact.signals := Impact.Signals.mk 50 2 0 10 24;
     Impact.explainability := Impact.Explainability.mk [] [] [] |}.

End Fixtures.

(* ===================================================================== *)
(** ** Vocabulary of the properties                                       *)
(* ===================================================================== *)

(** An activity with its self-merged PRs taken out. *)
Definition withoutSelfMerged (a : GitHubActivity.t) : GitHubActivity.t :=
  {| GitHubActivity.mergedPRs :=
       filter (fun pr => negb (Impact.isSelfMerged pr)) (GitHubActivity.mergedPRs a);
     GitHubActivity.reviewsGiven := GitHubActivity.reviewsGiven a;
     GitHubActivity.reviewsReceived := GitHubActivity.reviewsReceived a;
     GitHubActivity.issues := GitHubActivity.issues a;
     GitHubActivity.repositories := GitHubActivity.repositories a;
     GitHubActivity.activitySpan := GitHubActivity.activitySpan a |}.






(** A score that is within [[lo, hi]] unless it is NaN, and one that is at
    most [hi] unless it is NaN.  (A calculator that is handed NaN, or that
    divides zero by zero, answers NaN: no clamp removes it.) *)
Definition withinOrNaN (lo hi x : float) : Prop :=
  is_nan x = true \/ ((lo <=? x)%float = true /\ (x <=? hi)%float = true).

Definition atMostOrNaN (hi x : float) : Prop :=
  is_nan x = true \/ (x <=? hi)%float = true.

(** A number that is a zero (of either sign) or NaN: what a quotient or a
    multiple of zero is. *)
Definition zeroOrNaN (x : float) : Prop :=
  Prim2SF x = S754_nan \/ exists s, Prim2SF x = S754_zero s.

(** The outcome of comparing two numbers: what each of [<], [<=] and [===]
    answers, either way round. *)
Inductive Order (x y : float) : Prop :=
| Unordered : is_nan x = true \/ is_nan y = true ->
    (x <? y)%float = false -> (y <? x)%float = false ->
    (x <=? y)%float = false -> (y <=? x)%float = false ->
    (x =? y)%float = false -> Order x y
| Below : is_nan x = false -> is_nan y = false ->
    (x <? y)%float = true -> (y <? x)%float = false ->
    (x <=? y)%float = true -> (y <=? x)%float = false ->
    (x =? y)%float = false -> Order x y
| Level : is_nan x = false -> is_nan y = false ->
    (x <? y)%float = false -> (y <? x)%float = false ->
    (x <=? y)%float = true -> (y <=? x)%float = true ->
    (x =? y)%float = true -> Order x y
| Above : is_nan x = false -> is_nan y = false ->
    (x <? y)%float = false -> (y <? x)%float = true ->
    (x <=? y)%float = false -> (y <=? x)%float = true ->
    (x =? y)%float = false -> Order x y.

(** The PRs of an activity that the impact calculator scores: those left
    by the self-merge filter and then by the spam filter. *)
Definition cleanPRs (a : GitHubActivity.t) (config : option Impact.ImpactScoreConfig.t)
  : list MergedPR.t :=
  Impact.valid
    (Impact.filterSpamPRs
       (Impact.validPRs (Impact.filterSelfMergedPRs (GitHubActivity.mergedPRs a)))
       (Impact.fullConfig config)).

(** The PRs of a list merged on the day a given PR was merged, and those
    merged into a given repository. *)
Definition mergedOnTheDayOf (pr : MergedPR.t) (prs : list MergedPR.t) : list MergedPR.t :=
  filter (fun q => Z.eqb (Impact.dayKey (MergedPR.mergedAt q))
                         (Impact.dayKey (MergedPR.mergedAt pr))) prs.

Definition mergedInto (repo : string) (prs : list MergedPR.t) : list MergedPR.t :=
  filter (fun pr => String.eqb (MergedPR.repository pr) repo) prs.

(** The order of [topContributingRepos]: no fewer PRs than what follows. *)
Definition ranked (x y : Impact.TopRepo) : Prop := (Impact.prCount y <= Impact.prCount x)%nat.

(* ===================================================================== *)
(** ** Order of numbers                                                   *)
(* ===================================================================== *)

(** The comparisons of binary64 numbers, through their specification:
    what a chain of [if (x >= a) ... else if (x >= b) ...] may assume. *)
Section NumberOrder.
Local Open Scope float_scope.

Ltac compare_cases :=
  repeat match goal with
  | H : context [(?a ?= ?b)%Z] |- _ => destruct (Z.compare_spec a b)
  | |- context [(?a ?= ?b)%Z] => destruct (Z.compare_spec a b)
  | H : context [(?a ?= ?b)%positive] |- _ => destruct (Pos.compare_spec a b)
  | |- context [(?a ?= ?b)%positive] => destruct (Pos.compare_spec a b)
  end.

Lemma SFcompare_Lt_trans (x a b : spec_float) :
  SFcompare x a = Some Lt ->
  SFcompare a b = Some Lt \/ SFcompare a b = Some Eq ->
  SFcompare x b = Some Lt.
Proof.
  unfold SFcompare.
  change (PosDef.Pos.compare_cont Eq) with Pos.compare.
  destruct x as [sx|sx| |sx mx ex], a as [sa|sa| |sa ma ea], b as [sb|sb| |sb mb eb];
    try destruct sx; try destruct sa; try destruct sb;
    intros H [H'|H']; try discriminate; try reflexivity;
    compare_cases; simpl in *; try discriminate; try reflexivity; subst; try lia.
Qed.

Lemma SFcompare_Lt_Gt (x y : spec_float) :
  SFcompare x y = Some Lt -> SFcompare y x = Some Gt.
Proof.
  unfold SFcompare.
  change (PosDef.Pos.compare_cont Eq) with Pos.compare.
  destruct x as [sx|sx| |sx mx ex], y as [sy|sy| |sy my ey];
    try destruct sx; try destruct sy;
    intros H; try discriminate; try reflexivity;
    compare_cases; simpl in *; try discriminate; try reflexivity; subst; try lia.
Qed.

(** [x < a] and [a <= b] leave [x >= b] false. *)
Lemma below_is_not_above (x a b : float) :
  (x <? a) = true -> (a <=? b) = true -> (x >=? b) = false.
Proof.
  unfold JS.geb. rewrite ltb_spec, !leb_spec. unfold SFltb, SFleb.
  intros H1 H2.
  assert (Hxa : SFcompare (Prim2SF x) (Prim2SF a) = Some Lt).
  { destruct (SFcompare (Prim2SF x) (Prim2SF a)) as [[]|]; congruence. }
  assert (Hab : SFcompare (Prim2SF a) (Prim2SF b) = Some Lt
                \/ SFcompare (Prim2SF a) (Prim2SF b) = Some Eq).
  { destruct (SFcompare (Prim2SF a) (Prim2SF b)) as [[]|]; auto; discriminate. }
  rewrite (SFcompare_Lt_Gt _ _ (SFcompare_Lt_trans _ _ _ Hxa Hab)). reflexivity.
Qed.

End NumberOrder.

(* ===================================================================== *)
(** ** Properties of the compatibility calculator                         *)
(* ===================================================================== *)

Section CompatibilityProperties.
Import Compatibility Fixtures.
Local Open Scope float_scope.

(** C1 (range of scores): the check at the input that decides it.  For a
    single backend PR whose only file is role-relevant and whose title names
    a role keyword, [calculateDomainContributionDepth] counts the PR twice:
    2 relevant PRs out of 1, so [signals.domainContributionDepth] is 200,
    outside [0, 100]. *)
Theorem domainContributionDepth_counts_a_PR_twice :
  let r := calculateCompatibilityScore (mockEngineerActivity [apiPR]) backendQuery in
  ContributionDepth.relevantPRs (Breakdown.contributionDepth (breakdown r)) = 2%nat
  /\ ContributionDepth.totalPRs (Breakdown.contributionDepth (breakdown r)) = 1%nat
  /\ CompatibilitySignals.domainContributionDepth (signals r) = 200
  /\ (CompatibilitySignals.domainContributionDepth (signals r) <=? 100) = false.
Proof.
  vm_compute. repeat split; reflexivity.
Qed.

(** C6 (guarded ratios): the check at the input that decides it.  With no
    PR at all, whatever the role and the rest of the activity,
    [calculateNegativeSignals] divides 0 by 0: [technologyMismatch] and
    [domainContradiction] are NaN, and so is the total score. *)
Theorem technologyMismatch_without_PRs_is_NaN
  (issues : list IssueAnalysis.t) (repositories : list RepositoryAnalysis.t)
  (codeReviews : list ReviewedPR.t) (query : RoleQuery) :
  let activity := EngineerActivity.mk [] issues repositories codeReviews in
  let r := calculateCompatibilityScore activity query in
  is_nan (NegativeSignals.technologyMismatch (negativeSignals r)) = true
  /\ is_nan (NegativeSignals.domainContradiction (negativeSignals r)) = true
  /\ is_nan (totalScore (calculateCompatibilityScore (mockEngineerActivity []) backendQuery))
     = true.
Proof.
  repeat split; reflexivity.
Qed.

(** C9, as the specification states it, fails: five PRs in which no
    architecture pattern is detected give [architectureMismatch] 50, not
    100. *)
Lemma architectureMismatch_is_not_100 :
  let activity := mockEngineerActivity [typoPR; typoPR; typoPR; typoPR; typoPR] in
  let r := calculateCompatibilityScore activity backendQuery in
  ArchitecturePatterns.detectedPatterns (Breakdown.architecturePatterns (breakdown r)) = []
  /\ NegativeSignals.architectureMismatch (negativeSignals r) = 50
  /\ (NegativeSignals.architectureMismatch (negativeSignals r) === 100) = false.
Proof.
  vm_compute. repeat split; reflexivity.
Qed.

(** C9, amended: [architectureMismatch] is 50 when no architecture pattern
    is detected for the requested role and 0 otherwise, and the total is the
    weighted sum of the signals minus a penalty in which it weighs 0.1,
    clamped to [0, 100]. *)
Theorem architectureMismatch_is_50_or_0 (activity : EngineerActivity.t) (query : RoleQuery) :
  let r := calculateCompatibilityScore activity query in
  let n := negativeSignals r in
  NegativeSignals.architectureMismatch n
  = match ArchitecturePatterns.detectedPatterns (Breakdown.architecturePatterns (breakdown r))
    with
    | [] => 50
    | _ :: _ => 0
    end
  /\ totalScore r
     = JS.Math_max 0
         (JS.Math_min 100
            (weightedSignals (signals r) (getRoleWeights (role query))
             - (NegativeSignals.technologyMismatch n * 0.15
                + NegativeSignals.domainContradiction n * 0.1
                + NegativeSignals.insufficientDepth n * 0.2
                + NegativeSignals.architectureMismatch n * 0.1
                + NegativeSignals.technologyOverweight n * 0.15))).
Proof.
  split.
  - cbn -[calculateArchitecturePatternMatch].
    destruct (patterns (calculateArchitecturePatternMatch activity (role query)));
      reflexivity.
  - reflexivity.
Qed.

End CompatibilityProperties.

(* ===================================================================== *)
(** ** Properties of the recruiter match calculator                       *)
(* ===================================================================== *)

Section RecruiterMatchProperties.
Import RecruiterMatch Fixtures.
Local Open Scope string_scope.
Local Open Scope float_scope.

Variables (trustResult : Trust.TrustScoreResult)
          (compatibilityResult : Compatibility.CompatibilityScoreResult)
          (impactResult : Impact.ImpactScoreResult)
          (config : option RecruiterMatchScoreConfig.t).

Let T := Trust.totalScore trustResult.
Let C := Compatibility.totalScore compatibilityResult.
Let I := Impact.totalScore impactResult.
Let fc := fullConfig config.
Let r := calculateRecruiterMatchScore trustResult compatibilityResult impactResult config.

(** C2 (hard gate): if the trust total is below its minimum threshold, or
    the compatibility total below its own, or the impact total below its
    own, the match score is 0, the three reported components are 0 and the
    three boosts are 1.  Without a config the thresholds are 50, 30 and 20. *)
Theorem gate_forces_zero :
  (T <? trust (Config.minimumThresholds fc)) = true
  \/ (C <? compatibility (Config.minimumThresholds fc)) = true
  \/ (I <? impact (Config.minimumThresholds fc)) = true ->
  totalMatchScore r = 0
  /\ resultTrustComponent r = 0
  /\ resultCompatibilityComponent r = 0
  /\ resultImpactComponent r = 0
  /\ detailBoosts (calculationDetails r) = {| trust := 1; compatibility := 1; impact := 1 |}
  /\ Config.minimumThresholds (fullConfig None)
     = {| trust := 50; compatibility := 30; impact := 20 |}.
Proof.
  intros Hgate.
  unfold r, calculateRecruiterMatchScore, calculateWeightedScore; cbn zeta.
  fold fc T C I.
  destruct (T <? trust (Config.minimumThresholds fc)) eqn:Ht;
    [ repeat split; reflexivity | ].
  destruct (C <? compatibility (Config.minimumThresholds fc)) eqn:Hc;
    [ repeat split; reflexivity | ].
  destruct (I <? impact (Config.minimumThresholds fc)) eqn:Hi;
    [ repeat split; reflexivity | ].
  destruct Hgate as [H | [H | H]]; discriminate H.
Qed.

(** C8 (reported components are un-boosted): when no gate fires, each
    reported component is the axis total times its weight; each boost is the
    configured factor when the axis total exceeds 80 (trust), 85
    (compatibility) or 90 (impact) and 1 otherwise; and the match score is the
    sum of the boosted contributions, capped at 100.  So the boosts reach the
    total only.  Without a config the factors are 1.1, 1.15 and 1.05. *)
Theorem components_are_unboosted :
  (T <? trust (Config.minimumThresholds fc)) = false ->
  (C <? compatibility (Config.minimumThresholds fc)) = false ->
  (I <? impact (Config.minimumThresholds fc)) = false ->
  let w := Config.weights fc in
  let b := Config.boostFactors fc in
  let trustBoost := if T >? 80 then highTrustBoost b else 1 in
  let compatibilityBoost := if C >? 85 then highCompatibilityBoost b else 1 in
  let impactBoost := if I >? 90 then highImpactBoost b else 1 in
  resultTrustComponent r = T * trust w
  /\ resultCompatibilityComponent r = C * compatibility w
  /\ resultImpactComponent r = I * impact w
  /\ detailBoosts (calculationDetails r)
     = {| trust := trustBoost; compatibility := compatibilityBoost; impact := impactBoost |}
  /\ totalMatchScore r
     = JS.Math_min (T * trust w * trustBoost
                    + C * compatibility w * compatibilityBoost
                    + I * impact w * impactBoost) 100
  /\ Config.boostFactors (fullConfig None)
     = {| highTrustBoost := 1.1; highCompatibilityBoost := 1.15; highImpactBoost := 1.05 |}.
Proof.
  intros Ht Hc Hi.
  unfold r, calculateRecruiterMatchScore, calculateWeightedScore; cbn zeta.
  fold fc T C I. rewrite Ht, Hc, Hi. cbn.
  repeat split; reflexivity.
Qed.

(** [xs.push(s)] leaves the head of a non-empty array in place. *)
Lemma pushIf_cons (b : bool) (s x : string) (xs : list string) :
  pushIf b s (x :: xs) = x :: pushIf b s xs.
Proof.
  destruct b; reflexivity.
Qed.

(** The lowest branch of [generateSummary] takes every score that is not
    50 or more, and words it "Fair match". *)
Lemma summary_below_50_says_fair (matchScore : float) :
  (matchScore >=? 85) = false ->
  (matchScore >=? 70) = false ->
  (matchScore >=? 50) = false ->
  prefix "Fair match"
         (generateSummary trustResult compatibilityResult impactResult matchScore) = true.
Proof.
  intros H85 H70 H50.
  unfold generateSummary; cbn zeta.
  rewrite H85, H70, H50.
  unfold push at 1 2. cbn [app]. rewrite !pushIf_cons.
  reflexivity.
Qed.

(** C10 (a poor match is summarised as fair): whenever the computed match
    score is below 30, a candidate gated to 0 included, the recruiter view has
    match level [poor] and recommendation [not-recommended], and yet its
    summary begins with the words "Fair match". *)
Theorem poor_match_summary_says_fair :
  (totalMatchScore r <? 30) = true ->
  RecruiterView.matchLevel (recruiterView r) = poor
  /\ RecruiterView.recommendation (recruiterView r) = not_recommended
  /\ prefix "Fair match" (RecruiterView.summary (recruiterView r)) = true.
Proof.
  intros Hlow.
  unfold r, calculateRecruiterMatchScore in *; cbn zeta in *.
  set (s := calculateWeightedScore _ _ _ _) in *.
  change (totalMatchScore _) with (total s) in Hlow.
  assert (H85 : (total s >=? 85) = false)
    by (apply (below_is_not_above _ 30); [exact Hlow | reflexivity]).
  assert (H70 : (total s >=? 70) = false)
    by (apply (below_is_not_above _ 30); [exact Hlow | reflexivity]).
  assert (H50 : (total s >=? 50) = false)
    by (apply (below_is_not_above _ 30); [exact Hlow | reflexivity]).
  assert (H30 : (total s >=? 30) = false)
    by (apply (below_is_not_above _ 30); [exact Hlow | reflexivity]).
  unfold recruiterView, generateRecruiterView; cbn zeta.
  rewrite H85, H70, H50, H30.
  cbn [RecruiterView.matchLevel RecruiterView.recommendation RecruiterView.summary].
  repeat split.
  apply summary_below_50_says_fair; assumption.
Qed.

(** An array of strings has no property names. *)
Lemma keys_of_strings (xs : list string) : JSON.keys (JSON.strings xs) = [].
Proof.
  unfold JSON.strings. cbn [JSON.keys].
  induction xs as [| x xs IH]; [ reflexivity | exact IH ].
Qed.

(** The property names of a serialized engineer view, whatever it holds. *)
Lemma engineerView_keys (v : EngineerView.t) :
  JSON.keys (engineerViewJSON v)
  = [ "trustScore"; "total"; "isAuthentic"; "confidence"; "components";
      "accountAuthenticity"; "contributionAuthenticity"; "collaborationSignals";
      "antiGamingScore"; "greenFlags"; "redFlags";
      "compatibilityScore"; "total"; "compatibilityLevel"; "signals";
      "technologyStackMatch"; "domainContributionDepth"; "architecturePatternMatch";
      "fileTypeAlignment"; "activityTypeMatch"; "repositoryTypeMatch";
      "reviewDomainExpertise"; "strengths"; "weaknesses";
      "impactScore"; "total"; "components"; "prImpact"; "collaboration"; "longevity";
      "quality"; "signals"; "totalMergedPRs"; "activeRepositories"; "activitySpanMonths";
      "improvementSuggestions" ].
Proof.
  unfold engineerViewJSON.
  cbn [JSON.keys flat_map app].
  rewrite !keys_of_strings. reflexivity.
Qed.

(** What [pushIf] may add to a list. *)
Lemma in_pushIf (b : bool) (s x : string) (xs : list string) :
  In x (pushIf b s xs) -> In x xs \/ x = s.
Proof.
  destruct b; cbn; [ | auto ].
  unfold push. rewrite in_app_iff. cbn. intuition.
Qed.

Lemma length_pushIf (b : bool) (s : string) (xs : list string) :
  (List.length (pushIf b s xs) <= S (List.length xs))%nat.
Proof.
  destruct b; cbn; [ | lia ].
  unfold push. rewrite length_app. cbn. lia.
Qed.

(** C4 (view separation): the engineer view, as it serializes, has no
    [matchScore] and no [recommendation] property at any depth, and it is the
    same whatever the config (weights, thresholds, boosts) that shapes the
    match score; the red flags of the recruiter view are drawn from the three
    whitelisted strings only, hence at most three, however many red flags
    the trust result carries. *)
Theorem views_are_separated :
  ~ In "matchScore" (JSON.keys (engineerViewJSON (engineerView r)))
  /\ ~ In "recommendation" (JSON.keys (engineerViewJSON (engineerView r)))
  /\ (forall config',
        engineerView
          (calculateRecruiterMatchScore trustResult compatibilityResult impactResult config')
        = engineerView r)
  /\ (forall flag, In flag (RecruiterView.redFlags (recruiterView r)) ->
        flag = "Profile authenticity concerns"
        \/ flag = "Fork-only contributions detected"
        \/ flag = "Poor role compatibility")
  /\ (List.length (RecruiterView.redFlags (recruiterView r)) <= 3)%nat.
Proof.
  split; [ | split; [ | split; [ | split ] ] ].
  - rewrite engineerView_keys. cbn. intuition discriminate.
  - rewrite engineerView_keys. cbn. intuition discriminate.
  - reflexivity.
  - intros flag.
    unfold r, calculateRecruiterMatchScore, recruiterView, generateRecruiterView; cbn zeta.
    destruct (_ >=? 85); [ | destruct (_ >=? 70); [ | destruct (_ >=? 50);
      [ | destruct (_ >=? 30) ] ] ];
      cbn [RecruiterView.redFlags];
      intros H;
      apply in_pushIf in H; destruct H as [H | H]; auto;
      apply in_pushIf in H; destruct H as [H | H]; auto;
      apply in_pushIf in H; destruct H as [H | H]; auto;
      destruct H.
  - unfold r, calculateRecruiterMatchScore, recruiterView, generateRecruiterView; cbn zeta.
    destruct (_ >=? 85); [ | destruct (_ >=? 70); [ | destruct (_ >=? 50);
      [ | destruct (_ >=? 30) ] ] ];
      cbn [RecruiterView.redFlags];
      match goal with
      | |- (List.length (pushIf ?b3 ?s3 (pushIf ?b2 ?s2 (pushIf ?b1 ?s1 []))) <= 3)%nat =>
          pose proof (length_pushIf b1 s1 []) as L1;
          pose proof (length_pushIf b2 s2 (pushIf b1 s1 [])) as L2;
          pose proof (length_pushIf b3 s3 (pushIf b2 s2 (pushIf b1 s1 []))) as L3
      end;
      cbn [List.length] in L1; lia.
Qed.

End RecruiterMatchProperties.

(** C2 at the trust = 40, compatibility = 75, impact = 70 of the
    specification, without a config. *)
Lemma gate_forces_zero_at_trust_40 :
  let r :=
    RecruiterMatch.calculateRecruiterMatchScore
      (Fixtures.mockTrustResult 40) (Fixtures.mockCompatibilityResult 75)
      (Fixtures.mockImpactResult 70) None in
  PrimFloat.ltb 40 50 = true /\ RecruiterMatch.totalMatchScore r = 0%float.
Proof.
  split; [ reflexivity | ].
  apply (gate_forces_zero
           (Fixtures.mockTrustResult 40) (Fixtures.mockCompatibilityResult 75)
           (Fixtures.mockImpactResult 70) None).
  left; reflexivity.
Defined.

(** C8 at trust = 85, compatibility = 75, impact = 70: the trust boost is
    1.1, the reported trust component stays 85 x 0.4. *)
Lemma components_are_unboosted_at_trust_85 :
  let r :=
    RecruiterMatch.calculateRecruiterMatchScore
      (Fixtures.mockTrustResult 85) (Fixtures.mockCompatibilityResult 75)
      (Fixtures.mockImpactResult 70) None in
  PrimFloat.ltb 85 50 = false
  /\ RecruiterMatch.resultTrustComponent r = (85 * 0.4)%float
  /\ RecruiterMatch.trust (RecruiterMatch.detailBoosts (RecruiterMatch.calculationDetails r))
     = 1.1%float.
Proof.
  pose proof (components_are_unboosted
                (Fixtures.mockTrustResult 85) (Fixtures.mockCompatibilityResult 75)
                (Fixtures.mockImpactResult 70) None eq_refl eq_refl eq_refl)
    as (Ht & _ & _ & Hb & _).
  split; [ reflexivity | ].
  split; [ exact Ht | ].
  rewrite Hb. reflexivity.
Defined.

(** C10 at a candidate gated to 0 by a trust total of 40. *)
Lemma poor_match_summary_says_fair_when_gated :
  let r :=
    RecruiterMatch.calculateRecruiterMatchScore
      (Fixtures.mockTrustResult 40) (Fixtures.mockCompatibilityResult 75)
      (Fixtures.mockImpactResult 70) None in
  PrimFloat.ltb (RecruiterMatch.totalMatchScore r) 30 = true
  /\ RecruiterMatch.RecruiterView.matchLevel (RecruiterMatch.recruiterView r)
     = RecruiterMatch.poor
  /\ prefix "Fair match"
            (RecruiterMatch.RecruiterView.summary (RecruiterMatch.recruiterView r)) = true.
Proof.
  pose proof (poor_match_summary_says_fair
                (Fixtures.mockTrustResult 40) (Fixtures.mockCompatibilityResult 75)
                (Fixtures.mockImpactResult 70) None eq_refl)
    as (Hl & _ & Hs).
  split; [ reflexivity | ].
  split; [ exact Hl | exact Hs ].
Defined.

(* ===================================================================== *)
(** ** Properties of the impact calculator                                *)
(* ===================================================================== *)

(** C5, as the specification states it, fails: a self-merged PR does not
    contribute to [signals.selfMergedPRs] only.  For the activity of the
    specification, whose one PR is self-merged, [signals.totalMergedPRs] is
    1 and the "Self-merged PRs excluded" penalty counts 1, where the
    activity without that PR has 0 in both places. *)
Lemma self_merged_PR_is_counted_among_the_merged_PRs :
  let a := Fixtures.mockActivity [Fixtures.selfMergedPR] in
  let call activity := @Impact.calculateImpactScore Fixtures.sampleHost activity None in
  let r := runWith (Fixtures.stoppedAt Fixtures.now) (call a) in
  let r' := runWith (Fixtures.stoppedAt Fixtures.now) (call (withoutSelfMerged a)) in
  Impact.isSelfMerged Fixtures.selfMergedPR = true
  /\ GitHubActivity.mergedPRs (withoutSelfMerged a) = []
  /\ Impact.Signals.selfMergedPRs (Impact.signals r) = 1%nat
  /\ Impact.Signals.totalMergedPRs (Impact.signals r) = 1%nat
  /\ Impact.Signals.totalMergedPRs (Impact.signals r') = 0%nat
  /\ map Impact.count (Impact.Explainability.penalties (Impact.explainability r))
     = [1%nat; 0%nat]
  /\ map Impact.count (Impact.Explainability.penalties (Impact.explainability r'))
     = [0%nat; 0%nat].
Proof.
  vm_compute. repeat split.
Qed.

Section ImpactProperties.
Import Impact.
Context {host : Host}.
Local Open Scope float_scope.

Lemma filter_idempotent {A : Type} (f : A -> bool) (xs : list A) :
  filter f (filter f xs) = filter f xs.
Proof.
  induction xs as [| x xs IH]; [ reflexivity | ].
  cbn. destruct (f x) eqn:E; cbn; rewrite ?E, IH; reflexivity.
Qed.

Lemma filter_kept_out {A : Type} (f : A -> bool) (xs : list A) :
  filter f (filter (fun x => negb (f x)) xs) = [].
Proof.
  induction xs as [| x xs IH]; [ reflexivity | ].
  cbn. destruct (f x) eqn:E; cbn; rewrite ?E; exact IH.
Qed.

Lemma filter_none {A : Type} (f : A -> bool) (xs : list A) :
  forallb f xs = true -> filter (fun x => negb (f x)) xs = [].
Proof.
  induction xs as [| x xs IH]; [ reflexivity | ].
  cbn. destruct (f x); cbn; [ exact IH | discriminate ].
Qed.

Lemma filter_split_length {A : Type} (f : A -> bool) (xs : list A) :
  (List.length (filter f xs) + List.length (filter (fun x => negb (f x)) xs)
   = List.length xs)%nat.
Proof.
  induction xs as [| x xs IH]; [ reflexivity | ].
  cbn. destruct (f x); cbn; lia.
Qed.

(** C5, amended: a PR with [author === mergedBy] is counted in three
    places, [signals.selfMergedPRs], [signals.totalMergedPRs] (the plain
    length of the input, which so exceeds that of the activity without its
    self-merged PRs by their number) and the count of the "Self-merged PRs
    excluded" penalty entry, and in nothing else.  It is out of the way
    before anything else is computed: the spam filter runs on what the
    self-merge filter keeps, and the four components, the total score, the
    spam count, the active repositories, the activity span and the other
    explainability lists are those of the activity without its self-merged
    PRs.  Consequently, when every PR of an activity is self-merged, the
    four component scores are 0 and, under the default weights, so is the
    total score. *)
Theorem self_merged_PRs_are_excluded
  (a : GitHubActivity.t) (config : option ImpactScoreConfig.t) (clock : Clock) :
  let r := runWith clock (calculateImpactScore a config) in
  let r' := runWith clock (calculateImpactScore (withoutSelfMerged a) config) in
  Signals.selfMergedPRs (signals r)
  = List.length (filter isSelfMerged (GitHubActivity.mergedPRs a))
  /\ Signals.totalMergedPRs (signals r) = List.length (GitHubActivity.mergedPRs a)
  /\ Signals.totalMergedPRs (signals r)
     = (Signals.totalMergedPRs (signals r') + Signals.selfMergedPRs (signals r))%nat
  /\ Explainability.penalties (explainability r)
     = [ mkPenalty "Self-merged PRs excluded" (Signals.selfMergedPRs (signals r)) 0;
         mkPenalty "Spam PRs filtered" (Signals.spamPRs (signals r)) 0 ]
  /\ Explainability.penalties (explainability r')
     = [ mkPenalty "Self-merged PRs excluded" 0 0;
         mkPenalty "Spam PRs filtered" (Signals.spamPRs (signals r)) 0 ]
  /\ Signals.selfMergedPRs (signals r') = 0%nat
  /\ components r = components r'
  /\ totalScore r = totalScore r'
  /\ Signals.spamPRs (signals r) = Signals.spamPRs (signals r')
  /\ Signals.activeRepositories (signals r) = Signals.activeRepositories (signals r')
  /\ Signals.activitySpanMonths (signals r) = Signals.activitySpanMonths (signals r')
  /\ Explainability.topContributingRepos (explainability r)
     = Explainability.topContributingRepos (explainability r')
  /\ Explainability.recentActivity (explainability r)
     = Explainability.recentActivity (explainability r')
  /\ (forallb isSelfMerged (GitHubActivity.mergedPRs a) = true ->
      score (Components.prImpact (components r)) = 0
      /\ score (Components.collaboration (components r)) = 0
      /\ score (Components.longevity (components r)) = 0
      /\ score (Components.quality (components r)) = 0
      /\ (Config.weights (fullConfig config) = Config.weights DEFAULT_CONFIG ->
          totalScore r = 0)).
Proof.
  unfold runWith, calculateImpactScore, withoutSelfMerged, filterSelfMergedPRs.
  cbn [GitHubActivity.mergedPRs GitHubActivity.reviewsGiven GitHubActivity.reviewsReceived
       GitHubActivity.issues GitHubActivity.repositories GitHubActivity.activitySpan
       validPRs selfMerged].
  rewrite filter_idempotent, filter_kept_out.
  set (valid0 := filter (fun pr => negb (isSelfMerged pr)) (GitHubActivity.mergedPRs a)).
  cbn [bind Monad_state runState].
  destruct (runState (calculatePRImpactScore _ _ _) clock) as [prImpact clock1] eqn:E1.
  destruct (runState (mapClock _ _) clock1) as [recent clock2] eqn:E2.
  cbn [fst ret runState signals components totalScore explainability
       Signals.selfMergedPRs Signals.totalMergedPRs Signals.spamPRs
       Signals.activeRepositories Signals.activitySpanMonths
       Explainability.topContributingRepos Explainability.recentActivity
       Explainability.penalties
       Components.prImpact Components.collaboration Components.longevity
       Components.quality].
  split; [ reflexivity | ]. split; [ reflexivity | ].
  split.
  { pose proof (filter_split_length isSelfMerged (GitHubActivity.mergedPRs a)) as Hsplit.
    fold valid0 in Hsplit.
    cbn [fst ret Monad_state runState signals Signals.totalMergedPRs Signals.selfMergedPRs].
    lia. }
  repeat (split; [ reflexivity | ]).
  intros Hall.
  assert (Hvalid : valid0 = []) by (apply filter_none; exact Hall).
  rewrite Hvalid in *.
  cbn in E1. injection E1 as <- _.
  cbn. repeat (split; [ reflexivity | ]).
  intros ->. reflexivity.
Qed.

End ImpactProperties.

(** C5, amended, at the activity of the specification: one self-merged PR
    and nothing else. *)
Lemma self_merged_PRs_are_excluded_for_one_PR :
  let a := Fixtures.mockActivity [Fixtures.selfMergedPR] in
  let r :=
    runWith (Fixtures.stoppedAt Fixtures.now)
            (@Impact.calculateImpactScore Fixtures.sampleHost a None) in
  forallb Impact.isSelfMerged (GitHubActivity.mergedPRs a) = true
  /\ Impact.Signals.selfMergedPRs (Impact.signals r) = 1%nat
  /\ score (Impact.Components.prImpact (Impact.components r)) = 0%float
  /\ score (Impact.Components.collaboration (Impact.components r)) = 0%float
  /\ score (Impact.Components.longevity (Impact.components r)) = 0%float
  /\ score (Impact.Components.quality (Impact.components r)) = 0%float
  /\ Impact.totalScore r = 0%float.
Proof.
  pose proof (@self_merged_PRs_are_excluded Fixtures.sampleHost
                (Fixtures.mockActivity [Fixtures.selfMergedPR]) None
                (Fixtures.stoppedAt Fixtures.now))
    as (Hn & _ & _ & _ & _ & _ & _ & _ & _ & _ & _ & _ & _ & Hzero).
  destruct (Hzero eq_refl) as (H1 & H2 & H3 & H4 & H5).
  split; [ reflexivity | ].
  split; [ exact Hn | ].
  repeat (split; [ assumption | ]).
  exact (H5 eq_refl).
Defined.

(* ===================================================================== *)
(** ** Properties of the trust calculator                                 *)
(* ===================================================================== *)

(** C7, as the specification states it, fails: a pattern in which all 20
    PRs are fork PRs and no contribution goes to an original repository, but
    whose [forkOnlyRepos] list is empty (as the pattern builders of the
    repository leave it), is not flagged as fork farming, carries no
    "Fork-only contributions detected" red flag, and passes as authentic. *)
Lemma all_fork_PRs_pass_as_authentic :
  let pattern := Fixtures.mockPattern 20 20 0 [] in
  let account := Fixtures.mockAccount (Fixtures.now - 365 * Fixtures.day)%Z in
  let r :=
    runWith (Fixtures.stoppedAt Fixtures.now)
            (@Trust.calculateTrustScore Fixtures.sampleHost account pattern None) in
  PrimFloat.ltb 0 (ContributionPattern.totalPRs pattern) = true
  /\ PrimFloat.eqb (ContributionPattern.forkPRs pattern) (ContributionPattern.totalPRs pattern)
     = true
  /\ PrimFloat.eqb (ContributionPattern.originalRepoContributions pattern) 0 = true
  /\ Trust.forkFarming (Trust.spamDetection r) = false
  /\ Trust.isAuthentic r = true
  /\ ~ In "Fork-only contributions detected"%string (Trust.redFlags r).
Proof.
  vm_compute. repeat (split; [ reflexivity | ]).
  intros [H | [ ]]. discriminate H.
Qed.

Section TrustProperties.
Import Trust.
Context {host : Host}.
Local Open Scope string_scope.
Local Open Scope float_scope.

(** C7, amended: for every account, config and clock, and every pattern
    whose [forkOnlyRepos] list is non-empty and whose
    [originalRepoContributions] is 0 (the condition the fork-farming flag is
    keyed on; a 100% share of fork PRs is neither needed nor enough),
    [spamDetection.forkFarming] is true, [isAuthentic] is false and
    [redFlags] contains "Fork-only contributions detected". *)
Theorem fork_farming_is_detected
  (account : GitHubAccount.t) (pattern : ContributionPattern.t)
  (config : option TrustScoreConfig.t) (clock : Clock) :
  ContributionPattern.forkOnlyRepos pattern <> [] ->
  (ContributionPattern.originalRepoContributions pattern === 0) = true ->
  let r := runWith clock (calculateTrustScore account pattern config) in
  forkFarming (spamDetection r) = true
  /\ isAuthentic r = false
  /\ In "Fork-only contributions detected" (redFlags r).
Proof.
  intros Hrepos Hzero.
  assert (Hfarming : forkFarming (detectSpamPatterns pattern (fullConfig config)) = true).
  { unfold detectSpamPatterns; cbn [forkFarming]. rewrite Hzero.
    destruct (ContributionPattern.forkOnlyRepos pattern); [ contradiction | reflexivity ]. }
  unfold runWith, calculateTrustScore.
  cbn [bind Monad_state runState].
  destruct (runState (calculateAccountAuthenticity _ _ _) clock) as [accountAuth clock1].
  cbn [newDate runState ret Monad_state fst spamDetection isAuthentic redFlags].
  rewrite Hfarming.
  split; [ reflexivity | ].
  split.
  - rewrite andb_false_r. reflexivity.
  - change (pushIf true "Fork-only contributions detected" [])
      with ["Fork-only contributions detected"].
    rewrite !pushIf_cons. left. reflexivity.
Qed.

End TrustProperties.

(** C7, amended, at the fork-farming pattern of the test suite: all 20 PRs
    to forks, three fork-only repositories. *)
Lemma fork_farming_is_detected_in_the_test_pattern :
  let pattern := Fixtures.mockPattern 20 20 0 ["fork1"; "fork2"; "fork3"]%string in
  let account := Fixtures.mockAccount (Fixtures.now - 365 * Fixtures.day)%Z in
  let r :=
    runWith (Fixtures.stoppedAt Fixtures.now)
            (@Trust.calculateTrustScore Fixtures.sampleHost account pattern None) in
  ContributionPattern.forkOnlyRepos pattern <> []
  /\ PrimFloat.eqb (ContributionPattern.originalRepoContributions pattern) 0 = true
  /\ Trust.forkFarming (Trust.spamDetection r) = true
  /\ Trust.isAuthentic r = false
  /\ In "Fork-only contributions detected"%string (Trust.redFlags r).
Proof.
  assert (Hrepos : ContributionPattern.forkOnlyRepos
                     (Fixtures.mockPattern 20 20 0 ["fork1"; "fork2"; "fork3"]%string) <> [])
    by discriminate.
  split; [ exact Hrepos | ].
  split; [ reflexivity | ].
  exact (@fork_farming_is_detected Fixtures.sampleHost
           (Fixtures.mockAccount (Fixtures.now - 365 * Fixtures.day)%Z)
           (Fixtures.mockPattern 20 20 0 ["fork1"; "fork2"; "fork3"]%string)
           None (Fixtures.stoppedAt Fixtures.now) Hrepos eq_refl).
Defined.

(* ===================================================================== *)
(** ** Determinism                                                        *)
(* ===================================================================== *)


Section Determinism.
Context {host : Host}.





End Determinism.

(** What a calculator takes from its host, besides the clock: two hosts
    that agree on it give the same result. *)
Section TwoHosts.
Variables h h' : Host.
Local Open Scope monad_scope.
Local Open Scope float_scope.







End TwoHosts.




(* ===================================================================== *)
(** ** Strings: lower case *)
(* ===================================================================== *)

(** [toLowerCase] on plain and on accented text.  The capital I with a dot
    above becomes an i and a combining dot, so that "api" is found in the
    lower case of a word that ends in it; a capital sigma at the end of a
    word becomes the final sigma, elsewhere the medial one. *)
Lemma toLowerCase_follows_Unicode :
  JS.toLowerCase "Add REST API endpoint" = "add rest api endpoint"%string
  /\ JS.includes (JS.toLowerCase "APİ") "api" = true
  /\ JS.toLowerCase "ÉCOLE ÜBER GROẞ" = "école über groß"%string
  /\ JS.toLowerCase "ΟΔΥΣΣΕΥΣ ΣΟΦΟΣ" = "οδυσσευς σοφος"%string.
Proof.
  vm_compute. repeat split.
Qed.

(* ===================================================================== *)
(** ** Numbers: comparisons, [Math.min] and [Math.max], NaN and zero *)
(* ===================================================================== *)

Section NumberFacts.
Local Open Scope float_scope.

Ltac split_compares :=
  repeat match goal with
  | H : context [(?a ?= ?b)%Z] |- _ => destruct (Z.compare_spec a b)
  | |- context [(?a ?= ?b)%Z] => destruct (Z.compare_spec a b)
  | H : context [(?a ?= ?b)%positive] |- _ => destruct (Pos.compare_spec a b)
  | |- context [(?a ?= ?b)%positive] => destruct (Pos.compare_spec a b)
  end.

Lemma SFcompare_sym (x y : spec_float) :
  SFcompare y x = option_map CompOpp (SFcompare x y).
Proof.
  unfold SFcompare.
  change (PosDef.Pos.compare_cont Eq) with Pos.compare.
  destruct x as [sx|sx| |sx mx ex], y as [sy|sy| |sy my ey];
    try destruct sx; try destruct sy; try reflexivity;
    split_compares; simpl in *; try discriminate; try reflexivity; subst; try lia.
Qed.

Lemma SFcompare_Eq_trans (x a b : spec_float) :
  SFcompare x a = Some Eq -> SFcompare x b = SFcompare a b.
Proof.
  unfold SFcompare.
  change (PosDef.Pos.compare_cont Eq) with Pos.compare.
  destruct x as [sx|sx| |sx mx ex], a as [sa|sa| |sa ma ea], b as [sb|sb| |sb mb eb];
    try destruct sx; try destruct sa; try destruct sb;
    intros H; try discriminate; try reflexivity;
    split_compares; simpl in *; try discriminate; try reflexivity; subst; try lia.
Qed.

Lemma SFcompare_refl (x : spec_float) :
  x <> S754_nan -> SFcompare x x = Some Eq.
Proof.
  unfold SFcompare.
  change (PosDef.Pos.compare_cont Eq) with Pos.compare.
  destruct x as [sx|sx| |sx mx ex]; try destruct sx; intros H; try reflexivity;
    try (exfalso; apply H; reflexivity);
    rewrite Z.compare_refl, Pos.compare_refl; reflexivity.
Qed.

Lemma SFcompare_None (x y : spec_float) :
  SFcompare x y = None <-> x = S754_nan \/ y = S754_nan.
Proof.
  unfold SFcompare.
  destruct x as [sx|sx| |sx mx ex], y as [sy|sy| |sy my ey];
    try destruct sx; try destruct sy; split; intros H; try discriminate; auto;
    destruct H; discriminate.
Qed.

(** NaN, through the specification. *)
Lemma is_nan_spec (x : float) : is_nan x = true <-> Prim2SF x = S754_nan.
Proof.
  unfold is_nan. rewrite FloatAxioms.eqb_spec. unfold SFeqb.
  split.
  - intros H. destruct (Prim2SF x) eqn:E; try reflexivity;
      rewrite SFcompare_refl in H by discriminate; discriminate.
  - intros ->. reflexivity.
Qed.

Lemma not_nan_spec (x : float) : is_nan x = false <-> Prim2SF x <> S754_nan.
Proof.
  rewrite <- is_nan_spec. destruct (is_nan x); split; congruence.
Qed.

Lemma order (x y : float) : Order x y.
Proof.
  pose proof (SFcompare_sym (Prim2SF x) (Prim2SF y)) as Hsym.
  pose proof (SFcompare_None (Prim2SF x) (Prim2SF y)) as Hnone.
  destruct (SFcompare (Prim2SF x) (Prim2SF y)) as [[ | | ]|] eqn:E; cbn in Hsym;
    [ apply Level | apply Below | apply Above | apply Unordered ];
    rewrite ?ltb_spec, ?leb_spec, ?FloatAxioms.eqb_spec; unfold SFltb, SFleb, SFeqb;
    rewrite ?E, ?Hsym; try reflexivity;
    try (apply not_nan_spec; intros N;
         assert (Hn : Prim2SF x = S754_nan \/ Prim2SF y = S754_nan) by auto;
         apply Hnone in Hn; discriminate Hn).
  rewrite !is_nan_spec. apply Hnone. reflexivity.
Qed.

Lemma leb_refl (x : float) : is_nan x = false -> (x <=? x) = true.
Proof.
  intros H. rewrite leb_spec. unfold SFleb.
  rewrite SFcompare_refl; [ reflexivity | apply not_nan_spec; exact H ].
Qed.

Lemma leb_trans (x y z : float) :
  (x <=? y) = true -> (y <=? z) = true -> (x <=? z) = true.
Proof.
  rewrite !leb_spec. unfold SFleb.
  destruct (SFcompare (Prim2SF x) (Prim2SF y)) as [[ | | ]|] eqn:E1; try discriminate;
  destruct (SFcompare (Prim2SF y) (Prim2SF z)) as [[ | | ]|] eqn:E2; try discriminate;
  intros _ _.
  - rewrite (SFcompare_Eq_trans _ _ _ E1), E2. reflexivity.
  - rewrite (SFcompare_Eq_trans _ _ _ E1), E2. reflexivity.
  - rewrite (SFcompare_Lt_trans _ _ _ E1 (or_intror E2)). reflexivity.
  - rewrite (SFcompare_Lt_trans _ _ _ E1 (or_introl E2)). reflexivity.
Qed.

Lemma leb_not_nan (x y : float) :
  (x <=? y) = true -> is_nan x = false /\ is_nan y = false.
Proof.
  intros H. destruct (order x y) as [N| | | ]; auto; congruence.
Qed.

(** [Math.max] and [Math.min] of two numbers: one of them, and a bound of
    both. *)
Lemma Math_max_spec (a b : float) :
  is_nan a = false -> is_nan b = false ->
  (JS.Math_max a b = a \/ JS.Math_max a b = b)
  /\ (a <=? JS.Math_max a b) = true /\ (b <=? JS.Math_max a b) = true.
Proof.
  intros Ha Hb. unfold JS.Math_max. rewrite Ha, Hb. cbn [orb].
  destruct (order a b) as [[N|N] | | | ]; try congruence;
    repeat match goal with H : (_ <? _) = _ |- _ => rewrite H end.
  - repeat split; auto using leb_refl.
  - destruct (get_sign a); repeat split; auto using leb_refl.
  - repeat split; auto using leb_refl.
Qed.

Lemma Math_min_spec (a b : float) :
  is_nan a = false -> is_nan b = false ->
  (JS.Math_min a b = a \/ JS.Math_min a b = b)
  /\ (JS.Math_min a b <=? a) = true /\ (JS.Math_min a b <=? b) = true.
Proof.
  intros Ha Hb. unfold JS.Math_min. rewrite Ha, Hb. cbn [orb].
  destruct (order a b) as [[N|N] | | | ]; try congruence;
    repeat match goal with H : (_ <? _) = _ |- _ => rewrite H end.
  - repeat split; auto using leb_refl.
  - destruct (get_sign a); repeat split; auto using leb_refl.
  - repeat split; auto using leb_refl.
Qed.

Lemma Math_max_nan (a b : float) :
  is_nan a = true \/ is_nan b = true -> JS.Math_max a b = nan.
Proof.
  unfold JS.Math_max. intros [-> | ->]; rewrite ?orb_true_r; reflexivity.
Qed.

Lemma Math_min_nan (a b : float) :
  is_nan a = true \/ is_nan b = true -> JS.Math_min a b = nan.
Proof.
  unfold JS.Math_min. intros [-> | ->]; rewrite ?orb_true_r; reflexivity.
Qed.

Lemma Math_max_not_nan (a b : float) :
  is_nan a = false -> is_nan b = false -> is_nan (JS.Math_max a b) = false.
Proof.
  intros Ha Hb. destruct (Math_max_spec a b Ha Hb) as [[-> | ->] _]; assumption.
Qed.

Lemma Math_min_not_nan (a b : float) :
  is_nan a = false -> is_nan b = false -> is_nan (JS.Math_min a b) = false.
Proof.
  intros Ha Hb. destruct (Math_min_spec a b Ha Hb) as [[-> | ->] _]; assumption.
Qed.

End NumberFacts.

Section Clamp.
Local Open Scope float_scope.

Lemma clamped_from_below (s : float) : withinOrNaN 0 100 (JS.Math_min (JS.Math_max s 0) 100).
Proof.
  unfold withinOrNaN.
  destruct (is_nan s) eqn:Hs.
  - left. rewrite (Math_max_nan s 0) by auto. reflexivity.
  - right.
    destruct (Math_max_spec s 0 Hs eq_refl) as (_ & _ & H0).
    pose proof (Math_max_not_nan s 0 Hs eq_refl) as Hm.
    destruct (Math_min_spec (JS.Math_max s 0) 100 Hm eq_refl) as ([-> | ->] & _ & H100).
    + split; assumption.
    + split; reflexivity.
Qed.

Lemma clamped_from_above (s : float) : withinOrNaN 0 100 (JS.Math_max 0 (JS.Math_min 100 s)).
Proof.
  unfold withinOrNaN.
  destruct (is_nan s) eqn:Hs.
  - left. rewrite (Math_min_nan 100 s) by auto. reflexivity.
  - right.
    destruct (Math_min_spec 100 s eq_refl Hs) as (_ & H100 & _).
    pose proof (Math_min_not_nan 100 s eq_refl Hs) as Hm.
    destruct (Math_max_spec 0 (JS.Math_min 100 s) eq_refl Hm) as ([-> | ->] & H0 & _).
    + split; reflexivity.
    + split; assumption.
Qed.

End Clamp.

Section Cap.
Local Open Scope float_scope.

Lemma capped (s : float) : atMostOrNaN 100 (JS.Math_min s 100).
Proof.
  unfold atMostOrNaN.
  destruct (is_nan s) eqn:Hs.
  - left. rewrite (Math_min_nan s 100) by auto. reflexivity.
  - right. apply (Math_min_spec s 100 Hs eq_refl).
Qed.

Lemma zero_capped : atMostOrNaN 100 0.
Proof. right. reflexivity. Qed.

Lemma mul_nan_l (x y : float) : is_nan x = true -> is_nan (x * y) = true.
Proof.
  rewrite !is_nan_spec, mul_spec. intros ->. reflexivity.
Qed.

Lemma mul_nan_r (x y : float) : is_nan y = true -> is_nan (x * y) = true.
Proof.
  rewrite !is_nan_spec, mul_spec. intros ->. destruct (Prim2SF x); reflexivity.
Qed.

Lemma add_nan_l (x y : float) : is_nan x = true -> is_nan (x + y) = true.
Proof.
  rewrite !is_nan_spec, add_spec. intros ->. reflexivity.
Qed.

Lemma add_nan_r (x y : float) : is_nan y = true -> is_nan (x + y) = true.
Proof.
  rewrite !is_nan_spec, add_spec. intros ->. destruct (Prim2SF x); reflexivity.
Qed.

Lemma nan_not_below (x y : float) : is_nan x = true -> (x <? y) = false.
Proof.
  intros H. destruct (order x y) as [ | N | N | N ]; congruence.
Qed.

Lemma nan_not_above (x y : float) : is_nan x = true -> (y <=? x) = false.
Proof.
  intros H. destruct (order y x) as [ | ? N | ? N | ? N ]; congruence.
Qed.

Lemma nan_not_over (x y : float) : is_nan x = true -> (y <? x) = false.
Proof.
  intros H. destruct (order y x) as [ | ? N | ? N | ? N ]; congruence.
Qed.

End Cap.

Section ZeroFacts.
Local Open Scope float_scope.

(** A quotient of zero is a zero or NaN, and so is any multiple of it:
    never above a bound that is not negative. *)
Lemma zero_div (x y : float) : zeroOrNaN x -> zeroOrNaN (x / y).
Proof.
  unfold zeroOrNaN. rewrite div_spec.
  intros [-> | [s ->]]; [ left; reflexivity | ].
  destruct (Prim2SF y) as [sy|sy| |sy my ey]; cbn; eauto.
Qed.

Lemma zero_mul (x y : float) : zeroOrNaN x -> zeroOrNaN (x * y).
Proof.
  unfold zeroOrNaN. rewrite mul_spec.
  intros [-> | [s ->]]; [ left; reflexivity | ].
  destruct (Prim2SF y) as [sy|sy| |sy my ey]; cbn; eauto.
Qed.

Lemma zero_is_zero : zeroOrNaN 0.
Proof. right. exists false. reflexivity. Qed.

Lemma zero_not_above (x c : float) :
  zeroOrNaN x -> (0 <=? c) = true -> (c <? x) = false.
Proof.
  unfold zeroOrNaN. rewrite ltb_spec, leb_spec. unfold SFltb, SFleb.
  change (Prim2SF 0) with (S754_zero false).
  intros [-> | [s ->]]; destruct (Prim2SF c) as [sc|sc| |sc mc ec];
    try destruct sc; cbn; try reflexivity; discriminate.
Qed.

End ZeroFacts.

(* ===================================================================== *)
(** ** Trust score: ranges, authenticity, confidence *)
(* ===================================================================== *)

Section TrustRange.
Import Trust.
Context {host : Host}.
Local Open Scope string_scope.
Local Open Scope float_scope.

(** X1: the total of [calculateTrustScore] and the scores of its four
    components are within [[0, 100]] or NaN, for every account, pattern,
    config and clock: each is clamped by [Math.min(Math.max(., 0), 100)]
    (or is the constant 0 of a pattern without PRs), and only NaN passes
    a clamp. *)
Theorem trust_scores_are_clamped
  (account : GitHubAccount.t) (pattern : ContributionPattern.t)
  (config : option TrustScoreConfig.t) (clock : Clock) :
  let r := runWith clock (calculateTrustScore account pattern config) in
  withinOrNaN 0 100 (totalScore r)
  /\ withinOrNaN 0 100 (score (Components.accountAuthenticity (components r)))
  /\ withinOrNaN 0 100 (score (Components.contributionAuthenticity (components r)))
  /\ withinOrNaN 0 100 (score (Components.collaborationSignals (components r)))
  /\ withinOrNaN 0 100 (score (Components.antiGamingScore (components r))).
Proof.
  unfold runWith, calculateTrustScore, calculateAccountAuthenticity.
  cbn [bind Monad_state runState newDate ret fst totalScore components score
       Components.accountAuthenticity Components.contributionAuthenticity
       Components.collaborationSignals Components.antiGamingScore].
  split; [ apply clamped_from_below | ].
  split; [ apply clamped_from_below | ].
  split; [ | split ].
  - unfold calculateContributionAuthenticity.
    destruct (_ === 0); cbn [score]; [ right; split; reflexivity | apply clamped_from_below ].
  - unfold calculateCollaborationSignals.
    destruct (_ === 0); cbn [score]; [ right; split; reflexivity | apply clamped_from_below ].
  - unfold calculateAntiGamingScore. cbn [score]. apply clamped_from_below.
Qed.

End TrustRange.

Section TrustAuthenticity.
Import Trust.
Context {host : Host}.
Local Open Scope string_scope.
Local Open Scope float_scope.

Lemma clamp_keeps_floor (s lo : float) :
  (lo <=? s) = true -> (lo <=? 100) = true ->
  (lo <=? JS.Math_min (JS.Math_max s 0) 100) = true.
Proof.
  intros Hs Hlo.
  destruct (leb_not_nan _ _ Hs) as [_ Hn].
  destruct (Math_max_spec s 0 Hn eq_refl) as (_ & Hle & _).
  pose proof (Math_max_not_nan s 0 Hn eq_refl) as Hm.
  destruct (Math_min_spec (JS.Math_max s 0) 100 Hm eq_refl) as ([-> | ->] & _).
  - apply (leb_trans _ _ _ Hs Hle).
  - exact Hlo.
Qed.

Lemma not_in_pushIf (b : bool) (s x : string) (xs : list string) :
  x <> s -> ~ In x xs -> ~ In x (pushIf b s xs).
Proof.
  intros Hne Hxs Hin. apply in_pushIf in Hin. destruct Hin; contradiction.
Qed.

(** X2: a result of [calculateTrustScore] that is authentic has a total of
    at least 60, no fork-farming flag, fewer than three red flags, and no
    "Fork-only contributions detected" among them. *)
Theorem authentic_means_60_and_no_fork_farming
  (account : GitHubAccount.t) (pattern : ContributionPattern.t)
  (config : option TrustScoreConfig.t) (clock : Clock) :
  let r := runWith clock (calculateTrustScore account pattern config) in
  isAuthentic r = true ->
  (60 <=? totalScore r) = true
  /\ forkFarming (spamDetection r) = false
  /\ (List.length (redFlags r) < 3)%nat
  /\ ~ In "Fork-only contributions detected" (redFlags r).
Proof.
  unfold runWith, calculateTrustScore.
  cbn [bind Monad_state runState].
  destruct (runState (calculateAccountAuthenticity _ _ _) clock) as [accountAuth clock1].
  cbn [newDate runState ret Monad_state fst spamDetection isAuthentic redFlags totalScore].
  intros H. apply andb_prop in H. destruct H as [H Hfarm].
  apply andb_prop in H. destruct H as [H60 Hflags].
  apply negb_true_iff in Hfarm.
  split; [ apply clamp_keeps_floor; [ exact H60 | reflexivity ] | ].
  split; [ exact Hfarm | ].
  split; [ apply Nat.ltb_lt; exact Hflags | ].
  rewrite Hfarm. cbn [pushIf].
  repeat (apply not_in_pushIf; [ discriminate | ]).
  intros [].
Qed.

(** X3: the confidence of [calculateTrustScore] does not depend on the
    account, the config or the clock; it is 100 less 30, 20 and 25 for few
    PRs, a short span and a single repository, hence one of eight values,
    never below 25, and 100 exactly when none of the three tests fires. *)
Theorem confidence_depends_on_the_pattern_only
  (account account' : GitHubAccount.t) (pattern : ContributionPattern.t)
  (config config' : option TrustScoreConfig.t) (clock clock' : Clock) :
  let r := runWith clock (calculateTrustScore account pattern config) in
  let r' := runWith clock' (calculateTrustScore account' pattern config') in
  confidence r = confidence r'
  /\ In (confidence r) [100; 80; 75; 70; 55; 50; 45; 25]
  /\ (25 <=? confidence r) = true
  /\ (confidence r = 100 <->
      (ContributionPattern.totalPRs pattern <? 5) = false
      /\ (contributionSpanDays pattern <? 30) = false
      /\ (ContributionPattern.uniqueRepositories pattern <? 2) = false).
Proof.
  unfold runWith, calculateTrustScore.
  cbn [bind Monad_state runState].
  destruct (runState (calculateAccountAuthenticity account _ _) clock) as [accountAuth clock1].
  destruct (runState (calculateAccountAuthenticity account' _ _) clock') as [accountAuth' clock1'].
  cbn [newDate runState ret Monad_state fst confidence].
  split; [ reflexivity | ].
  destruct (ContributionPattern.totalPRs pattern <? 5);
    destruct (contributionSpanDays pattern <? 30);
    destruct (ContributionPattern.uniqueRepositories pattern <? 2);
    (split; [ vm_compute; tauto | ]);
    (split; [ reflexivity | ]);
    (split; [ intros H; try (vm_compute in H; discriminate H);
              try (repeat split; reflexivity)
            | intros (H1 & H2 & H3); try discriminate; reflexivity ]).
Qed.

End TrustAuthenticity.

(* ===================================================================== *)
(** ** Impact score: the filters, the counts, the ranking *)
(* ===================================================================== *)

Section MapFacts.
Context {K V : Type} (eqb : K -> K -> bool).
Hypothesis eqb_eq : forall a b, eqb a b = true <-> a = b.

Lemma eqb_refl' a : eqb a a = true.
Proof. apply eqb_eq. reflexivity. Qed.

Lemma eqb_neq a b : a <> b -> eqb a b = false.
Proof.
  intros H. destruct (eqb a b) eqn:E; [ | reflexivity ].
  apply eqb_eq in E. contradiction.
Qed.

Lemma Map_get_set (k k' : K) (v : V) (m : list (K * V)) :
  JS.Map_get eqb k (JS.Map_set eqb k' v m)
  = if eqb k k' then Some v else JS.Map_get eqb k m.
Proof.
  induction m as [| [k0 v0] m IH]; cbn.
  - destruct (eqb k k'); reflexivity.
  - destruct (eqb k' k0) eqn:E0; cbn.
    + apply eqb_eq in E0. subst k0. destruct (eqb k k'); reflexivity.
    + destruct (eqb k k0) eqn:E1.
      * apply eqb_eq in E1. subst k0.
        destruct (eqb k k') eqn:E2; [ | reflexivity ].
        apply eqb_eq in E2. subst k'. rewrite eqb_refl' in E0. discriminate.
      * exact IH.
Qed.

Lemma Map_set_keys (k : K) (v : V) (m : list (K * V)) :
  map fst (JS.Map_set eqb k v m)
  = if existsb (eqb k) (map fst m) then map fst m else map fst m ++ [k].
Proof.
  induction m as [| [k0 v0] m IH]; cbn; [ reflexivity | ].
  destruct (eqb k k0) eqn:E; cbn; [ reflexivity | ].
  rewrite IH. destruct (existsb (eqb k) (map fst m)); reflexivity.
Qed.

Lemma Map_get_In (k : K) (v : V) (m : list (K * V)) :
  NoDup (map fst m) -> In (k, v) m -> JS.Map_get eqb k m = Some v.
Proof.
  induction m as [| [k0 v0] m IH]; cbn; [ contradiction | ].
  intros Hnd [H | H].
  - injection H as -> ->. rewrite eqb_refl'. reflexivity.
  - inversion Hnd as [| ? ? Hnotin Hnd']; subst.
    destruct (eqb k k0) eqn:E.
    + apply eqb_eq in E. subst k0. exfalso. apply Hnotin.
      change k with (fst (k, v)). apply in_map. exact H.
    + apply IH; assumption.
Qed.

Lemma existsb_eqb_In (k : K) (ks : list K) : existsb (eqb k) ks = true <-> In k ks.
Proof.
  rewrite existsb_exists. split.
  - intros (x & Hin & E). apply eqb_eq in E. subst. exact Hin.
  - intros H. exists k. split; [ exact H | apply eqb_refl' ].
Qed.

Lemma Map_set_NoDup (k : K) (v : V) (m : list (K * V)) :
  NoDup (map fst m) -> NoDup (map fst (JS.Map_set eqb k v m)).
Proof.
  intros H. rewrite Map_set_keys.
  destruct (existsb (eqb k) (map fst m)) eqn:E; [ exact H | ].
  apply NoDup_app; [ exact H | constructor; [ intros [] | constructor ] | ].
  intros x Hx [<- | []].
  apply existsb_eqb_In in Hx. congruence.
Qed.

End MapFacts.

Lemma Z_eqb_eq' : forall a b : Z, Z.eqb a b = true <-> a = b.
Proof. exact Z.eqb_eq. Qed.

Lemma String_eqb_eq' : forall a b : string, String.eqb a b = true <-> a = b.
Proof. exact String.eqb_eq. Qed.

Section ImpactCounts.
Import Impact.
Context {host : Host}.
Local Open Scope float_scope.

(** The bucket of a day holds the PRs merged on that day, in order. *)
Lemma groupByDay_get (prs : list PR.t) (k : Z) :
  pick (JS.Map_get Z.eqb k (groupByDay prs)) []
  = filter (fun q => Z.eqb (dayKey (PR.mergedAt q)) k) prs.
Proof.
  unfold groupByDay.
  enough (H : forall acc,
    pick (JS.Map_get Z.eqb k
            (fold_left
               (fun prsByDay pr =>
                  let k := dayKey (PR.mergedAt pr) in
                  let bucket := pick (JS.Map_get Z.eqb k prsByDay) [] in
                  JS.Map_set Z.eqb k (bucket ++ [pr]) prsByDay) prs acc)) []
    = pick (JS.Map_get Z.eqb k acc) []
      ++ filter (fun q => Z.eqb (dayKey (PR.mergedAt q)) k) prs)
    by (rewrite H; reflexivity).
  induction prs as [| pr prs IH]; intros acc; cbn [fold_left filter].
  - rewrite app_nil_r. reflexivity.
  - rewrite IH. cbn zeta. rewrite (Map_get_set Z.eqb Z_eqb_eq').
    rewrite (Z.eqb_sym k).
    destruct (Z.eqb (dayKey (PR.mergedAt pr)) k) eqn:E.
    + apply Z.eqb_eq in E. rewrite E. cbn [pick]. rewrite <- app_assoc. reflexivity.
    + reflexivity.
Qed.

(** X4: [filterSpamPRs] keeps the order of the PRs and sends a PR to [spam]
    exactly when it changes fewer files than [minPRSize] or more than
    [maxPRFrequency] PRs of the list were merged on its day.  So two PRs of
    one day that are large enough share their fate: a busy day is dropped
    whole, however large its PRs. *)
Theorem busy_days_are_dropped_whole (prs : list PR.t) (config : Config.t) :
  let tooSmall pr := PR.filesChanged pr <? Config.minPRSize config in
  let busyDay pr :=
    JS.of_nat (List.length (mergedOnTheDayOf pr prs)) >? Config.maxPRFrequency config in
  let split := filterSpamPRs prs config in
  valid split = filter (fun pr => negb (tooSmall pr || busyDay pr)) prs
  /\ spam split = filter (fun pr => tooSmall pr || busyDay pr) prs
  /\ (forall p q,
        Z.eqb (dayKey (PR.mergedAt p)) (dayKey (PR.mergedAt q)) = true ->
        tooSmall p = false -> tooSmall q = false ->
        isSpamPR (groupByDay prs) config p = isSpamPR (groupByDay prs) config q).
Proof.
  cbn zeta.
  assert (Hspam : forall pr,
    isSpamPR (groupByDay prs) config pr
    = (PR.filesChanged pr <? Config.minPRSize config)
      || (JS.of_nat (List.length (mergedOnTheDayOf pr prs)) >? Config.maxPRFrequency config)).
  { intros pr. unfold isSpamPR. rewrite groupByDay_get.
    destruct (PR.filesChanged pr <? Config.minPRSize config); reflexivity. }
  unfold filterSpamPRs; cbn [valid spam].
  split; [ | split ].
  - apply filter_ext. intros pr. rewrite Hspam. reflexivity.
  - apply filter_ext. exact Hspam.
  - intros p q Hday Hp Hq. rewrite !Hspam, Hp, Hq. cbn [orb].
    apply Z.eqb_eq in Hday. unfold mergedOnTheDayOf. rewrite Hday. reflexivity.
Qed.

Lemma set_add_length (s : string) (xs : list string) :
  (List.length (JS.set_add s xs) <= S (List.length xs))%nat.
Proof.
  unfold JS.set_add. destruct (JS.mem s xs); [ lia | ].
  rewrite length_app. cbn. lia.
Qed.

Lemma set_of_length (xs : list string) :
  (List.length (JS.set_of xs) <= List.length xs)%nat.
Proof.
  unfold JS.set_of.
  enough (H : forall acc,
    (List.length (fold_left (fun acc s => JS.set_add s acc) xs acc)
     <= List.length acc + List.length xs)%nat) by apply (H []).
  induction xs as [| x xs IH]; intros acc; cbn [fold_left List.length]; [ lia | ].
  specialize (IH (JS.set_add x acc)). pose proof (set_add_length x acc). lia.
Qed.

(** X5: in the signals of [calculateImpactScore], [totalMergedPRs] is the
    sum of [selfMergedPRs], [spamPRs] and the number of PRs that are scored;
    [activeRepositories] is at most that number; and when no PR is left to
    score there is no active repository, no top repository and no recent
    activity. *)
Theorem every_merged_PR_is_counted_once
  (a : GitHubActivity.t) (config : option ImpactScoreConfig.t) (clock : Clock) :
  let r := runWith clock (calculateImpactScore a config) in
  let s := signals r in
  (Signals.totalMergedPRs s
   = Signals.selfMergedPRs s + Signals.spamPRs s + List.length (cleanPRs a config))%nat
  /\ (Signals.activeRepositories s <= List.length (cleanPRs a config))%nat
  /\ (cleanPRs a config = [] ->
      Signals.activeRepositories s = 0%nat
      /\ Explainability.topContributingRepos (explainability r) = []
      /\ Explainability.recentActivity (explainability r) = []).
Proof.
  unfold runWith, calculateImpactScore, cleanPRs. cbv zeta.
  set (prs := GitHubActivity.mergedPRs a).
  set (clean := valid (filterSpamPRs (validPRs (filterSelfMergedPRs prs)) (fullConfig config))).
  cbn [bind Monad_state runState].
  destruct (runState (calculatePRImpactScore _ _ _) clock) as [prImpact clock1] eqn:E1.
  destruct (runState (mapClock _ _) clock1) as [recent clock2] eqn:E2.
  cbn [fst ret Monad_state runState signals explainability
       Signals.selfMergedPRs Signals.totalMergedPRs Signals.spamPRs
       Signals.activeRepositories
       Explainability.topContributingRepos Explainability.recentActivity].
  split; [ | split ].
  - unfold clean, filterSpamPRs, filterSelfMergedPRs; cbn [valid spam validPRs selfMerged].
    set (kept := filter (fun pr => negb (isSelfMerged pr)) prs).
    pose proof (filter_split_length isSelfMerged prs) as H1.
    pose proof (filter_split_length (isSpamPR (groupByDay kept) (fullConfig config)) kept)
      as H2.
    fold kept in H1. lia.
  - unfold uniqueRepoCount.
    pose proof (set_of_length (map PR.repository clean)) as H.
    rewrite length_map in H. exact H.
  - intros Hclean. fold clean in E2. rewrite Hclean in *.
    cbn in E2. injection E2 as <- _.
    repeat split.
Qed.

(** [repoContributions]: one entry per repository, holding the number of
    PRs merged into it. *)
Lemma countByRepo_get (prs : list PR.t) (k : string) :
  JS.Map_get String.eqb k (countByRepo prs)
  = match List.length (mergedInto k prs) with
    | O => None
    | S n => Some (S n)
    end.
Proof.
  unfold countByRepo.
  enough (H : forall acc,
    JS.Map_get String.eqb k
      (fold_left
         (fun repoContributions pr =>
            let k := PR.repository pr in
            JS.Map_set String.eqb k
              (pick (JS.Map_get String.eqb k repoContributions) O + 1)%nat
              repoContributions) prs acc)
    = match JS.Map_get String.eqb k acc, List.length (mergedInto k prs) with
      | Some c, n => Some (c + n)%nat
      | None, O => None
      | None, S n => Some (S n)
      end) by (rewrite H; reflexivity).
  induction prs as [| pr prs IH]; intros acc; cbn [fold_left mergedInto filter List.length].
  - destruct (JS.Map_get String.eqb k acc); [ rewrite Nat.add_0_r | ]; reflexivity.
  - rewrite IH. cbn zeta. rewrite (Map_get_set String.eqb String_eqb_eq').
    rewrite (String.eqb_sym k).
    fold (mergedInto k prs).
    destruct (String.eqb (PR.repository pr) k) eqn:E.
    + apply String.eqb_eq in E. rewrite E. cbn [List.length].
      destruct (JS.Map_get String.eqb k acc) as [c |]; cbn [pick]; f_equal; lia.
    + reflexivity.
Qed.

Lemma countByRepo_keys (prs : list PR.t) :
  map fst (countByRepo prs) = JS.set_of (map PR.repository prs).
Proof.
  unfold countByRepo, JS.set_of.
  enough (H : forall acc,
    map fst
      (fold_left
         (fun repoContributions pr =>
            let k := PR.repository pr in
            JS.Map_set String.eqb k
              (pick (JS.Map_get String.eqb k repoContributions) O + 1)%nat
              repoContributions) prs acc)
    = fold_left (fun acc s => JS.set_add s acc) (map PR.repository prs) (map fst acc))
    by apply (H []).
  induction prs as [| pr prs IH]; intros acc; cbn [fold_left map]; [ reflexivity | ].
  rewrite IH. cbn zeta. rewrite Map_set_keys. reflexivity.
Qed.

Lemma countByRepo_NoDup (prs : list PR.t) : NoDup (map fst (countByRepo prs)).
Proof.
  unfold countByRepo.
  enough (H : forall acc, NoDup (map fst acc) ->
    NoDup (map fst
      (fold_left
         (fun repoContributions pr =>
            let k := PR.repository pr in
            JS.Map_set String.eqb k
              (pick (JS.Map_get String.eqb k repoContributions) O + 1)%nat
              repoContributions) prs acc)))
    by (apply H; constructor).
  induction prs as [| pr prs IH]; intros acc Hacc; cbn [fold_left]; [ exact Hacc | ].
  apply IH. apply (Map_set_NoDup String.eqb String_eqb_eq'). exact Hacc.
Qed.

(** The sort of [topContributingRepos]: a rearrangement, in descending
    order of [prCount]. *)
Lemma insertByCount_perm (x : TopRepo) (l : list TopRepo) :
  Permutation (insertByCount x l) (x :: l).
Proof.
  induction l as [| y l IH]; cbn [insertByCount]; [ reflexivity | ].
  destruct (prCount x <? prCount y)%nat; [ | reflexivity ].
  rewrite IH. apply perm_swap.
Qed.

Lemma sortByCount_perm (l : list TopRepo) : Permutation (sortByCount l) l.
Proof.
  induction l as [| x l IH]; cbn [sortByCount fold_right]; [ reflexivity | ].
  fold (sortByCount l).
  rewrite insertByCount_perm. constructor. exact IH.
Qed.

Lemma insertByCount_sorted (x : TopRepo) (l : list TopRepo) :
  Sorted ranked l -> Sorted ranked (insertByCount x l).
Proof.
  induction l as [| y l IH]; cbn [insertByCount]; intros Hs.
  - repeat constructor.
  - destruct (prCount x <? prCount y)%nat eqn:E.
    + apply Nat.ltb_lt in E.
      inversion Hs as [| ? ? Hs' Hhd]; subst.
      constructor; [ apply IH; exact Hs' | ].
      destruct l as [| z l]; cbn [insertByCount].
      * constructor. unfold ranked. lia.
      * destruct (prCount x <? prCount z)%nat.
        -- inversion Hhd; subst. constructor. assumption.
        -- constructor. unfold ranked. lia.
    + apply Nat.ltb_ge in E.
      constructor; [ exact Hs | ]. constructor. exact E.
Qed.

Lemma sortByCount_sorted (l : list TopRepo) : Sorted ranked (sortByCount l).
Proof.
  induction l as [| x l IH]; cbn [sortByCount fold_right]; [ constructor | ].
  fold (sortByCount l).
  apply insertByCount_sorted. exact IH.
Qed.

Lemma Sorted_firstn {A : Type} (R : A -> A -> Prop) (n : nat) (l : list A) :
  Sorted R l -> Sorted R (firstn n l).
Proof.
  revert l. induction n as [| n IH]; intros l Hs; [ constructor | ].
  destruct l as [| x l]; [ constructor | ].
  cbn. inversion Hs as [| ? ? Hs' Hhd]; subst.
  constructor; [ apply IH; exact Hs' | ].
  destruct n; [ constructor | ].
  destruct l as [| y l]; [ constructor | ].
  cbn. inversion Hhd; subst. constructor. assumption.
Qed.

Lemma In_firstn {A : Type} (n : nat) (l : list A) (x : A) :
  In x (firstn n l) -> In x l.
Proof.
  intros H. rewrite <- (firstn_skipn n l). apply in_or_app. left. exact H.
Qed.

Lemma NoDup_firstn {A : Type} (n : nat) (l : list A) :
  NoDup l -> NoDup (firstn n l).
Proof.
  intros H. rewrite <- (firstn_skipn n l) in H.
  apply NoDup_app_remove_r in H. exact H.
Qed.

(** X6: [explainability.topContributingRepos] lists
    [min(10, activeRepositories)] repositories, each once, in descending
    order of [prCount]; the [prCount] of an entry is the number of scored
    PRs merged into its repository (at least one) and its [score] is ten
    times that; with at most ten active repositories, the repository of
    every scored PR is listed. *)
Theorem top_repositories_are_ranked
  (a : GitHubActivity.t) (config : option ImpactScoreConfig.t) (clock : Clock) :
  let r := runWith clock (calculateImpactScore a config) in
  let tops := Explainability.topContributingRepos (explainability r) in
  List.length tops = Nat.min 10 (Signals.activeRepositories (signals r))
  /\ StronglySorted ranked tops
  /\ NoDup (map repo tops)
  /\ (forall t, In t tops ->
        prCount t = List.length (mergedInto (repo t) (cleanPRs a config))
        /\ (0 < prCount t)%nat
        /\ repoScore t = JS.of_nat (prCount t) * 10)
  /\ ((Signals.activeRepositories (signals r) <= 10)%nat ->
      forall pr, In pr (cleanPRs a config) -> In (PR.repository pr) (map repo tops)).
Proof.
  unfold runWith, calculateImpactScore, cleanPRs. cbv zeta.
  set (clean := valid (filterSpamPRs
                         (validPRs (filterSelfMergedPRs (GitHubActivity.mergedPRs a)))
                         (fullConfig config))).
  cbn [bind Monad_state runState].
  destruct (runState (calculatePRImpactScore _ _ _) clock) as [prImpact clock1] eqn:E1.
  destruct (runState (mapClock _ _) clock1) as [recent clock2] eqn:E2.
  cbn [fst ret Monad_state runState signals explainability Signals.activeRepositories
       Explainability.topContributingRepos].
  set (entry := fun '(repo, count) => mkTopRepo repo count (JS.of_nat count * 10)).
  set (entries := map entry (countByRepo clean)).
  assert (Hrepo : map repo entries = map fst (countByRepo clean)).
  { unfold entries. rewrite map_map. apply map_ext. intros [k c]. reflexivity. }
  assert (Hperm : Permutation (map repo (sortByCount entries)) (map fst (countByRepo clean))).
  { rewrite <- Hrepo. apply Permutation_map. apply sortByCount_perm. }
  assert (Hlen : List.length (sortByCount entries) = uniqueRepoCount clean).
  { rewrite (Permutation_length (sortByCount_perm entries)).
    unfold entries, uniqueRepoCount.
    rewrite length_map, <- countByRepo_keys, length_map. reflexivity. }
  split; [ | split; [ | split; [ | split ] ] ].
  - rewrite length_firstn, Hlen. reflexivity.
  - apply Sorted_StronglySorted.
    + intros x y z Hxy Hyz. unfold ranked in *. lia.
    + apply Sorted_firstn. apply sortByCount_sorted.
  - rewrite <- firstn_map. apply NoDup_firstn.
    apply (Permutation_NoDup (Permutation_sym Hperm)). apply countByRepo_NoDup.
  - intros t Ht. apply In_firstn in Ht.
    apply (Permutation_in _ (sortByCount_perm entries)) in Ht.
    unfold entries in Ht. apply in_map_iff in Ht. destruct Ht as ([k c] & <- & Hin).
    cbn [entry repo prCount repoScore].
    apply (Map_get_In String.eqb String_eqb_eq') in Hin; [ | apply countByRepo_NoDup ].
    rewrite countByRepo_get in Hin.
    destruct (List.length (mergedInto k clean)) as [| n]; [ discriminate | ].
    injection Hin as <-. repeat split. lia.
  - intros Hfew pr Hpr.
    rewrite firstn_all2 by (rewrite Hlen; exact Hfew).
    apply (Permutation_in _ (Permutation_sym Hperm)).
    rewrite countByRepo_keys.
    destruct (JS.Map_get String.eqb (PR.repository pr) (countByRepo clean)) as [c |] eqn:G.
    + rewrite <- countByRepo_keys.
      clear - G. induction (countByRepo clean) as [| [k0 c0] m IH]; [ discriminate | ].
      cbn in *. destruct (String.eqb (PR.repository pr) k0) eqn:E.
      * left. apply String.eqb_eq in E. congruence.
      * right. apply IH. exact G.
    + rewrite countByRepo_get in G.
      assert (Hin : In pr (mergedInto (PR.repository pr) clean)).
      { unfold mergedInto. apply filter_In. split; [ exact Hpr | apply String.eqb_refl ]. }
      destruct (mergedInto (PR.repository pr) clean); [ destruct Hin | discriminate ].
Qed.

End ImpactCounts.

Section TopContribution.
Import Impact.
Context {host : Host}.
Local Open Scope string_scope.

Lemma Map_get_some_In {K V : Type} (eqb : K -> K -> bool) (k : K) (v : V) (m : list (K * V)) :
  (forall a b, eqb a b = true <-> a = b) ->
  JS.Map_get eqb k m = Some v -> In (k, v) m.
Proof.
  intros Heq. induction m as [| [k0 v0] m IH]; cbn; [ discriminate | ].
  destruct (eqb k k0) eqn:E.
  - apply Heq in E. subst k0. intros H. injection H as ->. left. reflexivity.
  - intros H. right. apply IH. exact H.
Qed.

Lemma sortByCount_strongly_sorted (l : list TopRepo) : StronglySorted ranked (sortByCount l).
Proof.
  apply Sorted_StronglySorted.
  - intros x y z Hxy Hyz. unfold ranked in *. lia.
  - apply sortByCount_sorted.
Qed.

(** X7: the impact indicators of the explanation, on a result of
    [calculateImpactScore]: the key contributions are the two count lines
    and, when a PR was scored, a "Top contribution" line that names a
    repository with the most scored PRs, and its count; without a top
    repository no PR was scored and only the two count lines are shown. *)
Theorem top_contribution_names_a_busiest_repository
  (a : GitHubActivity.t) (config : option ImpactScoreConfig.t) (clock : Clock) :
  let r := runWith clock (calculateImpactScore a config) in
  let shown := Explanation.keyContributions (Explanation.extractImpactIndicators r) in
  let merged := JS.decimal (Signals.totalMergedPRs (signals r)) ++ " merged PRs" in
  let active :=
    JS.decimal (Signals.activeRepositories (signals r)) ++ " active repositories" in
  match Explainability.topContributingRepos (explainability r) with
  | [] => cleanPRs a config = [] /\ shown = [merged; active]
  | top :: _ =>
      shown = [ merged; active;
                "Top contribution: " ++ repo top ++ " (" ++ JS.decimal (prCount top)
                ++ " PRs)" ]
      /\ prCount top = List.length (mergedInto (repo top) (cleanPRs a config))
      /\ (forall other,
            (List.length (mergedInto other (cleanPRs a config)) <= prCount top)%nat)
  end.
Proof.
  cbv zeta. unfold Explanation.extractImpactIndicators. cbv zeta.
  cbn [Explanation.keyContributions].
  unfold runWith, calculateImpactScore, cleanPRs. cbv zeta.
  set (clean := valid (filterSpamPRs
                         (validPRs (filterSelfMergedPRs (GitHubActivity.mergedPRs a)))
                         (fullConfig config))).
  cbn [bind Monad_state runState].
  destruct (runState (calculatePRImpactScore _ _ _) clock) as [prImpact clock1] eqn:E1.
  destruct (runState (mapClock _ _) clock1) as [recent clock2] eqn:E2.
  cbn [fst ret Monad_state runState signals explainability Signals.activeRepositories
       Signals.totalMergedPRs Explainability.topContributingRepos].
  set (entry := fun '(repo, count) => mkTopRepo repo count (JS.of_nat count * 10)%float).
  set (entries := map entry (countByRepo clean)).
  pose proof (sortByCount_strongly_sorted entries) as Hsorted.
  pose proof (sortByCount_perm entries) as Hperm.
  assert (Hentry : forall k n, List.length (mergedInto k clean) = S n ->
                               In (entry (k, S n)) (sortByCount entries)).
  { intros k n Hn.
    apply (Permutation_in _ (Permutation_sym Hperm)).
    unfold entries. apply in_map.
    apply (Map_get_some_In String.eqb); [ exact String.eqb_eq | ].
    rewrite countByRepo_get, Hn. reflexivity. }
  destruct (sortByCount entries) as [| top rest] eqn:Hs; cbn [firstn].
  - split; [ | reflexivity ].
    destruct clean as [| pr prs]; [ reflexivity | exfalso ].
    destruct (List.length (mergedInto (PR.repository pr) (pr :: prs))) as [| n] eqn:Hn.
    + unfold mergedInto in Hn. cbn [filter] in Hn. rewrite String.eqb_refl in Hn.
      discriminate Hn.
    + apply (Hentry _ _ Hn).
  - split; [ reflexivity | ].
    assert (Htop : In top entries)
      by (apply (Permutation_in _ Hperm); left; reflexivity).
    unfold entries in Htop. apply in_map_iff in Htop.
    destruct Htop as ([k c] & <- & Hin). cbn [entry repo prCount].
    apply (Map_get_In String.eqb String_eqb_eq') in Hin; [ | apply countByRepo_NoDup ].
    rewrite countByRepo_get in Hin.
    split.
    + destruct (List.length (mergedInto k clean)); [ discriminate | ].
      injection Hin as <-. reflexivity.
    + intros other.
      destruct (List.length (mergedInto other clean)) as [| n] eqn:Hn; [ lia | ].
      specialize (Hentry _ _ Hn). destruct Hentry as [Heq | Hrest].
      * apply (f_equal prCount) in Heq. cbn [entry prCount] in Heq. lia.
      * inversion Hsorted as [| ? ? _ Hall]; subst.
        rewrite Forall_forall in Hall. apply Hall in Hrest. exact Hrest.
Qed.

End TopContribution.

Section ImpactRange.
Import Impact.
Context {host : Host}.
Local Open Scope float_scope.

(** X8: the total of [calculateImpactScore] is within [[0, 100]] or NaN,
    and the score of each of its four components is at most 100 or NaN:
    the components are capped by [Math.min(., 100)] only, the total is
    clamped on both sides. *)
Theorem impact_scores_are_capped
  (a : GitHubActivity.t) (config : option ImpactScoreConfig.t) (clock : Clock) :
  let r := runWith clock (calculateImpactScore a config) in
  withinOrNaN 0 100 (totalScore r)
  /\ atMostOrNaN 100 (score (Components.prImpact (components r)))
  /\ atMostOrNaN 100 (score (Components.collaboration (components r)))
  /\ atMostOrNaN 100 (score (Components.longevity (components r)))
  /\ atMostOrNaN 100 (score (Components.quality (components r))).
Proof.
  unfold runWith, calculateImpactScore. cbv zeta.
  set (clean := valid _).
  cbn [bind Monad_state runState].
  destruct (runState (calculatePRImpactScore _ _ _) clock) as [prImpact clock1] eqn:E1.
  destruct (runState (mapClock _ _) clock1) as [recent clock2] eqn:E2.
  cbn [fst ret Monad_state runState totalScore components Components.prImpact
       Components.collaboration Components.longevity Components.quality].
  split; [ apply clamped_from_below | ].
  split; [ | split; [ | split ] ].
  - unfold calculatePRImpactScore in E1.
    destruct (List.length clean =? 0)%nat.
    + cbn in E1. injection E1 as <- _. apply zero_capped.
    + cbn [bind Monad_state runState newDate ret] in E1. injection E1 as <- _.
      cbn [score]. apply capped.
  - unfold calculateCollaborationScore.
    destruct (List.length clean =? 0)%nat; cbn [score]; [ apply zero_capped | apply capped ].
  - unfold calculateLongevityScore.
    destruct (List.length clean =? 0)%nat; cbn [score]; [ apply zero_capped | apply capped ].
  - unfold calculateQualityScore.
    destruct (List.length clean =? 0)%nat; cbn [score]; [ apply zero_capped | apply capped ].
Qed.

End ImpactRange.

(* ===================================================================== *)
(** ** Role compatibility: the level and the depth counts *)
(* ===================================================================== *)

Section CompatibilityLevel.
Import Compatibility.
Local Open Scope float_scope.

(** X9: the total of [calculateCompatibilityScore] is within [[0, 100]] or
    NaN, and the level is read off it: [high] from 75, [medium] from 50,
    [low] from 25, [poor] below 25 and when the total is NaN. *)
Theorem compatibility_level_follows_the_total (activity : EngineerActivity.t) (query : RoleQuery) :
  let r := calculateCompatibilityScore activity query in
  let t := totalScore r in
  withinOrNaN 0 100 t
  /\ match compatibilityLevel r with
     | high => (75 <=? t) = true
     | medium => (50 <=? t) = true /\ (t <? 75) = true
     | low => (25 <=? t) = true /\ (t <? 50) = true
     | poor => is_nan t = true \/ (t <? 25) = true
     end.
Proof.
  cbv zeta.
  unfold calculateCompatibilityScore. cbv zeta. cbn [totalScore compatibilityLevel].
  set (t := JS.Math_max 0 _).
  split; [ apply clamped_from_above | ].
  unfold JS.geb.
  destruct (order 75 t) as [ [N|N] | | | ]; try discriminate N;
    repeat match goal with H : (75 <=? t) = _ |- _ => rewrite H end; auto.
  - rewrite (nan_not_above t 50 N), (nan_not_above t 25 N). auto.
  - destruct (order 50 t) as [ [N|N] | | | ]; try discriminate N; try congruence;
      repeat match goal with H : (50 <=? t) = _ |- _ => rewrite H end; auto.
    destruct (order 25 t) as [ [N|N] | | | ]; try discriminate N; try congruence;
      repeat match goal with H : (25 <=? t) = _ |- _ => rewrite H end; auto.
Qed.

Lemma relevantPRs_bound (prs : list PR.t) (r : RoleType) (f : nat -> PR.t -> nat) (n : nat) :
  (forall k pr, k <= f k pr <= k + 2)%nat ->
  (fold_left f prs n <= n + 2 * List.length prs)%nat.
Proof.
  intros Hf. revert n.
  induction prs as [| pr prs IH]; intros n; cbn [fold_left List.length]; [ lia | ].
  specialize (IH (f n pr)). specialize (Hf n pr). lia.
Qed.

(** X10: in the contribution-depth breakdown of
    [calculateCompatibilityScore], [totalPRs] is the number of PRs of the
    activity and [relevantPRs] is at most twice that: a PR is counted at
    most once by the file test and once by the keyword test. *)
Theorem relevant_PRs_are_at_most_twice_the_PRs (activity : EngineerActivity.t) (query : RoleQuery) :
  let d := Breakdown.contributionDepth (breakdown (calculateCompatibilityScore activity query)) in
  ContributionDepth.totalPRs d = List.length (EngineerActivity.prs activity)
  /\ (ContributionDepth.relevantPRs d <= 2 * ContributionDepth.totalPRs d)%nat.
Proof.
  cbv zeta. unfold calculateCompatibilityScore. cbv zeta.
  cbn [breakdown Breakdown.contributionDepth ContributionDepth.totalPRs
       ContributionDepth.relevantPRs].
  unfold calculateDomainContributionDepth. cbv zeta.
  cbn [ContributionDepth.totalPRs ContributionDepth.relevantPRs].
  split; [ reflexivity | ].
  match goal with
  | |- (fold_left ?f ?l 0 <= _)%nat => pose proof (relevantPRs_bound l (role query) f 0%nat) as H
  end.
  apply H. intros k pr.
  destruct (_ >? 0.5); destruct (existsb _ _); lia.
Qed.

End CompatibilityLevel.

(* ===================================================================== *)
(** ** Recruiter match: NaN at the gate, level and recommendation *)
(* ===================================================================== *)

Section RecruiterLevel.
Import RecruiterMatch.
Local Open Scope string_scope.
Local Open Scope float_scope.

Variables (trustResult : Trust.TrustScoreResult)
          (compatibilityResult : Compatibility.CompatibilityScoreResult)
          (impactResult : Impact.ImpactScoreResult)
          (config : option RecruiterMatchScoreConfig.t).

Let T := Trust.totalScore trustResult.
Let C := Compatibility.totalScore compatibilityResult.
Let I := Impact.totalScore impactResult.
Let fc := fullConfig config.
Let r := calculateRecruiterMatchScore trustResult compatibilityResult impactResult config.

(** X11: a compatibility total that is NaN is not below the minimum, so the
    gate of [calculateRecruiterMatchScore] lets it through: when trust and
    impact also pass, the total match score and the compatibility component
    are NaN, and the recruiter sees the level [poor] and the recommendation
    [not-recommended]. *)
Theorem NaN_total_passes_the_gate :
  is_nan C = true ->
  (T <? trust (Config.minimumThresholds fc)) = false ->
  (I <? impact (Config.minimumThresholds fc)) = false ->
  is_nan (totalMatchScore r) = true
  /\ is_nan (resultCompatibilityComponent r) = true
  /\ RecruiterView.matchLevel (recruiterView r) = poor
  /\ RecruiterView.recommendation (recruiterView r) = not_recommended.
Proof.
  intros HC HT HI.
  unfold r, calculateRecruiterMatchScore, calculateWeightedScore; cbn zeta.
  fold fc T C I. rewrite HT, HI, (nan_not_below C _ HC).
  cbn [total compatibilityComponent totalMatchScore resultCompatibilityComponent recruiterView].
  assert (Htotal : forall b x y z w,
            is_nan (JS.Math_min (x + C * w * b + y) z) = true).
  { intros. rewrite Math_min_nan; [ reflexivity | left ].
    apply add_nan_l, add_nan_r, mul_nan_l, mul_nan_l. exact HC. }
  split; [ apply Htotal | ].
  split; [ apply mul_nan_l; exact HC | ].
  unfold generateRecruiterView; cbn zeta.
  unfold JS.geb.
  rewrite !(nan_not_above _ _ (Htotal _ _ _ _ _)).
  split; reflexivity.
Qed.

(** X12: in the recruiter view of [calculateRecruiterMatchScore],
    [matchScore] is the total match score, which is at most 100 or NaN; the
    level is read off it (85, 70, 50, 30; [poor] below 30 and for NaN); and
    the recommendation is fixed by the level, [good] and [fair] both giving
    [consider]. *)
Theorem recommendation_follows_the_level :
  let v := recruiterView r in
  RecruiterView.matchScore v = totalMatchScore r
  /\ atMostOrNaN 100 (totalMatchScore r)
  /\ RecruiterView.recommendation v
     = match RecruiterView.matchLevel v with
       | excellent => strongly_recommend
       | strong => recommend
       | good | fair => consider
       | poor => not_recommended
       end
  /\ match RecruiterView.matchLevel v with
     | excellent => (85 <=? totalMatchScore r) = true
     | strong => (70 <=? totalMatchScore r) = true /\ (totalMatchScore r <? 85) = true
     | good => (50 <=? totalMatchScore r) = true /\ (totalMatchScore r <? 70) = true
     | fair => (30 <=? totalMatchScore r) = true /\ (totalMatchScore r <? 50) = true
     | poor => is_nan (totalMatchScore r) = true \/ (totalMatchScore r <? 30) = true
     end.
Proof.
  cbv zeta.
  unfold r, calculateRecruiterMatchScore; cbn zeta.
  cbn [recruiterView totalMatchScore].
  set (s := total _).
  assert (Hcap : atMostOrNaN 100 s).
  { unfold s, calculateWeightedScore; cbn zeta.
    repeat (match goal with |- context [if ?b then _ else _] => destruct b end;
            cbn [total]; try apply zero_capped).
    all: apply capped. }
  unfold generateRecruiterView; cbn zeta. unfold JS.geb.
  destruct (order 85 s) as [ [N|N] | | | ]; try discriminate N;
    repeat match goal with H : (85 <=? s) = _ |- _ => rewrite H end;
    cbn [RecruiterView.matchScore RecruiterView.recommendation RecruiterView.matchLevel];
    auto.
  - rewrite (nan_not_above s 70 N), (nan_not_above s 50 N), (nan_not_above s 30 N).
    cbn [RecruiterView.matchScore RecruiterView.recommendation RecruiterView.matchLevel].
    auto.
  - destruct (order 70 s) as [ [N|N] | | | ]; try discriminate N; try congruence;
      repeat match goal with H : (70 <=? s) = _ |- _ => rewrite H end;
      cbn [RecruiterView.matchScore RecruiterView.recommendation RecruiterView.matchLevel];
      auto.
    destruct (order 50 s) as [ [N|N] | | | ]; try discriminate N; try congruence;
      repeat match goal with H : (50 <=? s) = _ |- _ => rewrite H end;
      cbn [RecruiterView.matchScore RecruiterView.recommendation RecruiterView.matchLevel];
      auto.
    destruct (order 30 s) as [ [N|N] | | | ]; try discriminate N; try congruence;
      repeat match goal with H : (30 <=? s) = _ |- _ => rewrite H end;
      cbn [RecruiterView.matchScore RecruiterView.recommendation RecruiterView.matchLevel];
      auto 6.
Qed.

End RecruiterLevel.

(* ===================================================================== *)
(** ** Explanation, and the calculators composed *)
(* ===================================================================== *)

Section ExplanationLists.
Import Explanation.
Local Open Scope string_scope.
Local Open Scope float_scope.

Lemma in_map_pushWhen {A B : Type} (f : A -> B) (b : bool) (x : A) (y : B) (xs : list A) :
  In y (map f (pushWhen b x xs)) -> In y (map f xs) \/ (b = true /\ y = f x).
Proof.
  unfold pushWhen, push. destruct b; [ | auto ].
  rewrite map_app, in_app_iff. cbn. intuition.
Qed.

Lemma in_map_pushWhen_old {A B : Type} (f : A -> B) (b : bool) (x : A) (y : B) (xs : list A) :
  In y (map f xs) -> In y (map f (pushWhen b x xs)).
Proof.
  unfold pushWhen, push. destruct b; [ | auto ].
  rewrite map_app, in_app_iff. auto.
Qed.

Lemma in_map_pushWhen_new {A B : Type} (f : A -> B) (x : A) (y : B) (xs : list A) :
  y = f x -> In y (map f (pushWhen true x xs)).
Proof.
  intros ->. unfold pushWhen, push. rewrite map_app, in_app_iff. cbn. auto.
Qed.

Lemma length_pushWhen {A : Type} (n : nat) (b : bool) (x : A) (xs : list A) :
  (List.length xs <= n)%nat -> (List.length (pushWhen b x xs) <= S n)%nat.
Proof.
  unfold pushWhen, push. destruct b; [ rewrite length_app; cbn | ]; lia.
Qed.

Ltac title_cases H :=
  repeat (apply in_map_pushWhen in H;
          destruct H as [H | [? H]]; [ | try discriminate H ]).

Lemma authentic_profile_is_listed
  (trustResult : Trust.TrustScoreResult) (impactResult : Impact.ImpactScoreResult)
  (compatibilityResult : Compatibility.CompatibilityScoreResult) :
  In "Authentic Profile"
     (map Strength.title (generateStrengths trustResult impactResult compatibilityResult))
  <-> Trust.isAuthentic trustResult = true.
Proof.
  unfold generateStrengths. cbv zeta. split.
  - intros H. title_cases H; [ destruct H | assumption ].
  - intros H. rewrite H. do 9 apply in_map_pushWhen_old.
    apply in_map_pushWhen_new. reflexivity.
Qed.

(** X13: in the explanation of a match, the strength "Authentic Profile"
    is listed exactly when the trust result is authentic and the concern
    "Profile Authenticity Concerns" exactly when it is not; there are
    at most 10 strengths and at most 12 concerns. *)
Theorem authenticity_is_a_strength_or_a_concern
  (trustResult : Trust.TrustScoreResult) (impactResult : Impact.ImpactScoreResult)
  (compatibilityResult : Compatibility.CompatibilityScoreResult) :
  let e := generateMatchExplanation trustResult impactResult compatibilityResult in
  (In "Authentic Profile" (map Strength.title (strengths e))
   <-> Trust.isAuthentic trustResult = true)
  /\ (In "Profile Authenticity Concerns" (map Concern.title (concerns e))
      <-> Trust.isAuthentic trustResult = false)
  /\ (List.length (strengths e) <= 10)%nat
  /\ (List.length (concerns e) <= 12)%nat.
Proof.
  cbv zeta. unfold generateMatchExplanation. cbn [strengths concerns].
  split; [ | split; [ | split ] ].
  - apply authentic_profile_is_listed.
  - unfold generateConcerns. cbv zeta. split.
    + intros H. title_cases H; [ destruct H | ].
      apply negb_true_iff. assumption.
    + intros H. rewrite H. do 11 apply in_map_pushWhen_old.
      apply in_map_pushWhen_new. reflexivity.
  - unfold generateStrengths. cbv zeta.
    do 10 apply length_pushWhen. apply Nat.le_refl.
  - unfold generateConcerns. cbv zeta.
    do 12 apply length_pushWhen. apply Nat.le_refl.
Qed.

End ExplanationLists.

Section Composition.
Context {host : Host}.
Local Open Scope string_scope.
Local Open Scope float_scope.

(** X14: the key trust signals of the explanation, on a result of
    [calculateTrustScore]: each of the green flags "High maintainer
    trust", "Strong repository diversity" and "Active collaboration"
    that the result carries is shown twice, once by the threshold test of
    [extractTrustIndicators] and once more among the first three green
    flags. *)
Theorem key_trust_signals_repeat_the_green_flags
  (account : GitHubAccount.t) (pattern : ContributionPattern.t)
  (config : option Trust.TrustScoreConfig.t) (clock : Clock) :
  let tr := runWith clock (Trust.calculateTrustScore account pattern config) in
  let shown := Explanation.keyTrustSignals (Explanation.extractTrustIndicators tr) in
  forall flag,
    In flag ["High maintainer trust"; "Strong repository diversity"; "Active collaboration"] ->
    In flag (Trust.greenFlags tr) ->
    count_occ string_dec shown flag = 2%nat.
Proof.
  unfold runWith, Trust.calculateTrustScore.
  cbn [bind Monad_state runState].
  destruct (runState (Trust.calculateAccountAuthenticity _ _ _) clock) as [accountAuth clock1].
  cbn [newDate runState ret Monad_state fst].
  cbv zeta.
  unfold Explanation.extractTrustIndicators. cbv zeta.
  cbn [Explanation.keyTrustSignals Trust.greenFlags Trust.signals Trust.isAuthentic
       Trust.TrustSignals.maintainerTrust Trust.TrustSignals.repositoryDiversity
       Trust.TrustSignals.collaborationDepth].
  match goal with
  | |- context [pushIf ?b "Authentic profile verified" []] => generalize b
  end.
  match goal with
  | |- context [pushIf ?b "High maintainer trust" []] => generalize b
  end.
  match goal with
  | |- context [pushIf ?b "Strong repository diversity" _] => generalize b
  end.
  match goal with
  | |- context [pushIf ?b "Active collaboration" _] => generalize b
  end.
  match goal with
  | |- context [pushIf ?b "Long-term consistent contributions" _] => generalize b
  end.
  match goal with
  | |- context [pushIf ?b "Primarily original repository contributions" _] => generalize b
  end.
  intros b6 b5 b4 b3 b2 b1 flag Hflag Hin.
  destruct Hflag as [<- | [<- | [<- | []]]];
    destruct b1, b2, b3, b4, b5, b6; cbn in Hin |- *;
    try reflexivity;
    repeat (destruct Hin as [Hin | Hin]; try discriminate Hin); destruct Hin.
Qed.

Lemma pushWhen_cons {A : Type} (b : bool) (x y : A) (ys : list A) :
  Explanation.pushWhen b x (y :: ys) = y :: Explanation.pushWhen b x ys.
Proof.
  destruct b; reflexivity.
Qed.

(** X15: a trust result of [calculateTrustScore] with the fork-farming
    flag, in whatever match it enters: the recruiter view is not authentic
    and its red flags start with "Profile authenticity concerns" and
    "Fork-only contributions detected"; the engineer view carries the
    red flag; the concerns of the explanation start with the two
    high-severity concerns on authenticity and fork-only contributions; the
    explanation opens with the authenticity warning and lists no
    "Authentic Profile" strength. *)
Theorem fork_farming_reaches_every_view
  (account : GitHubAccount.t) (pattern : ContributionPattern.t)
  (trustConfig : option Trust.TrustScoreConfig.t) (clock : Clock)
  (compatibilityResult : Compatibility.CompatibilityScoreResult)
  (impactResult : Impact.ImpactScoreResult)
  (config : option RecruiterMatch.RecruiterMatchScoreConfig.t) :
  let tr := runWith clock (Trust.calculateTrustScore account pattern trustConfig) in
  let m := RecruiterMatch.calculateRecruiterMatchScore tr compatibilityResult impactResult config in
  let e := Explanation.generateMatchExplanation tr impactResult compatibilityResult in
  Trust.forkFarming (Trust.spamDetection tr) = true ->
  RecruiterMatch.RecruiterView.isAuthentic (RecruiterMatch.recruiterView m) = false
  /\ firstn 2 (RecruiterMatch.RecruiterView.redFlags (RecruiterMatch.recruiterView m))
     = ["Profile authenticity concerns"; "Fork-only contributions detected"]
  /\ In "Fork-only contributions detected"
        (RecruiterMatch.EngineerTrust.redFlags
           (RecruiterMatch.EngineerView.trustScore (RecruiterMatch.engineerView m)))
  /\ map Explanation.Concern.title (firstn 2 (Explanation.concerns e))
     = ["Profile Authenticity Concerns"; "Fork-Only Contributions"]
  /\ map Explanation.Concern.severity (firstn 2 (Explanation.concerns e))
     = [Explanation.high; Explanation.high]
  /\ prefix "There are authenticity concerns with this profile" (Explanation.whyThisMatch e)
     = true
  /\ ~ In "Authentic Profile" (map Explanation.Strength.title (Explanation.strengths e)).
Proof.
  cbv zeta. set (tr := runWith clock _). intros Hfarm.
  assert (Hauth : Trust.isAuthentic tr = false /\
                  In "Fork-only contributions detected" (Trust.redFlags tr)).
  { revert Hfarm. unfold tr, runWith, Trust.calculateTrustScore.
    cbn [bind Monad_state runState].
    destruct (runState (Trust.calculateAccountAuthenticity _ _ _) clock) as [accountAuth clock1].
    cbn [newDate runState ret Monad_state fst Trust.spamDetection Trust.isAuthentic
         Trust.redFlags].
    intros ->. rewrite andb_false_r. split; [ reflexivity | ].
    change (pushIf true "Fork-only contributions detected" [])
      with ["Fork-only contributions detected"].
    rewrite !pushIf_cons. left. reflexivity. }
  destruct Hauth as [Hauth Hflag].
  clearbody tr.
  split; [ | split; [ | split; [ | split; [ | split; [ | split ] ] ] ] ].
  - unfold RecruiterMatch.calculateRecruiterMatchScore, RecruiterMatch.generateRecruiterView.
    cbv zeta. cbn [RecruiterMatch.recruiterView].
    destruct (_ >=? 85); [ | destruct (_ >=? 70); [ | destruct (_ >=? 50);
      [ | destruct (_ >=? 30) ] ] ];
      cbn [RecruiterMatch.RecruiterView.isAuthentic]; exact Hauth.
  - unfold RecruiterMatch.calculateRecruiterMatchScore, RecruiterMatch.generateRecruiterView.
    cbv zeta. cbn [RecruiterMatch.recruiterView].
    destruct (_ >=? 85); [ | destruct (_ >=? 70); [ | destruct (_ >=? 50);
      [ | destruct (_ >=? 30) ] ] ];
      cbn [RecruiterMatch.RecruiterView.redFlags];
      rewrite Hauth, Hfarm; cbn [negb pushIf push app];
      rewrite !pushIf_cons; reflexivity.
  - exact Hflag.
  - unfold Explanation.generateMatchExplanation, Explanation.generateConcerns.
    cbv zeta. cbn [Explanation.concerns]. rewrite Hauth, Hfarm.
    cbn [negb]. unfold Explanation.pushWhen at 12. unfold Explanation.pushWhen at 11.
    unfold push. cbn [app].
    rewrite !pushWhen_cons. reflexivity.
  - unfold Explanation.generateMatchExplanation, Explanation.generateConcerns.
    cbv zeta. cbn [Explanation.concerns]. rewrite Hauth, Hfarm.
    cbn [negb]. unfold Explanation.pushWhen at 12. unfold Explanation.pushWhen at 11.
    unfold push. cbn [app].
    rewrite !pushWhen_cons. reflexivity.
  - unfold Explanation.generateMatchExplanation, Explanation.generateWhyThisMatch.
    cbv zeta. cbn [Explanation.whyThisMatch]. rewrite Hauth.
    unfold push at 1. cbn [app].
    destruct (Compatibility.compatibilityLevel compatibilityResult);
      destruct (Explanation.getImpactLevel _); reflexivity.
  - intros Hin.
    unfold Explanation.generateMatchExplanation in Hin. cbn [Explanation.strengths] in Hin.
    apply authentic_profile_is_listed in Hin. congruence.
Qed.

End Composition.

(* ===================================================================== *)
(** ** Inputs that are not read *)
(* ===================================================================== *)

Section Unread.
Context {host : Host}.
Local Open Scope string_scope.
Local Open Scope float_scope.

(** X16: inputs that the calculators never read.  The trust result is the
    same whatever the account's username, repository and follower counts
    and verification, eleven fields of the pattern (open and closed PRs,
    original-repository PRs, contribution days, repositories with
    maintainer interaction, maintainer reviews, the three issue counts and
    the two commit patterns) and the config's [maxPRsPerHour] and
    [forkOnlyPenalty]; the impact result whatever the config's
    [activityWindowMonths] and [selfMergePenalty]; the compatibility result
    whatever the query's [requiredTechnologies] and
    [preferredExperience]. *)
Theorem unread_inputs_have_no_effect :
  (forall (account : GitHubAccount.t) (pattern : ContributionPattern.t)
          (config : Trust.TrustScoreConfig.t) (clock : Clock)
          (username : string) (publicRepos followers following : float) (isVerified : bool)
          (openPRs closedPRs originalRepoPRs contributionDays
           repositoriesWithMaintainerInteraction maintainerReviews
           issuesOpened issuesClosed issuesWithPRs : float)
          (commitMessagePatterns : list (string * float)) (commitTimePatterns : list float)
          (maxPRsPerHour forkOnlyPenalty : option float),
      let account' :=
        {| GitHubAccount.username := username;
           GitHubAccount.createdAt := GitHubAccount.createdAt account;
           GitHubAccount.publicRepos := publicRepos;
           GitHubAccount.followers := followers;
           GitHubAccount.following := following;
           GitHubAccount.bio := GitHubAccount.bio account;
           GitHubAccount.location := GitHubAccount.location account;
           GitHubAccount.company := GitHubAccount.company account;
           GitHubAccount.website := GitHubAccount.website account;
           GitHubAccount.email := GitHubAccount.email account;
           GitHubAccount.isVerified := isVerified |} in
      let pattern' :=
        {| ContributionPattern.totalPRs := ContributionPattern.totalPRs pattern;
           ContributionPattern.mergedPRs := ContributionPattern.mergedPRs pattern;
           ContributionPattern.openPRs := openPRs;
           ContributionPattern.closedPRs := closedPRs;
           ContributionPattern.selfMergedPRs := ContributionPattern.selfMergedPRs pattern;
           ContributionPattern.forkPRs := ContributionPattern.forkPRs pattern;
           ContributionPattern.originalRepoPRs := originalRepoPRs;
           ContributionPattern.forkOnlyRepos := ContributionPattern.forkOnlyRepos pattern;
           ContributionPattern.originalRepoContributions :=
             ContributionPattern.originalRepoContributions pattern;
           ContributionPattern.firstContributionDate :=
             ContributionPattern.firstContributionDate pattern;
           ContributionPattern.lastContributionDate :=
             ContributionPattern.lastContributionDate pattern;
           ContributionPattern.contributionDays := contributionDays;
           ContributionPattern.contributionMonths :=
             ContributionPattern.contributionMonths pattern;
           ContributionPattern.averagePRsPerDay := ContributionPattern.averagePRsPerDay pattern;
           ContributionPattern.maxPRsInSingleDay :=
             ContributionPattern.maxPRsInSingleDay pattern;
           ContributionPattern.uniqueRepositories :=
             ContributionPattern.uniqueRepositories pattern;
           ContributionPattern.repositoriesWithMultiplePRs :=
             ContributionPattern.repositoriesWithMultiplePRs pattern;
           ContributionPattern.repositoriesWithMaintainerInteraction :=
             repositoriesWithMaintainerInteraction;
           ContributionPattern.reviewsGiven := ContributionPattern.reviewsGiven pattern;
           ContributionPattern.reviewsReceived := ContributionPattern.reviewsReceived pattern;
           ContributionPattern.maintainerReviews := maintainerReviews;
           ContributionPattern.issuesOpened := issuesOpened;
           ContributionPattern.issuesClosed := issuesClosed;
           ContributionPattern.issuesWithPRs := issuesWithPRs;
           ContributionPattern.commitMessagePatterns := commitMessagePatterns;
           ContributionPattern.commitTimePatterns := commitTimePatterns;
           ContributionPattern.identicalCommitMessages :=
             ContributionPattern.identicalCommitMessages pattern;
           ContributionPattern.uniqueCollaborators :=
             ContributionPattern.uniqueCollaborators pattern;
           ContributionPattern.maintainerInteractions :=
             ContributionPattern.maintainerInteractions pattern;
           ContributionPattern.crossRepositoryCollaborations :=
             ContributionPattern.crossRepositoryCollaborations pattern |} in
      let config' :=
        {| Trust.TrustScoreConfig.maxPRsPerDay := Trust.TrustScoreConfig.maxPRsPerDay config;
           Trust.TrustScoreConfig.maxPRsPerHour := maxPRsPerHour;
           Trust.TrustScoreConfig.minAccountAgeDays :=
             Trust.TrustScoreConfig.minAccountAgeDays config;
           Trust.TrustScoreConfig.minUniqueRepos := Trust.TrustScoreConfig.minUniqueRepos config;
           Trust.TrustScoreConfig.forkOnlyPenalty := forkOnlyPenalty;
           Trust.TrustScoreConfig.identicalMessageThreshold :=
             Trust.TrustScoreConfig.identicalMessageThreshold config;
           Trust.TrustScoreConfig.weights := Trust.TrustScoreConfig.weights config |} in
      runWith clock (Trust.calculateTrustScore account' pattern' (Some config'))
      = runWith clock (Trust.calculateTrustScore account pattern (Some config)))
  /\ (forall (activity : GitHubActivity.t) (config : Impact.ImpactScoreConfig.t) (clock : Clock)
             (activityWindowMonths selfMergePenalty : option float),
        let config' :=
          {| Impact.ImpactScoreConfig.weights := Impact.ImpactScoreConfig.weights config;
             Impact.ImpactScoreConfig.timeDecayFactor :=
               Impact.ImpactScoreConfig.timeDecayFactor config;
             Impact.ImpactScoreConfig.minPRSize := Impact.ImpactScoreConfig.minPRSize config;
             Impact.ImpactScoreConfig.maxPRFrequency :=
               Impact.ImpactScoreConfig.maxPRFrequency config;
             Impact.ImpactScoreConfig.activityWindowMonths := activityWindowMonths;
             Impact.ImpactScoreConfig.selfMergePenalty := selfMergePenalty |} in
        runWith clock (Impact.calculateImpactScore activity (Some config'))
        = runWith clock (Impact.calculateImpactScore activity (Some config)))
  /\ (forall (activity : EngineerActivity.t) (r : RoleType)
             (requiredTechnologies preferredExperience : option (list string)),
        Compatibility.calculateCompatibilityScore
          activity (mkRoleQuery r requiredTechnologies preferredExperience)
        = Compatibility.calculateCompatibilityScore activity (mkRoleQuery r None None)).
Proof.
  split; [ | split ].
  - intros. destruct account, pattern, config. reflexivity.
  - intros. destruct config. reflexivity.
  - reflexivity.
Qed.

End Unread.

(* ===================================================================== *)
(** ** Background jobs and the GitHub sync *)
(* ===================================================================== *)

Section JobInputs.
Context {host : Host}.
Local Open Scope string_scope.
Local Open Scope float_scope.

(** X17: the pattern that [buildContributionPattern] derives from an
    activity leaves [forkOnlyRepos] empty and the counts of months and of
    collaborators zero.  So the trust score of such a pattern never has the
    fork-farming flag nor its red flag; repository farming is flagged as
    soon as there are more than 50 repositories; and temporal consistency,
    maintainer interactions and cross-repository collaborations earn
    nothing. *)
Theorem job_pattern_cannot_show_fork_farming
  (activity : GitHubActivity.t) (account : GitHubAccount.t)
  (config : option Trust.TrustScoreConfig.t) (clock : Clock) :
  let pattern := Jobs.buildContributionPattern activity account in
  let r := runWith clock (Trust.calculateTrustScore account pattern config) in
  Trust.forkFarming (Trust.spamDetection r) = false
  /\ ~ In "Fork-only contributions detected" (Trust.redFlags r)
  /\ Trust.repositoryFarming (Trust.spamDetection r)
     = (JS.of_nat (List.length (GitHubActivity.repositories activity)) >? 50)
  /\ Trust.temporalConsistency
       (breakdown (Trust.Components.contributionAuthenticity (Trust.components r))) = 0
  /\ Trust.maintainerInteractions
       (breakdown (Trust.Components.collaborationSignals (Trust.components r))) = 0
  /\ Trust.crossRepoCollaborations
       (breakdown (Trust.Components.collaborationSignals (Trust.components r))) = 0.
Proof.
  cbv zeta.
  unfold runWith, Trust.calculateTrustScore.
  cbn [bind Monad_state runState].
  destruct (runState (Trust.calculateAccountAuthenticity _ _ _) clock) as [accountAuth clock1].
  cbn [newDate runState ret Monad_state fst Trust.spamDetection Trust.redFlags
       Trust.components Trust.Components.contributionAuthenticity
       Trust.Components.collaborationSignals].
  assert (Hfarm : Trust.forkFarming
                    (Trust.detectSpamPatterns (Jobs.buildContributionPattern activity account)
                                              (Trust.fullConfig config)) = false)
    by reflexivity.
  split; [ exact Hfarm | ].
  split.
  { cbv zeta. rewrite Hfarm. cbn [pushIf].
    repeat (apply not_in_pushIf; [ discriminate | ]). intros []. }
  split.
  { unfold Trust.detectSpamPatterns, Jobs.buildContributionPattern.
    cbn [Trust.repositoryFarming ContributionPattern.uniqueRepositories
         ContributionPattern.repositoriesWithMultiplePRs].
    change (0 <? 5) with true. apply andb_true_r. }
  split.
  { unfold Trust.calculateContributionAuthenticity.
    destruct (_ === 0); [ reflexivity | ].
    cbv zeta. cbn [breakdown Trust.temporalConsistency].
    unfold Jobs.buildContributionPattern at 1.
    cbn [ContributionPattern.contributionMonths].
    change (0 >? 0) with false. reflexivity. }
  unfold Trust.calculateCollaborationSignals.
  destruct (_ === 0); split; reflexivity.
Qed.

End JobInputs.

Section SyncInputs.
Context {host : Host} {locale : Locale}.
Local Open Scope string_scope.
Local Open Scope float_scope.

Lemma inputsOf_pattern (username : string) (ghUser : Jobs.APIUser)
  (repos : list Sync.APIRepo) (items : list Sync.SearchItem) (clock : Clock) :
  exists first last,
    Sync.pattern (runWith clock (Sync.inputsOf username ghUser repos items))
    = Sync.patternOf (map (Sync.mergedPROf username) items) first last
    /\ Sync.activity (runWith clock (Sync.inputsOf username ghUser repos items))
       = Sync.activityOf (map (Sync.mergedPROf username) items) repos first last.
Proof.
  unfold runWith, Sync.inputsOf. cbv zeta.
  destruct (map (Sync.mergedPROf username) items) as [| pr prs] eqn:E;
    cbn [bind Monad_state runState newDate ret fst Sync.pattern Sync.activity];
    eexists; eexists; split; reflexivity.
Qed.

(** X18: the trust score that [syncUser] computes from what it fetched
    never flags fork farming, self-merge farming, excessive daily PRs or
    identical commit messages, whatever GitHub returned: the pattern it
    builds fixes the fields these tests read.  The only red flags it can
    carry are repository farming, a young account and too few
    repositories. *)
Theorem sync_raises_no_farming_flag
  (username : string) (ghUser : Jobs.APIUser) (repos : list Sync.APIRepo)
  (items : list Sync.SearchItem) (clock clock' : Clock) :
  let inputs := runWith clock (Sync.inputsOf username ghUser repos items) in
  let r :=
    runWith clock' (Trust.calculateTrustScore (Sync.account inputs) (Sync.pattern inputs) None) in
  let spam := Trust.spamDetection r in
  Trust.forkFarming spam = false
  /\ Trust.selfMergeFarming spam = false
  /\ Trust.excessiveDailyPRs spam = false
  /\ Trust.identicalCommitMessages spam = false
  /\ (forall flag, In flag (Trust.redFlags r) ->
        flag = "Repository farming pattern detected"
        \/ flag = "Account too new"
        \/ flag = "Insufficient repository diversity").
Proof.
  cbv zeta.
  destruct (inputsOf_pattern username ghUser repos items clock) as (first & last & -> & _).
  set (account := Sync.account _). clearbody account.
  set (prs := map (Sync.mergedPROf username) items). clearbody prs.
  unfold runWith, Trust.calculateTrustScore.
  cbn [bind Monad_state runState].
  destruct (runState (Trust.calculateAccountAuthenticity _ _ _) clock') as [accountAuth clock1].
  cbn [newDate runState ret Monad_state fst Trust.spamDetection Trust.redFlags].
  set (pattern := Sync.patternOf prs first last).
  assert (Hself : Trust.selfMergeFarming
                    (Trust.detectSpamPatterns pattern (Trust.fullConfig None)) = false).
  { unfold Trust.detectSpamPatterns. cbn [Trust.selfMergeFarming].
    apply zero_not_above; [ apply zero_div, zero_is_zero | reflexivity ]. }
  assert (Hratio : (0.8 <?
                    (if ContributionPattern.totalPRs pattern >? 0
                     then ContributionPattern.forkPRs pattern
                          / ContributionPattern.totalPRs pattern
                     else 0)) = false).
  { apply zero_not_above; [ | reflexivity ].
    destruct (_ >? 0); [ apply zero_div, zero_is_zero | apply zero_is_zero ]. }
  split; [ reflexivity | ].
  split; [ exact Hself | ].
  split; [ reflexivity | ].
  split; [ reflexivity | ].
  intros flag. cbv zeta. rewrite Hself.
  change (Trust.forkFarming (Trust.detectSpamPatterns pattern (Trust.fullConfig None)))
    with false.
  change (Trust.excessiveDailyPRs (Trust.detectSpamPatterns pattern (Trust.fullConfig None)))
    with false.
  unfold JS.gtb at 1. rewrite Hratio.
  cbn [pushIf].
  intros H.
  apply in_pushIf in H; destruct H as [H | H]; auto.
  apply in_pushIf in H; destruct H as [H | H]; auto.
  apply in_pushIf in H; destruct H as [H | H]; auto.
  destruct H.
Qed.

Lemma filter_map_const {A B : Type} (f : A -> B) (p : B -> bool) (b : bool) (xs : list A) :
  (forall x, p (f x) = b) ->
  filter p (map f xs) = if b then map f xs else [].
Proof.
  intros H. induction xs as [| x xs IH]; cbn; [ destruct b; reflexivity | ].
  rewrite H, IH. destruct b; reflexivity.
Qed.

(** X19: [syncUser] marks every PR as merged by "maintainer", by a
    maintainer, and not from a fork.  So the impact calculator counts all
    of them as merged PRs, and as self-merged all of them when the user is
    named "maintainer" and none otherwise. *)
Theorem sync_self_merges_hinge_on_the_username
  (username : string) (ghUser : Jobs.APIUser) (repos : list Sync.APIRepo)
  (items : list Sync.SearchItem) (config : option Impact.ImpactScoreConfig.t)
  (clock clock' : Clock) :
  let inputs := runWith clock (Sync.inputsOf username ghUser repos items) in
  let r := runWith clock' (Impact.calculateImpactScore (Sync.activity inputs) config) in
  Forall (fun pr => MergedPR.isMaintainerMerge pr = true /\ MergedPR.isFork pr = false)
         (GitHubActivity.mergedPRs (Sync.activity inputs))
  /\ Impact.Signals.totalMergedPRs (Impact.signals r) = List.length items
  /\ Impact.Signals.selfMergedPRs (Impact.signals r)
     = (if String.eqb username "maintainer" then List.length items else 0%nat).
Proof.
  cbv zeta.
  destruct (inputsOf_pattern username ghUser repos items clock) as (first & last & _ & ->).
  split.
  { cbn [Sync.activityOf GitHubActivity.mergedPRs].
    apply Forall_forall. intros pr Hpr. apply in_map_iff in Hpr.
    destruct Hpr as (item & <- & _). split; reflexivity. }
  unfold runWith, Impact.calculateImpactScore. cbv zeta.
  cbn [bind Monad_state runState].
  destruct (runState (Impact.calculatePRImpactScore _ _ _) clock') as [prImpact clock1].
  destruct (runState (mapClock _ _) clock1) as [recent clock2].
  cbn [fst ret Monad_state runState Impact.signals Impact.Signals.totalMergedPRs
       Impact.Signals.selfMergedPRs Sync.activityOf GitHubActivity.mergedPRs
       Impact.filterSelfMergedPRs Impact.selfMerged].
  split; [ apply length_map | ].
  rewrite (filter_map_const _ _ (String.eqb username "maintainer")) by reflexivity.
  destruct (String.eqb username "maintainer"); [ apply length_map | reflexivity ].
Qed.

End SyncInputs.

Section SplitFacts.
Local Open Scope string_scope.

Lemma split_not_nil (sep : ascii) (s : string) : JSString.split sep s <> [].
Proof.
  destruct s as [| c t]; cbn; [ discriminate | ].
  destruct (Ascii.eqb c sep); [ discriminate | ].
  destruct (JSString.split sep t); discriminate.
Qed.

Lemma split_app (sep : ascii) (x y : string) :
  JSString.split sep (x ++ String sep y) = (JSString.split sep x ++ JSString.split sep y)%list.
Proof.
  induction x as [| c t IH]; cbn.
  - rewrite Ascii.eqb_refl. reflexivity.
  - destruct (Ascii.eqb c sep); rewrite IH; [ reflexivity | ].
    pose proof (split_not_nil sep t) as H.
    destruct (JSString.split sep t); [ contradiction | reflexivity ].
Qed.

Lemma includes_cons (c : ascii) (t : string) (sep : ascii) :
  JS.includes (String c t) (String sep "") = false ->
  Ascii.eqb c sep = false /\ JS.includes t (String sep "") = false.
Proof.
  cbn. destruct (ascii_dec sep c) as [<- | Hne].
  - destruct t; discriminate.
  - intros H. split; [ | exact H ].
    apply Ascii.eqb_neq. congruence.
Qed.

Lemma split_without_separator (sep : ascii) (s : string) :
  JS.includes s (String sep "") = false -> JSString.split sep s = [s].
Proof.
  induction s as [| c t IH]; [ reflexivity | ].
  intros H. apply includes_cons in H. destruct H as [Hc Ht].
  cbn. rewrite Hc, (IH Ht). reflexivity.
Qed.

Lemma concat_cons (sep x : string) (xs : list string) :
  xs <> [] -> String.concat sep (x :: xs) = x ++ sep ++ String.concat sep xs.
Proof.
  destruct xs; [ contradiction | reflexivity ].
Qed.

Lemma join_split (sep : ascii) (s : string) :
  JS.join (String sep "") (JSString.split sep s) = s.
Proof.
  unfold JS.join.
  induction s as [| c t IH]; [ reflexivity | ].
  cbn [JSString.split].
  pose proof (split_not_nil sep t) as Hne.
  destruct (Ascii.eqb c sep) eqn:E.
  - apply Ascii.eqb_eq in E. subst c.
    rewrite concat_cons by exact Hne. rewrite IH. reflexivity.
  - destruct (JSString.split sep t) as [| h r]; [ contradiction | ].
    destruct r as [| h' r'].
    + cbn in *. rewrite IH. reflexivity.
    + rewrite concat_cons by discriminate.
      rewrite concat_cons in IH by discriminate.
      cbn [String.append] in IH |- *. rewrite IH. reflexivity.
Qed.

Lemma removelast_snoc {A : Type} (xs : list A) (x : A) : removelast (xs ++ [x]) = xs.
Proof.
  apply removelast_last.
Qed.

Lemma slice_last_app {A : Type} (xs ys : list A) :
  JS.slice_last (List.length ys) (xs ++ ys) = ys.
Proof.
  unfold JS.slice_last. rewrite length_app.
  replace (List.length xs + List.length ys - List.length ys)%nat
    with (List.length xs) by lia.
  rewrite skipn_app, skipn_all, Nat.sub_diag. reflexivity.
Qed.

End SplitFacts.

Section PathNames.
Context {host : Host} {locale : Locale}.
Local Open Scope string_scope.

(** X20: names read off paths.  [syncUser] takes the last two segments of
    [repository_url]: from [base/owner/name] it keeps [owner/name].  The
    directory of a file, in [normalizePullRequest], is its path without the
    last segment, and the empty string for a file at the top; the
    directories of a PR are at most as many as its files. *)
Theorem repository_and_directory_are_read_off_the_path :
  (forall base owner name,
      JS.includes owner "/" = false -> JS.includes name "/" = false ->
      Sync.repositoryOf (base ++ "/" ++ owner ++ "/" ++ name) = owner ++ "/" ++ name)
  /\ (forall dir file,
        JS.includes file "/" = false ->
        Analyzer.directoryOf (dir ++ "/" ++ file) = dir
        /\ Analyzer.directoryOf file = "")
  /\ (forall files,
        (List.length (Analyzer.directoriesOf files) <= List.length files)%nat).
Proof.
  split; [ | split ].
  - intros base owner name Ho Hn.
    unfold Sync.repositoryOf.
    change (base ++ "/" ++ owner ++ "/" ++ name)
      with (base ++ String "/" (owner ++ String "/" name)).
    rewrite !split_app, (split_without_separator _ _ Ho), (split_without_separator _ _ Hn).
    cbn [app].
    pose proof (slice_last_app (JSString.split "/" base) [owner; name]) as H.
    cbn [List.length] in H. rewrite H. reflexivity.
  - intros dir file Hf. unfold Analyzer.directoryOf. split.
    + change (dir ++ "/" ++ file) with (dir ++ String "/" file).
      rewrite split_app, (split_without_separator _ _ Hf), removelast_snoc.
      apply join_split.
    + rewrite (split_without_separator _ _ Hf). reflexivity.
  - intros files. unfold Analyzer.directoriesOf.
    pose proof (set_of_length
                  (map (fun file => Analyzer.directoryOf (Analyzer.APIFile.filename file))
                       files)) as H.
    rewrite length_map in H. exact H.
Qed.

End PathNames.

(* ===================================================================== *)
(** ** GitHub analyzer *)
(* ===================================================================== *)

Section AnalyzerNormalization.
Import Analyzer.
Context {host : Host} {locale : Locale}.
Local Open Scope string_scope.
Local Open Scope float_scope.

(** X21: [normalizePullRequest] throws exactly when [merged_at] is missing
    or empty.  Otherwise the PR it returns is self-merged, for the impact
    calculator, exactly when the merger is unknown (or has an empty login)
    or is the author, while [isMaintainerMerge] is false exactly when the
    merger is known and is the author: a PR whose merger is unknown is a
    maintainer merge and a self-merge at once. *)
Theorem unknown_merger_counts_as_self_merge {C : Type}
  (pr : APIPullRequest.t) (repo : APIRepository.t) (files : list APIFile.t)
  (reviews : list APIReview.t) (reviewComments : list C) :
  let author := APIUser.login (APIPullRequest.user pr) in
  let merger := option_map APIUser.login (APIPullRequest.merged_by pr) in
  match normalizePullRequest pr repo files reviews reviewComments with
  | Throw message =>
      message = "PR is not merged" /\ JS.truthy_str (APIPullRequest.merged_at pr) = false
  | Ok normalized =>
      JS.truthy_str (APIPullRequest.merged_at pr) = true
      /\ MergedPR.author normalized = author
      /\ (Impact.isSelfMerged normalized = true
          <-> JS.truthy_str merger = false \/ merger = Some author)
      /\ (MergedPR.isMaintainerMerge normalized = false <-> merger = Some author)
      /\ (APIPullRequest.merged_by pr = None ->
          MergedPR.isMaintainerMerge normalized = true
          /\ Impact.isSelfMerged normalized = true)
  end.
Proof.
  cbv zeta. unfold normalizePullRequest.
  destruct (JS.truthy_str (APIPullRequest.merged_at pr)) eqn:Hm; cbn [negb];
    [ | split; reflexivity ].
  cbv zeta. unfold Impact.isSelfMerged.
  cbn [MergedPR.author MergedPR.mergedBy MergedPR.isMaintainerMerge].
  split; [ reflexivity | ]. split; [ reflexivity | ].
  set (author := APIUser.login (APIPullRequest.user pr)).
  destruct (APIPullRequest.merged_by pr) as [[by_] |]; cbn [option_map APIUser.login].
  - unfold JSString.or_else. cbn [JS.truthy_str JS.or_empty].
    destruct by_ as [| c t].
    + rewrite String.eqb_refl. split; [ | split ].
      * split; auto.
      * rewrite negb_false_iff, String.eqb_eq. split; intros H; [ | injection H as H ];
          congruence.
      * discriminate.
    + split; [ | split ].
      * rewrite String.eqb_eq. split.
        -- intros H. right. congruence.
        -- intros [H | H]; [ discriminate | congruence ].
      * rewrite negb_false_iff, String.eqb_eq. split; intros H; [ | injection H as H ];
          congruence.
      * discriminate.
  - unfold JSString.or_else. cbn [JS.truthy_str]. rewrite String.eqb_refl.
    split; [ | split ].
    + split; auto.
    + split; discriminate.
    + auto.
Qed.

Lemma of_nat_0 : JS.of_nat 0 = 0.
Proof. reflexivity. Qed.

(** X22: [normalizeIssue] never marks an issue as having led to a merged
    PR, and [normalizeRepositoryContribution] gives every repository one
    contributor.  So on issues and repositories that come from the analyzer
    the collaboration score earns nothing for issue engagement and nothing
    for team participation, whatever the PRs and reviews. *)
Theorem analyzer_data_earns_no_issue_or_team_credit
  (prs : list MergedPR.t) (reviewsGiven reviewsReceived : list CodeReview.t)
  (rawIssues : list (APIIssue.t * APIRepository.t))
  (rawRepositories : list (APIRepository.t * float * list (string * float))) :
  let issues := map (fun '(issue, repo) => normalizeIssue issue repo) rawIssues in
  let repositories :=
    map (fun '(repo, mergedPRCount, languages) =>
           normalizeRepositoryContribution repo mergedPRCount languages) rawRepositories in
  let c := Impact.calculateCollaborationScore prs reviewsGiven reviewsReceived issues
                                              repositories in
  (0 <? Impact.issueEngagement (breakdown c)) = false
  /\ (0 <? Impact.teamParticipation (breakdown c)) = false.
Proof.
  cbv zeta. unfold Impact.calculateCollaborationScore.
  destruct (List.length prs =? 0)%nat; [ split; reflexivity | ].
  cbv zeta. cbn [breakdown Impact.issueEngagement Impact.teamParticipation].
  rewrite (filter_map_const _ Issue.ledToMergedPR false) by (intros [i r]; reflexivity).
  rewrite (filter_map_const _ (fun repo => RepositoryContribution.contributorCount repo >? 1)
             false) by (intros [[r n] l]; reflexivity).
  cbn [List.length]. rewrite of_nat_0.
  split.
  - destruct (0 <? List.length _)%nat; [ | reflexivity ].
    apply zero_not_above; [ apply zero_mul, zero_div, zero_is_zero | reflexivity ].
  - destruct (0 <? List.length _)%nat; [ | reflexivity ].
    apply zero_not_above; [ apply zero_mul, zero_div, zero_is_zero | reflexivity ].
Qed.

End AnalyzerNormalization.

Section RateLimits.
Import Analyzer.
Local Open Scope float_scope.

(** X23: the two tests of the rate-limit manager.  Whenever
    [canMakeRequest] answers yes, [waitIfNeeded] does not sleep.  When the
    remaining quota equals the buffer (or either is NaN) the two disagree:
    [canMakeRequest] answers no, and [waitIfNeeded] does not sleep
    either. *)
Theorem a_request_that_may_be_made_is_not_delayed
  (core : RateLimit) (rateLimitBuffer now : float) :
  (canMakeRequest core rateLimitBuffer = true -> waitTime core rateLimitBuffer now = None)
  /\ (is_nan (remaining core) = true \/ is_nan rateLimitBuffer = true
      \/ (remaining core =? rateLimitBuffer) = true ->
      canMakeRequest core rateLimitBuffer = false
      /\ waitTime core rateLimitBuffer now = None).
Proof.
  unfold canMakeRequest, waitTime, JS.gtb.
  destruct (order (remaining core) rateLimitBuffer) as [ [N | N] | | | ];
    repeat match goal with H : (_ <? _) = _ |- _ => rewrite H end;
    (split; [ intros Hcan; try discriminate Hcan; reflexivity | ]);
    intros [Hcase | [Hcase | Hcase]]; try congruence; split; reflexivity.
Qed.

End RateLimits.

(* ===================================================================== *)
(** ** The Convex functions *)
(* ===================================================================== *)

Section ConvexJobsAndScores.
Import Convex.
Local Open Scope string_scope.

Lemma find_map_same {A : Type} (p : A -> bool) (g : A -> A) (l : list A) :
  (forall x, p (g x) = p x) -> find p (map g l) = option_map g (find p l).
Proof.
  intros H. induction l as [| x l IH]; [ reflexivity | ].
  cbn. rewrite H. destruct (p x); [ reflexivity | exact IH ].
Qed.

Lemma filter_map_same {A : Type} (p : A -> bool) (g : A -> A) (l : list A) :
  (forall x, p (g x) = p x) -> filter p (map g l) = map g (filter p l).
Proof.
  intros H. induction l as [| x l IH]; [ reflexivity | ].
  cbn. rewrite H. destruct (p x); cbn; rewrite IH; reflexivity.
Qed.

Lemma find_none_filter {A : Type} (p : A -> bool) (l : list A) :
  find p l = None -> filter p l = [].
Proof.
  induction l as [| x l IH]; [ reflexivity | ].
  cbn. destruct (p x); [ discriminate | exact IH ].
Qed.

Lemma find_some_filter {A : Type} (p : A -> bool) (l : list A) (x : A) :
  find p l = Some x -> (1 <= List.length (filter p l))%nat.
Proof.
  induction l as [| y l IH]; [ discriminate | ].
  cbn. destruct (p y); cbn; [ lia | exact IH ].
Qed.

Lemma find_app_none {A : Type} (p : A -> bool) (l l' : list A) :
  find p l = None -> find p (l ++ l') = find p l'.
Proof.
  induction l as [| x l IH]; [ reflexivity | ].
  cbn. destruct (p x); [ discriminate | exact IH ].
Qed.

(** X24: [addCandidateToJob] throws exactly when the job does not exist.
    Otherwise it returns the id of the job; afterwards the candidate is in
    the job's list, which has gained nothing else and no duplicate; users,
    scores, contact history and the other jobs' ids are as before; and
    adding the same candidate again changes nothing. *)
Theorem adding_a_candidate_twice_changes_nothing (jobId candidateId : Id) (db : DB) :
  match addCandidateToJob jobId candidateId db with
  | Throw message => message = "Job not found" /\ getJob db jobId = None
  | Ok (id, db') =>
      id = jobId
      /\ addCandidateToJob jobId candidateId db' = Ok (id, db')
      /\ users db' = users db /\ scores db' = scores db
      /\ contactHistory db' = contactHistory db /\ nextId db' = nextId db
      /\ map Job._id (jobs db') = map Job._id (jobs db)
      /\ exists job job',
           getJob db jobId = Some job /\ getJob db' jobId = Some job'
           /\ In candidateId (Job.candidateIds job')
           /\ (NoDup (Job.candidateIds job) -> NoDup (Job.candidateIds job'))
           /\ (forall c, In c (Job.candidateIds job') <->
                         In c (Job.candidateIds job) \/ c = candidateId)
  end.
Proof.
  unfold addCandidateToJob.
  destruct (getJob db jobId) as [job |] eqn:Hjob; [ | split; reflexivity ].
  assert (Hid : Job._id job = jobId).
  { unfold getJob in Hjob. apply find_some in Hjob. destruct Hjob as [_ H].
    apply Nat.eqb_eq in H. exact H. }
  destruct (existsb (Nat.eqb candidateId) (Job.candidateIds job)) eqn:Hin.
  - split; [ exact Hid | ].
    split; [ rewrite Hjob, Hin; reflexivity | ].
    repeat (split; [ reflexivity | ]).
    exists job, job. split; [ reflexivity | ]. split; [ first [ reflexivity | exact Hjob ] | ].
    assert (Hc : In candidateId (Job.candidateIds job)).
    { apply existsb_exists in Hin. destruct Hin as (x & Hx & E).
      apply Nat.eqb_eq in E. subst x. exact Hx. }
    split; [ exact Hc | ]. split; [ auto | ].
    intros c. split; [ auto | ]. intros [H | ->]; assumption.
  - set (g := fun j : Job.t =>
                if Nat.eqb (Job._id j) jobId
                then {| Job._id := Job._id j;
                        Job.recruiterId := Job.recruiterId j;
                        Job.title := Job.title j;
                        Job.description := Job.description j;
                        Job.candidateIds := (Job.candidateIds job ++ [candidateId])%list;
                        Job.status := Job.status j |}
                else j).
    assert (Hg : forall j, Job._id (g j) = Job._id j).
    { intros j. unfold g. destruct (Nat.eqb (Job._id j) jobId); reflexivity. }
    assert (Hjob' : getJob (patchCandidateIds db jobId (Job.candidateIds job ++ [candidateId]))
                           jobId = Some (g job)).
    { unfold getJob, patchCandidateIds. cbn [jobs]. fold g.
      rewrite find_map_same by (intros j; rewrite Hg; reflexivity).
      unfold getJob in Hjob. rewrite Hjob. reflexivity. }
    assert (Hcands : Job.candidateIds (g job) = (Job.candidateIds job ++ [candidateId])%list).
    { unfold g. rewrite Hid, Nat.eqb_refl. reflexivity. }
    split; [ exact Hid | ].
    split.
    { rewrite Hjob', Hcands, existsb_app. cbn [existsb]. rewrite Nat.eqb_refl, orb_true_r.
      rewrite Hg, Hid. reflexivity. }
    repeat (split; [ reflexivity | ]).
    split.
    { unfold patchCandidateIds. cbn [jobs]. fold g. rewrite map_map.
      apply map_ext. exact Hg. }
    exists job, (g job). split; [ reflexivity | ]. split; [ exact Hjob' | ].
    rewrite Hcands.
    split; [ apply in_or_app; right; left; reflexivity | ].
    split.
    { intros Hnd. apply NoDup_app; [ exact Hnd | repeat constructor; intros [] | ].
      intros x Hx [E | []]. subst x.
      assert (existsb (Nat.eqb candidateId) (Job.candidateIds job) = true)
        by (apply existsb_exists; exists candidateId;
            split; [ exact Hx | apply Nat.eqb_refl ]).
      congruence. }
    intros c. rewrite in_app_iff. cbn [In]. intuition.
Qed.


Lemma updated_score_row (ctx : Ctx) (args : Sync.UpdateScore) (db : DB) :
  exists row,
    scoreByUser (updateScore ctx args db) (Sync.userId args) = Some row
    /\ Score.userId row = Sync.userId args
    /\ Score.trustScore row = Sync.trustScore args
    /\ Score.impactScore row = Sync.impactScore args
    /\ Score.details row = Sync.details args
    /\ Score.evidence row = Sync.evidence args
    /\ Score.lastUpdated row = now ctx.
Proof.
  unfold updateScore.
  destruct (scoreByUser db (Sync.userId args)) as [existing |] eqn:Hfound.
  - set (g := fun s : Score.t =>
                if Nat.eqb (Score._id s) (Score._id existing)
                then {| Score._id := Score._id s;
                        Score.userId := Score.userId s;
                        Score.trustScore := Sync.trustScore args;
                        Score.impactScore := Sync.impactScore args;
                        Score.lastUpdated := now ctx;
                        Score.details := Sync.details args;
                        Score.evidence := Sync.evidence args |}
                else s).
    assert (Hg : forall s, Score.userId (g s) = Score.userId s).
    { intros s. unfold g. destruct (Nat.eqb (Score._id s) (Score._id existing)); reflexivity. }
    assert (Hu : Score.userId existing = Sync.userId args).
    { unfold scoreByUser in Hfound. apply find_some in Hfound.
      destruct Hfound as [_ H]. apply Nat.eqb_eq in H. exact H. }
    exists (g existing). unfold scoreByUser. cbn [scores].
    rewrite find_map_same by (intros s; rewrite Hg; reflexivity).
    unfold scoreByUser in Hfound. rewrite Hfound.
    split; [ reflexivity | ].
    unfold g. rewrite Nat.eqb_refl. cbn. repeat split. exact Hu.
  - eexists. unfold scoreByUser in *. cbn [scores].
    rewrite find_app_none by exact Hfound. cbn [find Score.userId].
    rewrite Nat.eqb_refl. repeat split.
Qed.

(** X26: after [updateScore], the score row that a lookup by user finds
    carries the new scores, details and evidence and the time of the call;
    the user has as many score rows as before, or one if there was none
    (an upsert); users, jobs and contact history are unchanged; and
    [getCurrentUser], for an engineer with that id, returns the user joined
    with that row. *)
Theorem updated_score_is_the_one_read (ctx : Ctx) (args : Sync.UpdateScore) (db : DB) :
  let db' := updateScore ctx args db in
  let ofUser := fun s => Nat.eqb (Score.userId s) (Sync.userId args) in
  (exists row,
      scoreByUser db' (Sync.userId args) = Some row
      /\ Score.userId row = Sync.userId args
      /\ Score.trustScore row = Sync.trustScore args
      /\ Score.impactScore row = Sync.impactScore args
      /\ Score.details row = Sync.details args
      /\ Score.evidence row = Sync.evidence args
      /\ Score.lastUpdated row = now ctx)
  /\ List.length (filter ofUser (scores db'))
     = Nat.max 1 (List.length (filter ofUser (scores db)))
  /\ users db' = users db /\ jobs db' = jobs db
  /\ contactHistory db' = contactHistory db
  /\ (forall subject user,
        userByToken db subject = Some user ->
        User.role user = engineer ->
        User._id user = Sync.userId args ->
        getCurrentUser (mkCtx (Some subject) (now ctx)) db'
        = Some {| profileUser := user;
                  profileScore := Some (scoreByUser db' (Sync.userId args)) |}).
Proof.
  cbv zeta. split; [ apply updated_score_row | ].
  unfold updateScore.
  destruct (scoreByUser db (Sync.userId args)) as [existing |] eqn:Hfound.
  - set (g := fun s : Score.t =>
                if Nat.eqb (Score._id s) (Score._id existing)
                then {| Score._id := Score._id s;
                        Score.userId := Score.userId s;
                        Score.trustScore := Sync.trustScore args;
                        Score.impactScore := Sync.impactScore args;
                        Score.lastUpdated := now ctx;
                        Score.details := Sync.details args;
                        Score.evidence := Sync.evidence args |}
                else s).
    assert (Hg : forall s, Score.userId (g s) = Score.userId s).
    { intros s. unfold g. destruct (Nat.eqb (Score._id s) (Score._id existing)); reflexivity. }
    split; [ | split; [ | split; [ | split ] ] ]; try reflexivity.
    + cbn [scores].
      rewrite filter_map_same by (intros s; rewrite Hg; reflexivity).
      rewrite length_map.
      pose proof (find_some_filter _ _ _ Hfound). unfold scoreByUser in *. lia.
    + intros subject user Huser Hrole Hid.
      unfold getCurrentUser. cbn [identity]. unfold userByToken in *. cbn [users].
      rewrite Huser, Hrole. cbn [Role_eqb]. rewrite Hid. reflexivity.
  - split; [ | split; [ | split; [ | split ] ] ]; try reflexivity.
    + cbn [scores]. rewrite filter_app. cbn [filter Score.userId].
      rewrite Nat.eqb_refl. rewrite length_app.
      unfold scoreByUser in Hfound. rewrite (find_none_filter _ _ Hfound). reflexivity.
    + intros subject user Huser Hrole Hid.
      unfold getCurrentUser. cbn [identity]. unfold userByToken in *. cbn [users].
      rewrite Huser, Hrole. cbn [Role_eqb]. rewrite Hid. reflexivity.
Qed.

End ConvexJobsAndScores.

Section ConvexContactsAndUsers.
Import Convex.
Local Open Scope string_scope.

Lemma Role_eqb_eq (a b : Role) : Role_eqb a b = true <-> a = b.
Proof.
  destruct a, b; cbn; split; intros H; try reflexivity; discriminate H.
Qed.

(** X27: [logContact] succeeds only for a caller stored as a recruiter.  On
    success the new entry, stamped with the time of the call and the
    caller's id, heads the candidate's contact history (newest first) and
    the rest of that history is as before; the histories of the other
    candidates, the users, the scores and the jobs are unchanged. *)
Theorem logged_contact_heads_the_history
  (ctx : Ctx) (candidateId : Id) (platform : Platform) (note : option string) (db : DB) :
  match logContact ctx candidateId platform note db with
  | Throw message =>
      (message = "Unauthenticated" \/ message = "Only recruiters can log contact history")
      /\ forall subject user,
           identity ctx = Some subject -> userByToken db subject = Some user ->
           User.role user = engineer
  | Ok (id, db') =>
      exists recruiter,
        option_map (userByToken db) (identity ctx) = Some (Some recruiter)
        /\ User.role recruiter = Convex.recruiter
        /\ id = nextId db
        /\ getContactHistory candidateId db'
           = {| Contact._id := id;
                Contact.recruiterId := User._id recruiter;
                Contact.candidateId := candidateId;
                Contact.platform := platform;
                Contact.timestamp := now ctx;
                Contact.note := note |} :: getContactHistory candidateId db
        /\ (forall other, other <> candidateId ->
              getContactHistory other db' = getContactHistory other db)
        /\ users db' = users db /\ scores db' = scores db /\ jobs db' = jobs db
  end.
Proof.
  unfold logContact.
  destruct (identity ctx) as [subject |].
  2:{ split; [ auto | ]. intros ? ? H. discriminate H. }
  destruct (userByToken db subject) as [user |] eqn:Huser.
  2:{ split; [ auto | ]. intros s u H Hu. injection H as <-. congruence. }
  destruct (User.role user) eqn:Hrole; cbn [Role_eqb negb].
  { split; [ auto | ]. intros s u H Hu. injection H as <-. congruence. }
  exists user. split; [ cbn; rewrite Huser; reflexivity | ].
  split; [ exact Hrole | ]. split; [ reflexivity | ].
  unfold getContactHistory. cbn [contactHistory].
  split; [ | split; [ | repeat split ] ].
  - rewrite filter_app. cbn [filter Contact.candidateId]. rewrite Nat.eqb_refl.
    rewrite rev_app_distr. reflexivity.
  - intros other Hother. rewrite filter_app. cbn [filter Contact.candidateId].
    destruct (Nat.eqb candidateId other) eqn:E.
    + apply Nat.eqb_eq in E. congruence.
    + rewrite app_nil_r. reflexivity.
Qed.

(** X28: [storeUser] throws exactly when the caller is not authenticated.
    Otherwise the user found under the caller's token afterwards has the
    returned id and the given name and email; the role is the one given,
    else the one stored, else [engineer]; a user is added only when the
    token was unknown; and storing the same arguments again returns the
    same id, adds no user and leaves the stored user as it is. *)
Theorem storing_a_user_again_adds_none (ctx : Ctx) (args : StoreUser) (db : DB) :
  match storeUser ctx args db with
  | Throw message => message = "Unauthenticated" /\ identity ctx = None
  | Ok (id, db') =>
      exists subject stored,
        identity ctx = Some subject
        /\ userByToken db' subject = Some stored
        /\ User._id stored = id
        /\ User.tokenIdentifier stored = subject
        /\ User.name stored = argName args
        /\ User.email stored = argEmail args
        /\ User.role stored
           = match argRole args, userByToken db subject with
             | Some role, _ => role
             | None, Some old => User.role old
             | None, None => engineer
             end
        /\ List.length (users db')
           = match userByToken db subject with
             | Some _ => List.length (users db)
             | None => S (List.length (users db))
             end
        /\ (exists db'',
              storeUser ctx args db' = Ok (id, db'')
              /\ userByToken db'' subject = Some stored
              /\ List.length (users db'') = List.length (users db'))
        /\ scores db' = scores db /\ jobs db' = jobs db
        /\ contactHistory db' = contactHistory db
  end.
Proof.
  unfold storeUser. cbv zeta.
  destruct (identity ctx) as [subject |]; [ | split; reflexivity ].
  destruct (userByToken db subject) as [user |] eqn:Huser; cbv beta iota.
  - set (patched := fun u : User.t =>
           {| User._id := User._id u;
              User.tokenIdentifier := User.tokenIdentifier u;
              User.role :=
                match argRole args with
                | Some r => if negb (Role_eqb (User.role user) r) then r else User.role u
                | None => User.role u
                end;
              User.name := argName args;
              User.email := argEmail args;
              User.username :=
                if JS.truthy_str (argUsername args) then argUsername args else User.username u;
              User.avatarUrl :=
                if JS.truthy_str (argAvatarUrl args) then argAvatarUrl args
                else User.avatarUrl u |}).
    set (g := fun u : User.t => if Nat.eqb (User._id u) (User._id user) then patched u else u).
    assert (Hg : forall u, User.tokenIdentifier (g u) = User.tokenIdentifier u).
    { intros u. unfold g. destruct (Nat.eqb (User._id u) (User._id user)); reflexivity. }
    assert (Htoken : User.tokenIdentifier user = subject).
    { unfold userByToken in Huser. apply find_some in Huser. destruct Huser as [_ H].
      apply String.eqb_eq in H. exact H. }
    assert (Hstored : userByToken
                        {| users := map g (users db); scores := scores db; jobs := jobs db;
                           contactHistory := contactHistory db; nextId := nextId db |}
                        subject = Some (patched user)).
    { unfold userByToken in *. cbn [users].
      rewrite find_map_same by (intros u; rewrite Hg; reflexivity).
      rewrite Huser. cbn [option_map]. unfold g. rewrite Nat.eqb_refl. reflexivity. }
    assert (Hrole : User.role (patched user)
                    = match argRole args with Some r => r | None => User.role user end).
    { cbn [patched User.role]. destruct (argRole args) as [r |]; [ | reflexivity ].
      destruct (Role_eqb (User.role user) r) eqn:E; cbn [negb]; [ | reflexivity ].
      apply Role_eqb_eq in E. exact E. }
    exists subject, (patched user).
    split; [ reflexivity | ]. split; [ exact Hstored | ].
    split; [ reflexivity | ]. split; [ exact Htoken | ].
    split; [ reflexivity | ]. split; [ reflexivity | ].
    split; [ rewrite Hrole, Huser; destruct (argRole args); reflexivity | ].
    split; [ rewrite Huser; cbn [users]; apply length_map | ].
    split; [ | repeat split ].
    match goal with
    | |- context [userByToken ?d subject] =>
        change d with {| users := map g (users db); scores := scores db; jobs := jobs db;
                         contactHistory := contactHistory db; nextId := nextId db |}
    end.
    rewrite Hstored. eexists. split; [ reflexivity | ].
    split; [ | cbn [users]; rewrite !length_map; reflexivity ].
    unfold userByToken in *. cbn [users].
    rewrite find_map_same.
    2:{ intros u. cbn [User._id patched].
        destruct (Nat.eqb (User._id u) (User._id user)); reflexivity. }
    rewrite find_map_same by (intros u; rewrite Hg; reflexivity).
    rewrite Huser. cbn [option_map]. f_equal.
    unfold g. rewrite Nat.eqb_refl. cbn [User._id patched]. rewrite Nat.eqb_refl.
    fold (patched user). rewrite Hrole.
    unfold patched. cbn [User._id User.tokenIdentifier User.role User.username User.avatarUrl].
    f_equal.
    + destruct (argRole args) as [r |]; [ | reflexivity ].
      assert (Role_eqb r r = true) as -> by (apply Role_eqb_eq; reflexivity).
      cbn [negb].
      destruct (Role_eqb (User.role user) r) eqn:E; cbn [negb]; [ | reflexivity ].
      apply Role_eqb_eq in E. symmetry. exact E.
    + destruct (JS.truthy_str (argUsername args)); reflexivity.
    + destruct (JS.truthy_str (argAvatarUrl args)); reflexivity.
  - set (user := {| User._id := nextId db;
                    User.tokenIdentifier := subject;
                    User.role := pick (argRole args) engineer;
                    User.name := argName args;
                    User.email := argEmail args;
                    User.username := argUsername args;
                    User.avatarUrl := Some (JSString.or_else (argAvatarUrl args) "") |}).
    assert (Hstored : userByToken
                        {| users := (users db ++ [user])%list; scores := scores db;
                           jobs := jobs db; contactHistory := contactHistory db;
                           nextId := S (nextId db) |} subject = Some user).
    { unfold userByToken in *. cbn [users].
      rewrite find_app_none by exact Huser. cbn [find User.tokenIdentifier user].
      rewrite String.eqb_refl. reflexivity. }
    exists subject, user.
    split; [ reflexivity | ]. split; [ exact Hstored | ].
    split; [ reflexivity | ]. split; [ reflexivity | ].
    split; [ reflexivity | ]. split; [ reflexivity | ].
    split; [ rewrite Huser; destruct (argRole args); reflexivity | ].
    split; [ rewrite Huser; cbn [users]; rewrite length_app; cbn; lia | ].
    split; [ | repeat split ].
    match goal with
    | |- context [userByToken ?d subject] =>
        change d with {| users := (users db ++ [user])%list; scores := scores db;
                         jobs := jobs db; contactHistory := contactHistory db;
                         nextId := S (nextId db) |}
    end.
    rewrite Hstored. eexists. split; [ reflexivity | ].
    split; [ | cbn [users]; rewrite !length_map; reflexivity ].
    unfold userByToken in *. cbn [users].
    rewrite find_map_same.
    2:{ intros u. destruct (Nat.eqb (User._id u) (User._id user)); reflexivity. }
    rewrite find_app_none by exact Huser. cbn [find User.tokenIdentifier user].
    rewrite String.eqb_refl. cbn [option_map]. f_equal.
    rewrite Nat.eqb_refl. unfold user.
    cbn [User._id User.tokenIdentifier User.role User.username User.avatarUrl].
    f_equal.
    + destruct (argRole args) as [r |]; cbn [pick]; [ | reflexivity ].
      assert (Role_eqb r r = true) as -> by (apply Role_eqb_eq; reflexivity).
      reflexivity.
    + destruct (JS.truthy_str (argUsername args)); reflexivity.
    + unfold JSString.or_else. destruct (argAvatarUrl args) as [[| c t] |]; reflexivity.
Qed.

End ConvexContactsAndUsers.

(* ===================================================================== *)
(** ** The sync, from what GitHub returned to what is stored *)
(* ===================================================================== *)

Section SyncResult.
Context {host : Host} {locale : Locale}.
Local Open Scope string_scope.
Local Open Scope float_scope.

Lemma trust_total_is_clamped
  (account : GitHubAccount.t) (pattern : ContributionPattern.t)
  (config : option Trust.TrustScoreConfig.t) (clock : Clock) :
  withinOrNaN 0 100
    (Trust.totalScore (runWith clock (Trust.calculateTrustScore account pattern config))).
Proof.
  unfold runWith, Trust.calculateTrustScore.
  cbn [bind Monad_state runState].
  destruct (runState (Trust.calculateAccountAuthenticity _ _ _) clock) as [accountAuth clock1].
  cbn [newDate runState ret Monad_state fst Trust.totalScore].
  apply clamped_from_below.
Qed.

Lemma impact_total_is_clamped
  (a : GitHubActivity.t) (config : option Impact.ImpactScoreConfig.t) (clock : Clock) :
  withinOrNaN 0 100 (Impact.totalScore (runWith clock (Impact.calculateImpactScore a config))).
Proof.
  unfold runWith, Impact.calculateImpactScore. cbv zeta.
  cbn [bind Monad_state runState].
  destruct (runState (Impact.calculatePRImpactScore _ _ _) clock) as [prImpact clock1].
  destruct (runState (mapClock _ _) clock1) as [recent clock2].
  cbn [fst ret Monad_state runState Impact.totalScore].
  apply clamped_from_below.
Qed.

(** X29: what [syncUser] hands to [updateScore], whatever GitHub returned:
    the id of the user; a trust and an impact score within [[0, 100]] or
    NaN; and as evidence the first five PRs of the search, each as a
    "repository" entry of impact 85 that names the PR's repository.
    After [updateScore] the score row found for the user carries these
    scores, details and evidence. *)
Theorem sync_saves_clamped_scores_and_five_contributions
  (userId : Id) (username : string) (ghUser : Jobs.APIUser) (repos : list Sync.APIRepo)
  (items : list Sync.SearchItem) (clock : Clock) (ctx : Convex.Ctx) (db : Convex.DB) :
  let saved := runWith clock (Sync.syncUser userId username ghUser repos items) in
  Sync.userId saved = userId
  /\ withinOrNaN 0 100 (Sync.trustScore saved)
  /\ withinOrNaN 0 100 (Sync.impactScore saved)
  /\ List.length (Sync.evidence saved) = Nat.min 5 (List.length items)
  /\ map (fun e => (Sync.type e, Sync.repository (Sync.data e), Sync.impact (Sync.data e)))
         (Sync.evidence saved)
     = map (fun item => ("repository", Sync.repositoryOf (Sync.repository_url item), 85))
           (firstn 5 items)
  /\ exists row,
       Convex.scoreByUser (Convex.updateScore ctx saved db) userId = Some row
       /\ Convex.Score.trustScore row = Sync.trustScore saved
       /\ Convex.Score.impactScore row = Sync.impactScore saved
       /\ Convex.Score.details row = Sync.details saved
       /\ Convex.Score.evidence row = Sync.evidence saved.
Proof.
  cbv zeta.
  unfold runWith, Sync.syncUser.
  cbn [bind Monad_state runState].
  destruct (runState (Sync.inputsOf username ghUser repos items) clock) as [inputs clock1] eqn:Ein.
  assert (Hprs : GitHubActivity.mergedPRs (Sync.activity inputs)
                 = map (Sync.mergedPROf username) items).
  { destruct (inputsOf_pattern username ghUser repos items clock) as (first & last & _ & H).
    unfold runWith in H. rewrite Ein in H. cbn [fst] in H. rewrite H. reflexivity. }
  cbn [fst snd].
  pose proof (trust_total_is_clamped (Sync.account inputs) (Sync.pattern inputs) None clock1)
    as Htrust.
  unfold runWith in Htrust.
  destruct (runState (Trust.calculateTrustScore _ _ _) clock1) as [trustResult clock2] eqn:Et.
  pose proof (impact_total_is_clamped (Sync.activity inputs) None clock2) as Himpact.
  unfold runWith in Himpact.
  destruct (runState (Impact.calculateImpactScore _ _) clock2) as [impactResult clock3] eqn:Ei.
  cbn [fst snd] in Htrust, Himpact.
  cbn [fst snd ret Monad_state runState Sync.userId Sync.trustScore Sync.impactScore
       Sync.evidence].
  split; [ reflexivity | ]. split; [ exact Htrust | ]. split; [ exact Himpact | ].
  rewrite Hprs, firstn_map.
  split; [ rewrite !length_map, length_firstn; reflexivity | ].
  split; [ rewrite !map_map; reflexivity | ].
  match goal with
  | |- context [Convex.updateScore ctx ?s db] => set (saved := s)
  end.
  destruct (updated_score_row ctx saved db)
    as (row & Hrow & _ & Htrust' & Himpact' & Hdetails & Hevidence & _).
  exists row. repeat split; assumption.
Qed.

End SyncResult.

(* ===================================================================== *)
(** ** Worked instances                                                   *)
(* ===================================================================== *)

(** X2, at the ordinary pattern of the test suite (20 PRs, 3 of them to
    forks) and an account one year old: the result is authentic, and so
    its total is at least 60 and nothing speaks of fork farming. *)
Lemma authentic_means_60_and_no_fork_farming_in_the_test_pattern :
  let pattern := Fixtures.mockPattern 20 3 17 [] in
  let account := Fixtures.mockAccount (Fixtures.now - 365 * Fixtures.day)%Z in
  let r :=
    runWith (Fixtures.stoppedAt Fixtures.now)
            (@Trust.calculateTrustScore Fixtures.sampleHost account pattern None) in
  Trust.isAuthentic r = true
  /\ PrimFloat.leb 60 (Trust.totalScore r) = true
  /\ Trust.forkFarming (Trust.spamDetection r) = false
  /\ (List.length (Trust.redFlags r) < 3)%nat
  /\ ~ In "Fork-only contributions detected"%string (Trust.redFlags r).
Proof.
  cbv zeta.
  assert (Hauthentic :
    Trust.isAuthentic
      (runWith (Fixtures.stoppedAt Fixtures.now)
         (@Trust.calculateTrustScore Fixtures.sampleHost
            (Fixtures.mockAccount (Fixtures.now - 365 * Fixtures.day)%Z)
            (Fixtures.mockPattern 20 3 17 []) None)) = true)
    by (vm_compute; reflexivity).
  split; [ exact Hauthentic | ].
  exact (@authentic_means_60_and_no_fork_farming Fixtures.sampleHost
           (Fixtures.mockAccount (Fixtures.now - 365 * Fixtures.day)%Z)
           (Fixtures.mockPattern 20 3 17 []) None (Fixtures.stoppedAt Fixtures.now)
           Hauthentic).
Defined.

(** X14, at the same pattern: "High maintainer trust" is a green flag of
    the result, and is shown twice among the key trust signals. *)
Lemma key_trust_signals_repeat_the_green_flags_in_the_test_pattern :
  let pattern := Fixtures.mockPattern 20 3 17 [] in
  let account := Fixtures.mockAccount (Fixtures.now - 365 * Fixtures.day)%Z in
  let tr :=
    runWith (Fixtures.stoppedAt Fixtures.now)
            (@Trust.calculateTrustScore Fixtures.sampleHost account pattern None) in
  In "High maintainer trust"%string (Trust.greenFlags tr)
  /\ count_occ string_dec
       (Explanation.keyTrustSignals (Explanation.extractTrustIndicators tr))
       "High maintainer trust"%string = 2%nat.
Proof.
  cbv zeta.
  assert (Hflag :
    In "High maintainer trust"%string
       (Trust.greenFlags
          (runWith (Fixtures.stoppedAt Fixtures.now)
             (@Trust.calculateTrustScore Fixtures.sampleHost
                (Fixtures.mockAccount (Fixtures.now - 365 * Fixtures.day)%Z)
                (Fixtures.mockPattern 20 3 17 []) None))))
    by (vm_compute; left; reflexivity).
  split; [ exact Hflag | ].
  exact (@key_trust_signals_repeat_the_green_flags Fixtures.sampleHost
           (Fixtures.mockAccount (Fixtures.now - 365 * Fixtures.day)%Z)
           (Fixtures.mockPattern 20 3 17 []) None (Fixtures.stoppedAt Fixtures.now)
           "High maintainer trust"%string (or_introl eq_refl) Hflag).
Defined.

(** X15, at the fork-farming pattern of the test suite (three fork-only
    repositories, no contribution to an original one), matched with the
    compatibility and impact results of the recruiter-match suite. *)
Lemma fork_farming_reaches_every_view_in_the_test_pattern :
  let pattern := Fixtures.mockPattern 20 20 0 ["fork1"; "fork2"; "fork3"]%string in
  let account := Fixtures.mockAccount (Fixtures.now - 365 * Fixtures.day)%Z in
  let tr :=
    runWith (Fixtures.stoppedAt Fixtures.now)
            (@Trust.calculateTrustScore Fixtures.sampleHost account pattern None) in
  let cr := Fixtures.mockCompatibilityResult 75 in
  let ir := Fixtures.mockImpactResult 70 in
  let m := RecruiterMatch.calculateRecruiterMatchScore tr cr ir None in
  let e := Explanation.generateMatchExplanation tr ir cr in
  Trust.forkFarming (Trust.spamDetection tr) = true
  /\ RecruiterMatch.RecruiterView.isAuthentic (RecruiterMatch.recruiterView m) = false
  /\ firstn 2 (RecruiterMatch.RecruiterView.redFlags (RecruiterMatch.recruiterView m))
     = ["Profile authenticity concerns"; "Fork-only contributions detected"]%string
  /\ map Explanation.Concern.title (firstn 2 (Explanation.concerns e))
     = ["Profile Authenticity Concerns"; "Fork-Only Contributions"]%string.
Proof.
  cbv zeta.
  assert (Hfarming :
    Trust.forkFarming
      (Trust.spamDetection
         (runWith (Fixtures.stoppedAt Fixtures.now)
            (@Trust.calculateTrustScore Fixtures.sampleHost
               (Fixtures.mockAccount (Fixtures.now - 365 * Fixtures.day)%Z)
               (Fixtures.mockPattern 20 20 0 ["fork1"; "fork2"; "fork3"]%string) None)))
    = true) by (vm_compute; reflexivity).
  split; [ exact Hfarming | ].
  pose proof (@fork_farming_reaches_every_view Fixtures.sampleHost
                (Fixtures.mockAccount (Fixtures.now - 365 * Fixtures.day)%Z)
                (Fixtures.mockPattern 20 20 0 ["fork1"; "fork2"; "fork3"]%string)
                None (Fixtures.stoppedAt Fixtures.now)
                (Fixtures.mockCompatibilityResult 75) (Fixtures.mockImpactResult 70) None
                Hfarming) as (Hview & Hflags & _ & Hconcerns & _).
  split; [ exact Hview | ]. split; [ exact Hflags | exact Hconcerns ].
Defined.

(** X11, at an engineer without PRs, whose compatibility total is NaN
    (0/0 in the technology mismatch), with the trust and impact results of
    the recruiter-match suite (85 and 70): the match is not gated to 0, its
    total is NaN. *)
Lemma NaN_total_passes_the_gate_without_PRs :
  let trustResult := Fixtures.mockTrustResult 85 in
  let compatibilityResult :=
    Compatibility.calculateCompatibilityScore
      (Fixtures.mockEngineerActivity []) Fixtures.backendQuery in
  let impactResult := Fixtures.mockImpactResult 70 in
  let r :=
    RecruiterMatch.calculateRecruiterMatchScore
      trustResult compatibilityResult impactResult None in
  is_nan (Compatibility.totalScore compatibilityResult) = true
  /\ is_nan (RecruiterMatch.totalMatchScore r) = true
  /\ is_nan (RecruiterMatch.resultCompatibilityComponent r) = true
  /\ RecruiterMatch.RecruiterView.matchLevel (RecruiterMatch.recruiterView r)
     = RecruiterMatch.poor
  /\ RecruiterMatch.RecruiterView.recommendation (RecruiterMatch.recruiterView r)
     = RecruiterMatch.not_recommended.
Proof.
  cbv zeta.
  assert (HNaN :
    is_nan
      (Compatibility.totalScore
         (Compatibility.calculateCompatibilityScore
            (Fixtures.mockEngineerActivity []) Fixtures.backendQuery)) = true)
    by (vm_compute; reflexivity).
  split; [ exact HNaN | ].
  exact (NaN_total_passes_the_gate
           (Fixtures.mockTrustResult 85)
           (Compatibility.calculateCompatibilityScore
              (Fixtures.mockEngineerActivity []) Fixtures.backendQuery)
           (Fixtures.mockImpactResult 70) None HNaN eq_refl eq_refl).
Defined.

(** X20, at a repository URL of the GitHub API and at a file of a PR. *)
Lemma repository_and_directory_are_read_off_an_API_url :
  Sync.repositoryOf "https://api.github.com/repos/octocat/Hello-World"%string
  = "octocat/Hello-World"%string
  /\ Analyzer.directoryOf "src/api/users.py"%string = "src/api"%string.
Proof.
  destruct repository_and_directory_are_read_off_the_path as (Hrepository & Hdirectory & _).
  split.
  - exact (Hrepository "https://api.github.com/repos"%string "octocat"%string
             "Hello-World"%string eq_refl eq_refl).
  - exact (proj1 (Hdirectory "src/api"%string "users.py"%string eq_refl)).
Defined.
